(** * gemini_yt_cleaner: a shallow embedding of [transcript.py]

    The script reads a YouTube URL, extracts the video identifier with two
    regular expressions, fetches the title and the captions, renders the
    captions as timestamped lines, saves them, asks a generative model for a
    clean version and saves that too.

    How the program is modelled:
    - Python strings are sequences of Unicode code points: a character is a
      code point in [N], a string is a [list N], and the string literals of
      the script are written with [lit];
    - [re] is a small backtracking matcher over the constructs the two
      patterns use, with one capture group;
    - a caption's start offset is a binary64 number ([spec_float]), [int]
      cuts it to an integer or raises, and [timedelta] prints it;
    - exceptions are values ([res]), and the functions that print, fetch or
      write run in [io], a state monad over the file system and the list of
      emitted events; what the outside world answers, and whether the file
      system refuses an operation, is read from an [env];
    - paths are joined as [posixpath] does.

    The definitions come first: the program, then the vocabulary of the
    statements.  The lemmas and theorems follow, in the order of the
    program.  *)

From Stdlib Require Import ZArith NArith List Ascii String Lia Bool.
From Stdlib Require Import Floats.SpecFloat DecimalString.
From stdpp Require Import base list gmap.

Local Open Scope list_scope.

(** * The program *)

(** ** Strings *)

Module Str.

Definition lit (s : string) : list N :=
  List.map N_of_ascii (list_ascii_of_string s).

(** Code points that have no plain spelling inside a literal. *)
Definition nl : N := 10%N.
Definition dquote : N := 34%N.

Definition eqb_char (a b : N) : bool := N.eqb a b.

(** [s.replace(c, '')] for a one-character [c]: every occurrence goes. *)
Definition remove_char (c : N) (s : list N) : list N :=
  List.filter (fun x => negb (eqb_char c x)) s.

(** [str.isspace] on one code point: CPython's [_PyUnicode_IsWhitespace]. *)
Definition isspace (c : N) : bool :=
  ((9 <=? c) && (c <=? 13) || (28 <=? c) && (c <=? 32)
   || (c =? 133) || (c =? 160) || (c =? 5760)
   || (8192 <=? c) && (c <=? 8202)
   || (c =? 8232) || (c =? 8233) || (c =? 8239) || (c =? 8287)
   || (c =? 12288))%N.

Fixpoint lstrip (s : list N) : list N :=
  match s with
  | c :: t => if isspace c then lstrip t else s
  | [] => []
  end.

Definition rstrip (s : list N) : list N := rev (lstrip (rev s)).

(** [s.strip()] *)
Definition strip (s : list N) : list N := rstrip (lstrip s).

(** [sep.join(parts)] *)
Fixpoint join (sep : list N) (parts : list (list N)) : list N :=
  match parts with
  | [] => []
  | [p] => p
  | p :: rest => p ++ sep ++ join sep rest
  end.

(** [s.startswith(p)] *)
Fixpoint startswith (p s : list N) : bool :=
  match p, s with
  | [], _ => true
  | a :: p', b :: s' => eqb_char a b && startswith p' s'
  | _ :: _, [] => false
  end.

Definition endswith (p s : list N) : bool := startswith (rev p) (rev s).

(** Truth value of a string: the empty string is false.  Where the script
    tests an optional value ([if video_id:], [if transcript:]) the pattern
    [Some (_ :: _)] is the true case: neither [None] nor an empty value. *)
Definition truthy (s : list N) : bool :=
  match s with [] => false | _ :: _ => true end.

End Str.

Import Str.

(** ** Regular expressions: the fragment of [re] the script uses

    A backtracking matcher in the style of [re]: [rmatch r s g] lists, in the
    order in which the engine would try them, the ways [r] can match a prefix
    of [s]; each is the remaining input together with the content of capture
    group 1.  The patterns of the script have a single capturing group.  *)

Module Re.

Inductive regex : Type :=
| Lit (c : N)                       (* a literal character *)
| Dot                               (* [.]: any character but a newline *)
| Class (ranges : list (N * N))     (* [[a-b...]] *)
| Seq (r1 r2 : regex)
| Alt (r1 r2 : regex)               (* [r1|r2], [r1] tried first *)
| Repeat (n : nat) (r : regex)      (* [r{n}] *)
| Star (r : regex)                  (* [r*], greedy *)
| Group (r : regex).                (* [(r)], capture group 1 *)

Definition in_class (ranges : list (N * N)) (c : N) : bool :=
  existsb (fun '(lo, hi) => (lo <=? c) && (c <=? hi))%N ranges.

Definition result : Type := list N * option (list N).

(** [r{n}] and [r*] over the matcher [m] of [r].  A round of [r*] that
    consumes nothing ends the repetition, as in [re]. *)
Fixpoint rmatch_repeat (m : list N -> option (list N) -> list result)
  (n : nat) (s : list N) (g : option (list N)) : list result :=
  match n with
  | O => [(s, g)]
  | S n' => flat_map (fun '(s1, g1) => rmatch_repeat m n' s1 g1) (m s g)
  end.

Fixpoint rmatch_star (m : list N -> option (list N) -> list result)
  (fuel : nat) (s : list N) (g : option (list N)) : list result :=
  match fuel with
  | O => [(s, g)]
  | S fuel' =>
      flat_map (fun '(s1, g1) =>
                  if (length s1 <? length s)%nat
                  then rmatch_star m fuel' s1 g1 else [])
               (m s g)
      ++ [(s, g)]
  end.

Fixpoint rmatch (r : regex) (s : list N) (g : option (list N))
  {struct r} : list result :=
  match r with
  | Lit c =>
      match s with
      | x :: t => if eqb_char c x then [(t, g)] else []
      | [] => []
      end
  | Dot =>
      match s with
      | x :: t => if eqb_char nl x then [] else [(t, g)]
      | [] => []
      end
  | Class ranges =>
      match s with
      | x :: t => if in_class ranges x then [(t, g)] else []
      | [] => []
      end
  | Seq r1 r2 =>
      flat_map (fun '(s1, g1) => rmatch r2 s1 g1) (rmatch r1 s g)
  | Alt r1 r2 => rmatch r1 s g ++ rmatch r2 s g
  | Repeat n r1 => rmatch_repeat (rmatch r1) n s g
  | Star r1 => rmatch_star (rmatch r1) (length s) s g
  | Group r1 =>
      List.map (fun '(s1, _) =>
                  (s1, Some (firstn (length s - length s1) s)))
               (rmatch r1 s g)
  end.

(** A match object: only [group(1)] is ever read. *)
Record match_obj : Type := { group1 : option (list N) }.

(** [re.search(r, s)]: leftmost start position, first way the engine finds. *)
Fixpoint search (r : regex) (s : list N) : option match_obj :=
  match rmatch r s None with
  | (_, g) :: _ => Some {| group1 := g |}
  | [] =>
      match s with
      | [] => None
      | _ :: t => search r t
      end
  end.

(** Sequence of literals. *)
Fixpoint lits (s : list N) (k : regex) : regex :=
  match s with
  | [] => k
  | c :: t => Seq (Lit c) (lits t k)
  end.

End Re.

Import Re.

(** ** [extract_video_id] *)

(** [[0-9A-Za-z_-]] *)
Definition id_class : list (N * N) :=
  [(48, 57); (65, 90); (97, 122); (95, 95); (45, 45)]%N.

Definition slash : N := 47%N.

(** [(?:v=|\/)([0-9A-Za-z_-]{11}).*] *)
Definition pattern1 : regex :=
  Seq (Alt (Seq (Lit 118%N) (Lit 61%N)) (Lit slash))
      (Seq (Group (Repeat 11 (Class id_class))) (Star Dot)).

(** [youtu.be\/([0-9A-Za-z_-]{11})] *)
Definition pattern2 : regex :=
  lits (lit "youtu")
       (Seq Dot (lits (lit "be") (Seq (Lit slash)
                                      (Group (Repeat 11 (Class id_class)))))).

Definition patterns : list regex := [pattern1; pattern2].

(** The [for] loop over [patterns]; [match.group(1)] of a match whose group
    did not take part is [None] in Python as well. *)
Fixpoint first_match (ps : list regex) (url : list N) : option (list N) :=
  match ps with
  | [] => None
  | p :: rest =>
      match search p url with
      | Some m => group1 m
      | None => first_match rest url
      end
  end.

Definition extract_video_id (url : list N) : option (list N) :=
  first_match patterns url.

(** ** Exceptions and fallible values *)

Record exn : Type := Exn { exn_type : string; exn_msg : list N }.

(** [str(e)] *)
Definition str_of_exn (e : exn) : list N := exn_msg e.

Inductive res (A : Type) : Type :=
| Ok (a : A)
| Raise (e : exn).
Arguments Ok {A} a.
Arguments Raise {A} e.

Definition res_bind {A B : Type} (m : res A) (k : A -> res B) : res B :=
  match m with
  | Ok a => k a
  | Raise e => Raise e
  end.

(** A [for] loop that collects one value per element and stops at the first
    exception. *)
Fixpoint res_map {A B : Type} (f : A -> res B) (l : list A) : res (list B) :=
  match l with
  | [] => Ok []
  | x :: t =>
      res_bind (f x) (fun y => res_bind (res_map f t) (fun ys => Ok (y :: ys)))
  end.

(** ** [format_timestamp]: [int], [timedelta] and its [str] *)

Module Py.

(** [int(x)] on a binary64 value: the value with its fraction cut off
    (towards zero); infinities and NaN raise. *)
Definition int_of_float (x : spec_float) : res Z :=
  match x with
  | S754_zero _ => Ok 0%Z
  | S754_infinity _ =>
      Raise (Exn "OverflowError" (lit "cannot convert float infinity to integer"))
  | S754_nan =>
      Raise (Exn "ValueError" (lit "cannot convert float NaN to integer"))
  | S754_finite sign m e =>
      let magnitude := Z.shiftl (Z.pos m) e in
      Ok (if sign then (- magnitude)%Z else magnitude)
  end.

(** ['%d' % z] *)
Definition fmt_d (z : Z) : list N := lit (NilZero.string_of_int (Z.to_int z)).

(** ['%0wd' % z]: the sign, then zeros up to width [w], then the digits. *)
Definition fmt_0d (w : nat) (z : Z) : list N :=
  let digits := fmt_d (Z.abs z) in
  let sign := if (z <? 0)%Z then lit "-" else [] in
  sign ++ repeat 48%N (w - length sign - length digits) ++ digits.

(** [datetime.timedelta], normalised: [0 <= seconds < 86400],
    [0 <= microseconds < 1000000]. *)
Record timedelta : Type :=
  { days : Z; seconds : Z; microseconds : Z }.

Definition max_days : Z := 999999999.

(** [timedelta(seconds=n)] for an integer [n]. *)
Definition timedelta_of_seconds (n : Z) : res timedelta :=
  let d := (n / 86400)%Z in
  if (d <? - 2 ^ 31)%Z || (2 ^ 31 <=? d)%Z
  then Raise (Exn "OverflowError"
                  (lit "Python int too large to convert to C int"))
  else if (Z.abs d >? max_days)%Z
  then Raise (Exn "OverflowError"
                  (lit "days=" ++ fmt_d d
                   ++ lit "; must have magnitude <= 999999999"))
  else Ok {| days := d; seconds := (n mod 86400)%Z; microseconds := 0 |}.

(** [timedelta.__str__] *)
Definition timedelta_str (td : timedelta) : list N :=
  let mm := (seconds td / 60)%Z in
  let ss := (seconds td mod 60)%Z in
  let hh := (mm / 60)%Z in
  let mm := (mm mod 60)%Z in
  let s := fmt_d hh ++ lit ":" ++ fmt_0d 2 mm ++ lit ":" ++ fmt_0d 2 ss in
  let s :=
    if (days td =? 0)%Z then s
    else fmt_d (days td) ++ lit " day"
         ++ (if (Z.abs (days td) =? 1)%Z then [] else lit "s")
         ++ lit ", " ++ s in
  if (microseconds td =? 0)%Z then s
  else s ++ lit "." ++ fmt_0d 6 (microseconds td).

(** [posixpath.join(a, b)] *)
Definition path_join (a b : list N) : list N :=
  if startswith [slash] b then b
  else if negb (truthy a) || endswith [slash] a then a ++ b
  else a ++ [slash] ++ b.

End Py.

Import Py.

Definition format_timestamp (seconds : spec_float) : res (list N) :=
  res_bind (int_of_float seconds) (fun n =>
  res_bind (timedelta_of_seconds n) (fun td =>
  Ok (timedelta_str td))).

(** One caption unit as the transcript service returns it (its duration is
    never read). *)
Record entry : Type := { start : spec_float; text : list N }.

(** The f-string [[{timestamp}] {text}] of both loops. *)
Definition format_line (e : entry) : res (list N) :=
  res_bind (format_timestamp (start e)) (fun timestamp =>
  Ok (lit "[" ++ timestamp ++ lit "] " ++ text e)).

(** ** [sanitize_filename] *)

Definition invalid_chars : list N := lit "<>:" ++ [dquote] ++ lit "/\|?*".

Definition sanitize_filename (filename : list N) : list N :=
  let filename :=
    fold_left (fun name char => remove_char char name) invalid_chars filename in
  firstn 200 (strip filename).

(** ** The world the script runs in

    What the script changes is the file system and what it emits: console
    output and requests.  What it cannot control is in [env]: the line typed
    by the user, the answers of the three services, and whether the file
    system refuses an operation.  Console output is taken not to fail.  *)

Module IO.

Inductive event : Type :=
| EvInput (prompt : list N)
| EvPrint (line : list N)
| EvHttpGet (url : list N)
| EvGetTranscript (video_id : list N)
| EvGenerate (model : list N) (prompt : list N)
| EvMakedirs (path : list N)
| EvOpen (path : list N).

Record world : Type :=
  World { fs_files : gmap (list N) (list N);
          fs_dirs : gset (list N);
          trace : list event }.

(** [requests.get]: either it raises, or there is a response with a status
    code and what [response.json()['title']] evaluates to. *)
Record response : Type :=
  { status_code : Z; json_title : res (list N) }.

Record env : Type :=
  { stdin_line : list N;
    requests_get : list N -> res response;
    api_get_transcript : list N -> res (list entry);
    (** [from google import genai] and [genai.Client(...)]: the exception
        one of them raises, if any *)
    genai_client : option exn;
    (** [client.models.generate_content(...)], given the model name and the
        prompt; the value is [response.text] *)
    generate_content : list N -> list N -> res (option (list N));
    makedirs_error : list N -> option exn;
    open_error : list N -> option exn;
    write_error : list N -> list N -> option exn }.

Definition io (A : Type) : Type := world -> res A * world.

#[global] Instance io_ret : MRet io := fun A a w => (Ok a, w).

#[global] Instance io_bind : MBind io := fun A B k m w =>
  match m w with
  | (Ok a, w') => k a w'
  | (Raise e, w') => (Raise e, w')
  end.

Definition raise {A : Type} (e : exn) : io A := fun w => (Raise e, w).

Definition lift {A : Type} (r : res A) : io A := fun w => (r, w).

(** [try: body  except Exception as e: handler(e)]; what [body] did before
    it raised stays done. *)
Definition try_except {A : Type} (body : io A) (handler : exn -> io A)
  : io A := fun w =>
  match body w with
  | (Ok a, w') => (Ok a, w')
  | (Raise e, w') => handler e w'
  end.

Fixpoint for_each {A : Type} (l : list A) (body : A -> io unit) : io unit :=
  match l with
  | [] => mret tt
  | x :: t => body x ;; for_each t body
  end.

Definition emit (ev : event) : io unit := fun w =>
  (Ok tt, World (fs_files w) (fs_dirs w) (trace w ++ [ev])).

Definition print (line : list N) : io unit := emit (EvPrint line).

Section Primitives.

Variable E : env.

Definition input (prompt : list N) : io (list N) :=
  emit (EvInput prompt) ;; mret (stdin_line E).

Definition os_path_exists (path : list N) : io bool := fun w =>
  (Ok (bool_decide (path ∈ fs_dirs w)
       || bool_decide (is_Some (fs_files w !! path))), w).

Definition os_makedirs (path : list N) : io unit :=
  emit (EvMakedirs path) ;;
  match makedirs_error E path with
  | Some e => raise e
  | None => fun w =>
      (Ok tt, World (fs_files w) ({[path]} ∪ fs_dirs w) (trace w))
  end.

(** [open(path, 'w', encoding='utf-8')]: the file is created or emptied. *)
Definition open_w (path : list N) : io unit :=
  emit (EvOpen path) ;;
  match open_error E path with
  | Some e => raise e
  | None => fun w =>
      (Ok tt, World (<[path := []]> (fs_files w)) (fs_dirs w) (trace w))
  end.

(** [f.write(chunk)] on the file opened at [path]. *)
Definition write (path chunk : list N) : io unit :=
  match write_error E path chunk with
  | Some e => raise e
  | None => fun w =>
      (Ok tt, World (alter (fun old => old ++ chunk) path (fs_files w))
                    (fs_dirs w) (trace w))
  end.

End Primitives.

End IO.

Import IO.

(** ** The functions of the script *)

Section Script.

Variable E : env.

Definition oembed_url (video_id : list N) : list N :=
  lit "https://www.youtube.com/oembed?url=http://www.youtube.com/watch?v="
  ++ video_id ++ lit "&format=json".

Definition get_video_title (video_id : list N) : io (option (list N)) :=
  try_except
    (emit (EvHttpGet (oembed_url video_id)) ;;
     response ← lift (requests_get E (oembed_url video_id));
     if (status_code response =? 200)%Z
     then title ← lift (json_title response); mret (Some title)
     else mret None)
    (fun e =>
       print (lit "Error fetching video title: " ++ str_of_exn e) ;;
       mret None).

Definition get_transcript (video_id : list N) : io (option (list entry)) :=
  try_except
    (emit (EvGetTranscript video_id) ;;
     transcript ← lift (api_get_transcript E video_id);
     mret (Some transcript))
    (fun e =>
       print (lit "Error fetching transcript: " ++ str_of_exn e) ;;
       mret None).

Definition transcripts : list N := lit "transcripts".

(** [video_title or 'Unknown Title'] *)
Definition title_or_unknown (video_title : option (list N)) : list N :=
  match video_title with
  | Some t => if truthy t then t else lit "Unknown Title"
  | None => lit "Unknown Title"
  end.

(** [sanitize_filename(video_title) if video_title else video_id] *)
Definition base_filename (video_id : list N) (video_title : option (list N))
  : list N :=
  match video_title with
  | Some t => if truthy t then sanitize_filename t else video_id
  | None => video_id
  end.

Definition ensure_transcripts_dir : io unit :=
  present ← os_path_exists transcripts;
  if negb present then os_makedirs E transcripts else mret tt.

Definition raw_filepath (video_id : list N) (video_title : option (list N))
  : list N :=
  path_join transcripts (base_filename video_id video_title ++ lit "_raw.md").

Definition cleaned_filepath (video_id : list N)
  (video_title : option (list N)) : list N :=
  path_join transcripts (base_filename video_id video_title ++ lit ".md").

Definition save_raw_transcript (video_id : list N)
  (video_title : option (list N)) (transcript : list entry)
  : io (option (list N)) :=
  ensure_transcripts_dir ;;
  let filepath := raw_filepath video_id video_title in
  try_except
    (open_w E filepath ;;
     write E filepath (lit "# " ++ title_or_unknown video_title
                       ++ lit " (Raw Transcript)" ++ [nl; nl]) ;;
     write E filepath (lit "---" ++ [nl; nl]) ;;
     for_each transcript (fun entry =>
       timestamp ← lift (format_timestamp (start entry));
       write E filepath
             (lit "[" ++ timestamp ++ lit "] " ++ text entry ++ [nl])) ;;
     print (lit "Raw transcript saved to " ++ filepath) ;;
     mret (Some filepath))
    (fun e =>
       print (lit "Error saving raw transcript: " ++ str_of_exn e) ;;
       mret None).

Definition save_cleaned_transcript (video_id : list N)
  (video_title : option (list N)) (cleaned_text : list N)
  : io (option (list N)) :=
  ensure_transcripts_dir ;;
  let filepath := cleaned_filepath video_id video_title in
  try_except
    (open_w E filepath ;;
     write E filepath (lit "# " ++ title_or_unknown video_title
                       ++ lit " (Cleaned Transcript)" ++ [nl; nl]) ;;
     write E filepath (lit "---" ++ [nl; nl]) ;;
     write E filepath cleaned_text ;;
     print (lit "Cleaned transcript saved to " ++ filepath) ;;
     mret (Some filepath))
    (fun e =>
       print (lit "Error saving cleaned transcript: " ++ str_of_exn e) ;;
       mret None).

Definition gemini_model : list N := lit "gemini-2.0-flash-exp".

Definition gemini_prompt (raw_transcript_text : list N) : list N :=
  lit "The following is a raw YouTube transcript. "
  ++ lit "Please reformat the transcript into clear paragraphs. "
  ++ lit "Each paragraph should begin with the timestamp of the first line in that paragraph, "
  ++ lit "and the formatting should be cleaned up (remove extraneous line breaks, duplicate timestamps, etc.)."
  ++ [nl; nl] ++ lit "Transcript:" ++ [nl] ++ raw_transcript_text.

Definition clean_transcript_with_gemini (raw_transcript_text : list N)
  : io (option (list N)) :=
  try_except
    (match genai_client E with
     | Some e => raise e
     | None => mret tt
     end ;;
     let prompt := gemini_prompt raw_transcript_text in
     emit (EvGenerate gemini_model prompt) ;;
     lift (generate_content E gemini_model prompt))
    (fun e =>
       print (lit "Error cleaning transcript with Gemini: " ++ str_of_exn e) ;;
       mret None).

Definition bar : list N := lit "==========================".

Definition main : io unit :=
  url ← input E (lit "Please enter the YouTube video URL: ");
  let video_id := extract_video_id url in
  match video_id with
  | Some ((_ :: _) as video_id) =>
      print (lit "Video ID: " ++ video_id) ;;
      video_title ← get_video_title video_id;
      transcript ← get_transcript video_id;
      match transcript with
      | Some ((_ :: _) as transcript) =>
          raw_transcript_lines ← lift (res_map format_line transcript);
          let raw_transcript_text := join [nl] raw_transcript_lines in
          print ([nl] ++ lit "Raw Transcript:") ;;
          print bar ;;
          print (lit "Title: " ++ title_or_unknown video_title) ;;
          print bar ;;
          print raw_transcript_text ;;
          save_raw_transcript video_id video_title transcript ;;
          print ([nl] ++ lit "Cleaning transcript with Gemini (this may take a moment)...") ;;
          cleaned_transcript ← clean_transcript_with_gemini raw_transcript_text;
          match cleaned_transcript with
          | Some ((_ :: _) as cleaned_transcript) =>
              print ([nl] ++ lit "Cleaned Transcript:") ;;
              print bar ;;
              print cleaned_transcript ;;
              save_cleaned_transcript video_id video_title cleaned_transcript ;;
              mret tt
          | _ => print (lit "Failed to clean transcript.")
          end
      | _ => print (lit "Transcript not available.")
      end
  | _ => print (lit "Invalid YouTube URL.")
  end.

End Script.

(** * The vocabulary of the statements *)

(** ** Identifiers in URLs *)

(** Eleven characters, all of the class [[0-9A-Za-z_-]]. *)
Definition is_video_id (x : list N) : bool :=
  (length x =? 11)%nat && forallb (in_class id_class) x.

(** What follows a leading [v=] or [/], if [s] starts with one. *)
Definition after_marker (s : list N) : option (list N) :=
  if startswith (lit "v=") s then Some (skipn 2 s)
  else if startswith (lit "/") s then Some (skipn 1 s)
  else None.

(** The identifier right after a marker at the start of [s]. *)
Definition id_at (s : list N) : option (list N) :=
  match after_marker s with
  | Some t => if is_video_id (firstn 11 t) then Some (firstn 11 t) else None
  | None => None
  end.

(** The identifier after the leftmost marker that is followed by one. *)
Fixpoint leftmost_id (s : list N) : option (list N) :=
  match id_at s with
  | Some x => Some x
  | None =>
      match s with
      | [] => None
      | _ :: t => leftmost_id t
      end
  end.

(** No marker inside [p] is followed by eleven identifier characters. *)
Fixpoint no_id_in (p : list N) : bool :=
  match p with
  | [] => true
  | _ :: t =>
      match id_at p with Some _ => false | None => true end && no_id_in t
  end.

(** A character of the class, spelled out. *)
Definition id_char (c : N) : Prop :=
  (48 <= c <= 57 \/ 65 <= c <= 90 \/ 97 <= c <= 122 \/ c = 95 \/ c = 45)%N.

(** ** Timestamps *)

Definition digit (d : Z) : N := Z.to_N (48 + d).

Definition is_digit (c : N) : bool := ((48 <=? c) && (c <=? 57))%N.

(** [MM] and [SS]: always two digits. *)
Definition two_digits (n : Z) : list N := [digit (n / 10); digit (n mod 10)].

(** [H]: the hours below one day, without a leading zero. *)
Definition hours_digits (h : Z) : list N :=
  if (h <? 10)%Z then [digit h] else two_digits h.

(** [H:MM:SS] for [n] whole seconds. *)
Definition hmmss (n : Z) : list N :=
  hours_digits (n / 3600) ++ lit ":" ++ two_digits (n / 60 mod 60)
  ++ lit ":" ++ two_digits (n mod 60).

(** Recogniser of the shape [H:MM:SS]: digits, a colon, two digits, a colon,
    two digits. *)
Definition is_hmmss (ts : list N) : bool :=
  match rev ts with
  | s2 :: s1 :: c2 :: m2 :: m1 :: c1 :: ((_ :: _) as h) =>
      is_digit s2 && is_digit s1 && eqb_char 58 c2
      && is_digit m2 && is_digit m1 && eqb_char 58 c1
      && forallb is_digit h
  | _ => false
  end.

(** The binary64 number nearest to 65.9. *)
Definition float_65_9 : spec_float :=
  S754_finite false 4637300241308058 (-46).

(** 86400.0, one day in seconds. *)
Definition float_86400 : spec_float :=
  S754_finite false 5937362789990400 (-36).

(** A string starts with whitespace. *)
Definition leading_space (s : list N) : bool :=
  match s with
  | c :: _ => isspace c
  | [] => false
  end.

(** ** Runs *)

Definition add_events (w : world) (evs : list event) : world :=
  World (fs_files w) (fs_dirs w) (trace w ++ evs).

(** [os.path.exists('transcripts')] in [w]. *)
Definition dir_present (w : world) : bool :=
  bool_decide (transcripts ∈ fs_dirs w)
  || bool_decide (is_Some (fs_files w !! transcripts)).

Section Outcomes.

Variable E : env.

(** What [get_video_title] returns and prints, read off the answer of the
    metadata endpoint. *)
Definition looked_up_title (video_id : list N) : option (list N) :=
  match requests_get E (oembed_url video_id) with
  | Ok r =>
      if (status_code r =? 200)%Z
      then match json_title r with Ok t => Some t | Raise _ => None end
      else None
  | Raise _ => None
  end.

Definition title_events (video_id : list N) : list event :=
  EvHttpGet (oembed_url video_id) ::
  match requests_get E (oembed_url video_id) with
  | Ok r =>
      if (status_code r =? 200)%Z
      then match json_title r with
           | Ok _ => []
           | Raise e =>
               [EvPrint (lit "Error fetching video title: " ++ str_of_exn e)]
           end
      else []
  | Raise e => [EvPrint (lit "Error fetching video title: " ++ str_of_exn e)]
  end.

(** The same for [get_transcript]. *)
Definition fetched_transcript (video_id : list N) : option (list entry) :=
  match api_get_transcript E video_id with
  | Ok t => Some t
  | Raise _ => None
  end.

Definition transcript_events (video_id : list N) : list event :=
  EvGetTranscript video_id ::
  match api_get_transcript E video_id with
  | Ok _ => []
  | Raise e => [EvPrint (lit "Error fetching transcript: " ++ str_of_exn e)]
  end.

(** The same for [clean_transcript_with_gemini]. *)
Definition cleaned_text (raw_transcript_text : list N) : option (list N) :=
  match genai_client E with
  | Some _ => None
  | None =>
      match generate_content E gemini_model
                             (gemini_prompt raw_transcript_text) with
      | Ok t => t
      | Raise _ => None
      end
  end.

Definition cleaning_events (raw_transcript_text : list N) : list event :=
  match genai_client E with
  | Some e =>
      [EvPrint (lit "Error cleaning transcript with Gemini: " ++ str_of_exn e)]
  | None =>
      EvGenerate gemini_model (gemini_prompt raw_transcript_text) ::
      match generate_content E gemini_model
                             (gemini_prompt raw_transcript_text) with
      | Ok _ => []
      | Raise e =>
          [EvPrint (lit "Error cleaning transcript with Gemini: "
                    ++ str_of_exn e)]
      end
  end.

(** The file system lets the script create the output directory (or it is
    there already) and write the file at [path]. *)
Definition fs_accepts (path : list N) (w : world) : Prop :=
  (dir_present w = true \/ makedirs_error E transcripts = None)
  /\ open_error E path = None
  /\ forall chunk, write_error E path chunk = None.

End Outcomes.

(** The cleaning call failed: it raised, or its text is [None] or empty. *)
Definition cleaning_failed (o : option (list N)) : bool :=
  match o with
  | Some (_ :: _) => false
  | _ => true
  end.

(** The transcript lookup failed, or the transcript is empty. *)
Definition transcript_absent (o : option (list entry)) : bool :=
  match o with
  | Some (_ :: _) => false
  | _ => true
  end.

(** Header lines of the two files. *)
Definition raw_header (video_title : option (list N)) : list N :=
  lit "# " ++ title_or_unknown video_title ++ lit " (Raw Transcript)"
  ++ [nl; nl] ++ lit "---" ++ [nl; nl].

(** The body of the raw file: every line followed by a newline. *)
Definition raw_body (lines : list (list N)) : list N :=
  concat (List.map (fun line => line ++ [nl]) lines).

(** Events that show a save function or the cleaning call at work. *)
Definition is_generate (ev : event) : bool :=
  match ev with EvGenerate _ _ => true | _ => false end.

Definition is_file_event (ev : event) : bool :=
  match ev with EvMakedirs _ | EvOpen _ => true | _ => false end.

(** The only events a save function working on [p] can emit. *)
Definition save_event (p : list N) (ev : event) : Prop :=
  match ev with
  | EvMakedirs d => d = transcripts
  | EvOpen q => q = p
  | EvPrint _ => True
  | _ => False
  end.

(** A computation that leaves every file but the one at [p] alone and emits
    nothing but the events of a save function working on [p]. *)
Definition confined (p : list N) {A : Type} (m : io A) : Prop :=
  forall w, exists r w' evs,
    m w = (r, w')
    /\ (forall q, q <> p -> fs_files w' !! q = fs_files w !! q)
    /\ trace w' = trace w ++ evs
    /\ Forall (save_event p) evs.

(** Any event but a cleaning request and but the opening of a file other
    than [p]. *)
Definition run_event (p : list N) (ev : event) : Prop :=
  match ev with
  | EvGenerate _ _ => False
  | EvOpen q => q = p
  | _ => True
  end.

(** What a run emits before it saves the raw file, when the identifier was
    found and the transcript has the formatted [lines]. *)
Definition announce_events (E : env) (video_id : list N)
  (lines : list (list N)) : list event :=
  [EvInput (lit "Please enter the YouTube video URL: ");
   EvPrint (lit "Video ID: " ++ video_id)]
  ++ title_events E video_id ++ transcript_events E video_id
  ++ [EvPrint ([nl] ++ lit "Raw Transcript:");
      EvPrint bar;
      EvPrint (lit "Title: " ++ title_or_unknown (looked_up_title E video_id));
      EvPrint bar;
      EvPrint (join [nl] lines)].

(** What it emits between the raw file and the test of the cleaned text. *)
Definition request_events (E : env) (lines : list (list N)) : list event :=
  EvPrint ([nl] ++ lit "Cleaning transcript with Gemini (this may take a moment)...")
  :: cleaning_events E (join [nl] lines).

(** The rest of a run once the raw file has been dealt with in [w]. *)
Definition after_raw (E : env) (video_id : list N) (lines : list (list N))
  (w : world) : res unit * world :=
  let title := looked_up_title E video_id in
  let w1 := add_events w (request_events E lines) in
  match cleaned_text E (join [nl] lines) with
  | Some ((_ :: _) as cleaned) =>
      match save_cleaned_transcript E video_id title cleaned
              (add_events w1 [EvPrint ([nl] ++ lit "Cleaned Transcript:");
                              EvPrint bar; EvPrint cleaned]) with
      | (Ok _, w2) => (Ok tt, w2)
      | (Raise e, w2) => (Raise e, w2)
      end
  | _ => (Ok tt, add_events w1 [EvPrint (lit "Failed to clean transcript.")])
  end.

(** ** Lines of the raw file *)

(** The start offset cut to whole seconds ([0] where [int] raises). *)
Definition whole_seconds (e : entry) : Z :=
  match int_of_float (start e) with
  | Ok n => n
  | Raise _ => 0%Z
  end.

(** The entry starts within the first day of the video. *)
Definition first_day (e : entry) : bool :=
  match int_of_float (start e) with
  | Ok n => (0 <=? n)%Z && (n <? 86400)%Z
  | Raise _ => false
  end.

(** The line [[H:MM:SS] text] of an entry. *)
Definition hmmss_line (e : entry) : list N :=
  lit "[" ++ hmmss (whole_seconds e) ++ lit "] " ++ text e.

(** ** A concrete run: the end-to-end scenario of the specification *)

Definition scenario_transcript : list entry :=
  [ {| start := S754_zero false; text := lit "Hello" |};
    {| start := S754_finite false 8584986789675008 (-47);
       text := lit "world" |} ].

Definition scenario_lines : list (list N) :=
  [lit "[0:00:00] Hello"; lit "[0:01:01] world"].

Definition scenario (title : res response) (captions : res (list entry))
  (cleaning : res (option (list N))) : env :=
  {| stdin_line := lit "https://www.youtube.com/watch?v=dQw4w9WgXcQ";
     requests_get := fun _ => title;
     api_get_transcript := fun _ => captions;
     genai_client := None;
     generate_content := fun _ _ => cleaning;
     makedirs_error := fun _ => None;
     open_error := fun _ => None;
     write_error := fun _ _ => None |}.

Definition title_found : res response :=
  Ok {| status_code := 200; json_title := Ok (lit "Example Title") |}.

Definition title_missing : res response :=
  Ok {| status_code := 404; json_title := Raise (Exn "JSONDecodeError" []) |}.

Definition service_down {A : Type} : res A :=
  Raise (Exn "ConnectionError" (lit "service unavailable")).

Definition empty_world : world := World ∅ ∅ [].

(** Events that touch neither the file system nor the cleaning service. *)
Definition quiet (ev : event) : Prop :=
  match ev with
  | EvInput _ | EvPrint _ | EvHttpGet _ | EvGetTranscript _ => True
  | _ => False
  end.

Definition scenario_id : list N := lit "dQw4w9WgXcQ".

(** The title is found, the captions are there, the cleaning service is
    down. *)
Definition cleaning_down : env :=
  scenario title_found (Ok scenario_transcript) service_down.

(** The title lookup fails as well. *)
Definition title_and_cleaning_down : env :=
  scenario title_missing (Ok scenario_transcript) service_down.

(** The transcript service is down. *)
Definition captions_down : env :=
  scenario title_found service_down service_down.

(** ** Reading a timestamp back *)

Definition digit_value (c : N) : Z := (Z.of_N c - 48)%Z.

(** The whole seconds that an [H:MM:SS] timestamp stands for. *)
Definition seconds_of_hmmss (ts : list N) : Z :=
  match rev ts with
  | s2 :: s1 :: _ :: m2 :: m1 :: _ :: h =>
      (fold_right (fun c acc => digit_value c + 10 * acc) 0 h * 3600
       + (digit_value m1 * 10 + digit_value m2) * 60
       + digit_value s1 * 10 + digit_value s2)%Z
  | _ => 0%Z
  end.

(** The prefix [D day, ] or [D days, ] of a timestamp outside the first
    day. *)
Definition days_prefix (d : Z) : list N :=
  fmt_d d ++ lit " day" ++ (if (Z.abs d =? 1)%Z then [] else lit "s")
  ++ lit ", ".

(** ** More vocabulary for runs *)

Definition is_print (ev : event) : Prop :=
  match ev with EvPrint _ => True | _ => False end.

(** The fixed instructions that precede the transcript in the prompt. *)
Definition gemini_instructions : list N := gemini_prompt [].

(** Header lines of the cleaned file. *)
Definition cleaned_header (video_title : option (list N)) : list N :=
  lit "# " ++ title_or_unknown video_title ++ lit " (Cleaned Transcript)"
  ++ [nl; nl] ++ lit "---" ++ [nl; nl].

(** ** More concrete runs *)

Definition permission_denied : exn :=
  Exn "PermissionError" (lit "[Errno 13] Permission denied").

(** As [cleaning_down], on a file system that refuses to create
    directories. *)
Definition no_makedirs : env :=
  {| stdin_line := stdin_line cleaning_down;
     requests_get := requests_get cleaning_down;
     api_get_transcript := api_get_transcript cleaning_down;
     genai_client := None;
     generate_content := generate_content cleaning_down;
     makedirs_error := fun _ => Some permission_denied;
     open_error := fun _ => None;
     write_error := fun _ _ => None |}.

(** As [cleaning_down], on a file system that refuses to open files. *)
Definition no_open : env :=
  {| stdin_line := stdin_line cleaning_down;
     requests_get := requests_get cleaning_down;
     api_get_transcript := api_get_transcript cleaning_down;
     genai_client := None;
     generate_content := generate_content cleaning_down;
     makedirs_error := fun _ => None;
     open_error := fun _ => Some permission_denied;
     write_error := fun _ _ => None |}.

(** A world in which the output directory exists already. *)
Definition world_with_dir : world := World ∅ {[transcripts]} [].

(** A caption whose start offset is not a number. *)
Definition nan_entry : entry := {| start := S754_nan; text := lit "oops" |}.

(** The user types something that is no URL. *)
Definition bad_url : env :=
  {| stdin_line := lit "not a url";
     requests_get := requests_get cleaning_down;
     api_get_transcript := api_get_transcript cleaning_down;
     genai_client := None;
     generate_content := generate_content cleaning_down;
     makedirs_error := fun _ => None;
     open_error := fun _ => None;
     write_error := fun _ _ => None |}.

(** The transcript holds a caption whose start offset is not a number. *)
Definition nan_captions : env :=
  scenario title_found (Ok (scenario_transcript ++ [nan_entry])) service_down.

(** Every service answers. *)
Definition all_up : env :=
  scenario title_found (Ok scenario_transcript)
           (Ok (Some (lit "Hello world."))).

(** The metadata endpoint answers with an empty title. *)
Definition title_empty : env :=
  scenario (Ok {| status_code := 200; json_title := Ok [] |})
           (Ok scenario_transcript) service_down.

(** Every service answers, but the raw file cannot be opened. *)
Definition raw_refused : env :=
  {| stdin_line := stdin_line all_up;
     requests_get := requests_get all_up;
     api_get_transcript := api_get_transcript all_up;
     genai_client := None;
     generate_content := generate_content all_up;
     makedirs_error := fun _ => None;
     open_error := fun p =>
       if bool_decide (p = lit "transcripts/Example Title_raw.md")
       then Some permission_denied else None;
     write_error := fun _ _ => None |}.

(** Kinds of requests, and how many events of a kind a run emitted. *)
Definition is_http_get (ev : event) : bool :=
  match ev with EvHttpGet _ => true | _ => false end.

Definition is_get_transcript (ev : event) : bool :=
  match ev with EvGetTranscript _ => true | _ => false end.

Definition count_events (kind : event -> bool) (evs : list event) : nat :=
  length (List.filter kind evs).

(** The cleaning service would answer, but the client library cannot be
    loaded. *)
Definition no_client : env :=
  {| stdin_line := stdin_line all_up;
     requests_get := requests_get all_up;
     api_get_transcript := api_get_transcript all_up;
     genai_client :=
       Some (Exn "ImportError" (lit "cannot import name 'genai' from 'google'"));
     generate_content := generate_content all_up;
     makedirs_error := fun _ => None;
     open_error := fun _ => None;
     write_error := fun _ _ => None |}.

(** * Lemmas and theorems *)

(** ** The regular expressions *)

Section RegexEquations.

Lemma rmatch_seq r1 r2 s g :
  rmatch (Seq r1 r2) s g =
  flat_map (fun '(s1, g1) => rmatch r2 s1 g1) (rmatch r1 s g).
Proof. reflexivity. Qed.

Lemma rmatch_lit c x t g :
  rmatch (Lit c) (x :: t) g = if eqb_char c x then [(t, g)] else [].
Proof. reflexivity. Qed.

Lemma rmatch_group r s g :
  rmatch (Group r) s g =
  List.map (fun '(s1, _) => (s1, Some (firstn (length s - length s1) s)))
           (rmatch r s g).
Proof. reflexivity. Qed.

Lemma rmatch_repeat_eq n r s g :
  rmatch (Repeat n r) s g = rmatch_repeat (rmatch r) n s g.
Proof. reflexivity. Qed.

Lemma rmatch_star_eq r s g :
  rmatch (Star r) s g = rmatch_star (rmatch r) (length s) s g.
Proof. reflexivity. Qed.

End RegexEquations.

Lemma rmatch_repeat_class ranges n : forall s g,
  rmatch_repeat (rmatch (Class ranges)) n s g =
  if (n <=? length s)%nat && forallb (in_class ranges) (firstn n s)
  then [(skipn n s, g)] else [].
Proof.
  induction n as [|n IH]; intros s g.
  - reflexivity.
  - destruct s as [|x t]; [reflexivity|].
    cbn [rmatch_repeat rmatch].
    destruct (in_class ranges x) eqn:Hx.
    + cbn [flat_map]. rewrite IH, app_nil_r. cbn [firstn forallb skipn length].
      rewrite Hx. reflexivity.
    + cbn [firstn forallb]. rewrite Hx, andb_false_r. reflexivity.
Qed.

Lemma rmatch_group_id s g :
  rmatch (Group (Repeat 11 (Class id_class))) s g =
  if is_video_id (firstn 11 s) then [(skipn 11 s, Some (firstn 11 s))] else [].
Proof.
  rewrite rmatch_group, rmatch_repeat_eq, rmatch_repeat_class. unfold is_video_id.
  rewrite length_firstn.
  destruct (Nat.leb_spec 11 (length s)) as [Hle|Hlt].
  - replace (11 `min` length s =? 11)%nat with true
      by (symmetry; apply Nat.eqb_eq; lia).
    cbn [andb]. destruct (forallb _ _); [|reflexivity].
    cbn [List.map]. rewrite length_skipn.
    replace (length s - (length s - 11))%nat with 11%nat by lia. reflexivity.
  - replace (11 `min` length s =? 11)%nat with false
      by (symmetry; apply Nat.eqb_neq; lia).
    reflexivity.
Qed.

(** [.*] never touches the capture and always has a way to match. *)
Lemma rmatch_star_dot_capture fuel : forall s g r,
  In r (rmatch_star (rmatch Dot) fuel s g) -> snd r = g.
Proof.
  induction fuel as [|fuel IH]; intros s g r Hin.
  - destruct Hin as [<-|[]]. reflexivity.
  - cbn [rmatch_star] in Hin. apply in_app_or in Hin.
    destruct Hin as [Hin|[<-|[]]]; [|reflexivity].
    apply in_flat_map in Hin. destruct Hin as [[s1 g1] [Hd Hin]].
    destruct s as [|x t]; [destruct Hd|].
    cbn [rmatch] in Hd. destruct (eqb_char nl x); [destruct Hd|].
    destruct Hd as [Heq|[]]. injection Heq as <- <-.
    destruct (length t <? length (x :: t))%nat; [|destruct Hin].
    eapply IH, Hin.
Qed.

Lemma rmatch_star_nonempty m fuel s g : rmatch_star m fuel s g <> [].
Proof.
  destruct fuel; cbn [rmatch_star]; [discriminate|].
  intros H. apply app_eq_nil in H. destruct H as [_ H]. discriminate.
Qed.

Lemma rmatch_star_dot_head s g :
  exists rest tl, rmatch (Star Dot) s g = (rest, g) :: tl.
Proof.
  rewrite rmatch_star_eq.
  destruct (rmatch_star (rmatch Dot) (length s) s g) as [|[rest g'] tl] eqn:H.
  - exfalso. eapply rmatch_star_nonempty, H.
  - exists rest, tl. f_equal. f_equal.
    apply (rmatch_star_dot_capture (length s) s g (rest, g')).
    rewrite H. left. reflexivity.
Qed.

(** The marker [(?:v=|\/)]: at most one way, and what is left. *)
Lemma rmatch_marker s g :
  rmatch (Alt (Seq (Lit 118%N) (Lit 61%N)) (Lit slash)) s g =
  match after_marker s with
  | Some t => [(t, g)]
  | None => []
  end.
Proof.
  unfold after_marker.
  change (lit "v=") with [118%N; 61%N]. change (lit "/") with [slash].
  destruct s as [|a t]; [reflexivity|].
  cbn [rmatch startswith].
  destruct (eqb_char 118 a) eqn:Hv.
  - assert (eqb_char slash a = false) as Hs.
    { apply N.eqb_eq in Hv. subst a. reflexivity. }
    rewrite Hs. cbn [flat_map andb]. destruct t as [|b t']; [reflexivity|].
    cbn [rmatch startswith]. destruct (eqb_char 61 b); reflexivity.
  - cbn [flat_map andb app]. destruct (eqb_char slash a); reflexivity.
Qed.

Lemma rmatch_pattern1 s :
  match id_at s with
  | Some x => exists rest tl, rmatch pattern1 s None = (rest, Some x) :: tl
  | None => rmatch pattern1 s None = []
  end.
Proof.
  unfold pattern1, id_at. rewrite rmatch_seq, rmatch_marker.
  destruct (after_marker s) as [t|]; [|reflexivity].
  cbn [flat_map]. rewrite app_nil_r, rmatch_seq, rmatch_group_id.
  destruct (is_video_id (firstn 11 t)); [|reflexivity].
  cbn [flat_map]. rewrite app_nil_r. apply rmatch_star_dot_head.
Qed.

Lemma search_pattern1 s :
  search pattern1 s =
  option_map (fun x => {| group1 := Some x |}) (leftmost_id s).
Proof.
  induction s as [|a t IH].
  - cbn [search leftmost_id]. pose proof (rmatch_pattern1 []) as H.
    destruct (id_at []) as [x|].
    + destruct H as (rest & tl & ->). reflexivity.
    + rewrite H. reflexivity.
  - cbn [search leftmost_id]. pose proof (rmatch_pattern1 (a :: t)) as H.
    destruct (id_at (a :: t)) as [x|].
    + destruct H as (rest & tl & ->). reflexivity.
    + rewrite H. exact IH.
Qed.

Lemma leftmost_id_cons a t :
  leftmost_id t <> None -> leftmost_id (a :: t) <> None.
Proof. cbn [leftmost_id]. destruct (id_at (a :: t)); congruence. Qed.

Lemma id_at_leftmost s : id_at s <> None -> leftmost_id s <> None.
Proof. destruct s; cbn [leftmost_id]; destruct (id_at _); congruence. Qed.

Lemma rmatch_seq_lit c k s g :
  rmatch (Seq (Lit c) k) s g <> [] ->
  exists t, s = c :: t /\ rmatch k t g <> [].
Proof.
  rewrite rmatch_seq. destruct s as [|x t]; [intros H; destruct H; reflexivity|].
  rewrite rmatch_lit. destruct (eqb_char c x) eqn:Hx; [|intros H; destruct H; reflexivity].
  apply N.eqb_eq in Hx. subst x. cbn [flat_map]. rewrite app_nil_r. eauto.
Qed.

Lemma rmatch_seq_dot k s g :
  rmatch (Seq Dot k) s g <> [] ->
  exists x t, s = x :: t /\ rmatch k t g <> [].
Proof.
  rewrite rmatch_seq. destruct s as [|x t]; [intros H; destruct H; reflexivity|].
  cbn [rmatch]. destruct (eqb_char nl x); [intros H; destruct H; reflexivity|].
  cbn [flat_map]. rewrite app_nil_r. eauto.
Qed.

Lemma rmatch_slash_id s g :
  rmatch (Seq (Lit slash) (Group (Repeat 11 (Class id_class)))) s g <> [] ->
  id_at s <> None.
Proof.
  intros H. apply rmatch_seq_lit in H. destruct H as (t & -> & H).
  rewrite rmatch_group_id in H. unfold id_at, after_marker.
  change (startswith (lit "v=") (slash :: t)) with false.
  change (startswith (lit "/") (slash :: t)) with true.
  change (skipn 1 (slash :: t)) with t.
  destruct (is_video_id (firstn 11 t)) eqn:Hid; [|destruct H; reflexivity].
  cbv beta iota. rewrite Hid. congruence.
Qed.

(** Wherever the second pattern matches, the first one matches too (eight
    characters further right at the latest). *)
Lemma rmatch_pattern2_marker s :
  rmatch pattern2 s None <> [] -> leftmost_id s <> None.
Proof.
  change pattern2 with
    (Seq (Lit 121%N) (Seq (Lit 111%N) (Seq (Lit 117%N) (Seq (Lit 116%N)
     (Seq (Lit 117%N) (Seq Dot (Seq (Lit 98%N) (Seq (Lit 101%N)
     (Seq (Lit slash) (Group (Repeat 11 (Class id_class))))))))))))%N.
  intros H.
  do 5 (apply rmatch_seq_lit in H; destruct H as (? & -> & H)).
  apply rmatch_seq_dot in H. destruct H as (? & ? & -> & H).
  do 2 (apply rmatch_seq_lit in H; destruct H as (? & -> & H)).
  apply rmatch_slash_id in H.
  do 8 apply leftmost_id_cons. apply id_at_leftmost, H.
Qed.

Lemma search_pattern2_marker s :
  search pattern2 s <> None -> leftmost_id s <> None.
Proof.
  induction s as [|a t IH]; cbn [search].
  - destruct (rmatch pattern2 [] None) eqn:H; [congruence|].
    intros _. apply rmatch_pattern2_marker. congruence.
  - destruct (rmatch pattern2 (a :: t) None) eqn:H.
    + intros Hs. apply leftmost_id_cons, IH, Hs.
    + intros _. apply rmatch_pattern2_marker. congruence.
Qed.

(** The script's function, characterised without regular expressions. *)
Lemma extract_video_id_leftmost url :
  extract_video_id url = leftmost_id url.
Proof.
  unfold extract_video_id, patterns. cbn [first_match].
  rewrite search_pattern1.
  destruct (leftmost_id url) as [x|] eqn:Hl; [reflexivity|].
  cbn [option_map].
  destruct (search pattern2 url) eqn:H2; [|reflexivity].
  exfalso. apply (search_pattern2_marker url); congruence.
Qed.

Lemma id_at_is_video_id s x : id_at s = Some x -> is_video_id x = true.
Proof.
  unfold id_at. destruct (after_marker s) as [t|]; [|discriminate].
  destruct (is_video_id (firstn 11 t)) eqn:H; [|discriminate].
  intros [= <-]. exact H.
Qed.

Lemma leftmost_id_is_video_id s x :
  leftmost_id s = Some x -> is_video_id x = true.
Proof.
  induction s as [|a t IH]; cbn [leftmost_id].
  - destruct (id_at []) eqn:H; [|discriminate].
    intros [= <-]. eapply id_at_is_video_id, H.
  - destruct (id_at (a :: t)) eqn:H; [|exact IH].
    intros [= <-]. eapply id_at_is_video_id, H.
Qed.

Lemma in_class_id_char c : in_class id_class c = true <-> id_char c.
Proof.
  unfold in_class, id_class, id_char. cbn [existsb].
  rewrite !orb_true_iff, !andb_true_iff, !N.leb_le. lia.
Qed.

Lemma is_video_id_spec x :
  is_video_id x = true <-> length x = 11%nat /\ Forall id_char x.
Proof.
  unfold is_video_id. rewrite andb_true_iff, Nat.eqb_eq, forallb_forall.
  rewrite List.Forall_forall. split; intros [Hl Hc]; split; try exact Hl;
    intros c Hin; apply in_class_id_char, Hc, Hin.
Qed.

(** An identifier cannot run over a slash. *)
Lemma is_video_id_before_slash t r :
  is_video_id (firstn 11 (t ++ slash :: r)) = is_video_id (firstn 11 t)
  /\ (is_video_id (firstn 11 t) = true ->
      firstn 11 (t ++ slash :: r) = firstn 11 t).
Proof.
  destruct (Nat.le_gt_cases 11 (length t)) as [Hle|Hgt].
  - assert (firstn 11 (t ++ slash :: r) = firstn 11 t) as ->; [|auto].
    rewrite firstn_app. replace (11 - length t)%nat with 0%nat by lia.
    cbn [firstn]. apply app_nil_r.
  - assert (is_video_id (firstn 11 t) = false) as Ht.
    { unfold is_video_id. rewrite length_firstn.
      replace (11 `min` length t =? 11)%nat with false; [reflexivity|].
      symmetry. apply Nat.eqb_neq. lia. }
    rewrite Ht. split; [|discriminate].
    unfold is_video_id. apply andb_false_iff. right.
    rewrite firstn_app, firstn_all2 by lia.
    destruct (11 - length t)%nat as [|k] eqn:Hk; [lia|].
    cbn [firstn]. rewrite forallb_app. cbn [forallb].
    change (in_class id_class slash) with false.
    cbn [andb]. apply andb_false_r.
Qed.

Lemma id_at_before_slash a s r :
  id_at ((a :: s) ++ slash :: r) = id_at (a :: s).
Proof.
  assert (forall t, (if is_video_id (firstn 11 (t ++ slash :: r))
                     then Some (firstn 11 (t ++ slash :: r)) else None)
                    = if is_video_id (firstn 11 t)
                      then Some (firstn 11 t) else None) as Hid.
  { intros t. destruct (is_video_id_before_slash t r) as [-> Heq].
    destruct (is_video_id (firstn 11 t)); [|reflexivity].
    rewrite Heq; reflexivity. }
  unfold id_at, after_marker.
  change (lit "v=") with [118%N; 61%N]. change (lit "/") with [slash].
  cbn [app startswith].
  destruct (eqb_char 118 a) eqn:Hv.
  - assert (eqb_char slash a = false) as Hs.
    { apply N.eqb_eq in Hv. subst a. reflexivity. }
    rewrite Hs. cbn [andb].
    destruct s as [|b s'].
    + reflexivity.
    + cbn [app startswith]. destruct (eqb_char 61 b).
      * cbn [andb]. change (skipn 2 (a :: b :: s' ++ slash :: r))
          with (s' ++ slash :: r).
        change (skipn 2 (a :: b :: s')) with s'. apply Hid.
      * reflexivity.
  - cbn [andb]. destruct (eqb_char slash a); [|reflexivity].
    change (skipn 1 (a :: s ++ slash :: r)) with (s ++ slash :: r).
    change (skipn 1 (a :: s)) with s. apply Hid.
Qed.

Lemma leftmost_id_clean_prefix p r :
  no_id_in p = true ->
  leftmost_id (p ++ slash :: r) = leftmost_id (slash :: r).
Proof.
  induction p as [|a s IH]; [reflexivity|].
  cbn [no_id_in]. intros H. apply andb_true_iff in H. destruct H as [Ha Hs].
  change ((a :: s) ++ slash :: r) with (a :: (s ++ slash :: r)) at 1.
  cbn [leftmost_id].
  change (a :: (s ++ slash :: r)) with ((a :: s) ++ slash :: r).
  rewrite id_at_before_slash.
  destruct (id_at (a :: s)); [discriminate|]. apply IH, Hs.
Qed.

Lemma leftmost_id_here x rest :
  is_video_id x = true ->
  leftmost_id (lit "v=" ++ x ++ rest) = Some x
  /\ leftmost_id (slash :: x ++ rest) = Some x.
Proof.
  intros Hx.
  assert (firstn 11 (x ++ rest) = x) as Hf.
  { apply is_video_id_spec in Hx. destruct Hx as [Hl _].
    rewrite firstn_app, firstn_all2 by lia.
    replace (11 - length x)%nat with 0%nat by lia. apply app_nil_r. }
  split.
  - change (lit "v=" ++ x ++ rest) with (118%N :: 61%N :: x ++ rest).
    cbn [leftmost_id]. unfold id_at, after_marker.
    change (startswith (lit "v=") (118%N :: 61%N :: x ++ rest)) with true.
    cbv beta iota. change (skipn 2 (118%N :: 61%N :: x ++ rest)) with (x ++ rest).
    rewrite Hf, Hx. reflexivity.
  - cbn [leftmost_id]. unfold id_at, after_marker.
    change (startswith (lit "v=") (slash :: x ++ rest)) with false.
    change (startswith (lit "/") (slash :: x ++ rest)) with true.
    cbv beta iota. change (skipn 1 (slash :: x ++ rest)) with (x ++ rest).
    rewrite Hf, Hx. reflexivity.
Qed.

Lemma is_video_id_blocked t c r :
  in_class id_class c = false -> (length t < 11)%nat ->
  is_video_id (firstn 11 (t ++ c :: r)) = false.
Proof.
  intros Hc Hlt. unfold is_video_id. apply andb_false_iff. right.
  rewrite firstn_app, firstn_all2 by lia.
  destruct (11 - length t)%nat as [|k] eqn:Hk; [lia|].
  cbn [firstn]. rewrite forallb_app. cbn [forallb]. rewrite Hc.
  cbn [andb]. apply andb_false_r.
Qed.

Lemma leftmost_id_skip c t :
  eqb_char 118 c = false -> eqb_char slash c = false ->
  leftmost_id (c :: t) = leftmost_id t.
Proof.
  intros Hv Hs. cbn [leftmost_id]. unfold id_at, after_marker.
  change (lit "v=") with [118%N; 61%N]. change (lit "/") with [slash].
  cbn [startswith]. rewrite Hv, Hs. reflexivity.
Qed.

Lemma leftmost_id_slash_blocked t c r :
  in_class id_class c = false -> (length t < 11)%nat ->
  leftmost_id (slash :: t ++ c :: r) = leftmost_id (t ++ c :: r).
Proof.
  intros Hc Hlt. cbn [leftmost_id]. unfold id_at, after_marker.
  change (startswith (lit "v=") (slash :: t ++ c :: r)) with false.
  change (startswith (lit "/") (slash :: t ++ c :: r)) with true.
  cbv beta iota. change (skipn 1 (slash :: t ++ c :: r)) with (t ++ c :: r).
  rewrite (is_video_id_blocked t c r Hc Hlt). reflexivity.
Qed.

Lemma leftmost_id_watch x rest :
  is_video_id x = true ->
  leftmost_id (lit "/watch?v=" ++ x ++ rest) = Some x.
Proof.
  intros Hx.
  change (lit "/watch?v=" ++ x ++ rest)
    with (slash :: lit "watch" ++ 63%N :: lit "v=" ++ x ++ rest).
  rewrite leftmost_id_slash_blocked by (reflexivity || (cbn; lia)).
  change (lit "watch" ++ 63%N :: lit "v=" ++ x ++ rest)
    with (119%N :: 97%N :: 116%N :: 99%N :: 104%N :: 63%N
          :: lit "v=" ++ x ++ rest).
  rewrite !leftmost_id_skip by reflexivity.
  apply leftmost_id_here, Hx.
Qed.

Lemma leftmost_id_youtu_be x rest :
  is_video_id x = true ->
  leftmost_id (lit "/youtu.be/" ++ x ++ rest) = Some x.
Proof.
  intros Hx.
  change (lit "/youtu.be/" ++ x ++ rest)
    with (slash :: lit "youtu" ++ 46%N :: lit "be" ++ slash :: x ++ rest).
  rewrite leftmost_id_slash_blocked by (reflexivity || (cbn; lia)).
  change (lit "youtu" ++ 46%N :: lit "be" ++ slash :: x ++ rest)
    with (121%N :: 111%N :: 117%N :: 116%N :: 117%N :: 46%N :: 98%N
          :: 101%N :: slash :: x ++ rest).
  rewrite !leftmost_id_skip by reflexivity.
  apply leftmost_id_here, Hx.
Qed.

Lemma extract_video_id_is_video_id url x :
  extract_video_id url = Some x -> is_video_id x = true.
Proof.
  rewrite extract_video_id_leftmost. apply leftmost_id_is_video_id.
Qed.

(** C1, as the code has it.  For a URL [p/watch?v=X...] or [p/youtu.be/X...]
    whose identifier [X] is eleven characters of [[0-9A-Za-z_-]],
    [extract_video_id] returns exactly [X] provided that inside the prefix
    [p] no [v=] and no [/] is directly followed by eleven characters of that
    class: it is the first pattern that matches, at the leftmost such place,
    and its capture group is the result. *)
Theorem extract_video_id_clean_prefix (p x rest : list N) :
  is_video_id x = true ->
  no_id_in p = true ->
  (search pattern1 (p ++ lit "/watch?v=" ++ x ++ rest)
   = Some {| group1 := Some x |}
   /\ extract_video_id (p ++ lit "/watch?v=" ++ x ++ rest) = Some x)
  /\ (search pattern1 (p ++ lit "/youtu.be/" ++ x ++ rest)
      = Some {| group1 := Some x |}
      /\ extract_video_id (p ++ lit "/youtu.be/" ++ x ++ rest) = Some x).
Proof.
  intros Hx Hp. rewrite !extract_video_id_leftmost, !search_pattern1.
  assert (leftmost_id (p ++ lit "/watch?v=" ++ x ++ rest) = Some x) as ->.
  { change (lit "/watch?v=" ++ x ++ rest)
      with (slash :: lit "watch?v=" ++ x ++ rest).
    rewrite leftmost_id_clean_prefix by exact Hp.
    apply (leftmost_id_watch x rest Hx). }
  assert (leftmost_id (p ++ lit "/youtu.be/" ++ x ++ rest) = Some x) as ->.
  { change (lit "/youtu.be/" ++ x ++ rest)
      with (slash :: lit "youtu.be/" ++ x ++ rest).
    rewrite leftmost_id_clean_prefix by exact Hp.
    apply (leftmost_id_youtu_be x rest Hx). }
  repeat split.
Qed.

Lemma extract_video_id_clean_prefix_witness :
  extract_video_id (lit "https://www.youtube.com" ++ lit "/watch?v="
                    ++ lit "dQw4w9WgXcQ" ++ []) = Some (lit "dQw4w9WgXcQ")
  /\ extract_video_id (lit "https:/" ++ lit "/youtu.be/"
                       ++ lit "dQw4w9WgXcQ" ++ lit "?t=42")
     = Some (lit "dQw4w9WgXcQ").
Proof.
  split.
  - apply (extract_video_id_clean_prefix
             (lit "https://www.youtube.com") (lit "dQw4w9WgXcQ") []);
      reflexivity.
  - apply (extract_video_id_clean_prefix
             (lit "https:/") (lit "dQw4w9WgXcQ") (lit "?t=42"));
      reflexivity.
Defined.

(** C1 as stated fails: an archived copy of a watch page has the form
    [.../watch?v=X], and the parser returns part of the archive's date. *)
Lemma extract_video_id_archive_url :
  let p := lit "https://web.archive.org/web/20200101000000/https://www.youtube.com" in
  let x := lit "dQw4w9WgXcQ" in
  is_video_id x = true
  /\ extract_video_id (p ++ lit "/watch?v=" ++ x) = Some (lit "20200101000")
  /\ extract_video_id (p ++ lit "/watch?v=" ++ x) <> Some x.
Proof.
  vm_compute. split; [reflexivity|]. split; [reflexivity|]. intros H. discriminate H.
Qed.

(** C2.  [extract_video_id] is total: on every string it returns either
    [None] or an identifier, and an identifier is always eleven characters of
    the class [[0-9A-Za-z_-]]. *)
Theorem extract_video_id_none_or_valid (url : list N) :
  extract_video_id url = None
  \/ exists x, extract_video_id url = Some x
               /\ length x = 11%nat /\ Forall id_char x.
Proof.
  rewrite extract_video_id_leftmost.
  destruct (leftmost_id url) as [x|] eqn:H; [right|left; reflexivity].
  exists x. split; [reflexivity|].
  apply is_video_id_spec. eapply leftmost_id_is_video_id, H.
Qed.

(** ** Timestamps *)

(** A property that a computation checks for every integer below a bound. *)
Lemma forall_below (P : Z -> bool) (n : nat) :
  forallb (fun k => P (Z.of_nat k)) (seq 0 n) = true ->
  forall z, (0 <= z < Z.of_nat n)%Z -> P z = true.
Proof.
  intros H z Hz. rewrite forallb_forall in H.
  rewrite <- (Z2Nat.id z) by lia. apply H, in_seq. lia.
Qed.

Lemma fmt_02d_two_digits m :
  (0 <= m < 60)%Z -> fmt_0d 2 m = two_digits m.
Proof.
  intros Hm.
  pose proof (forall_below
                (fun k => bool_decide (fmt_0d 2 k = two_digits k)) 60) as H.
  specialize (H ltac:(vm_compute; reflexivity) m Hm).
  apply bool_decide_eq_true_1 in H. exact H.
Qed.

Lemma fmt_d_hours_digits h :
  (0 <= h < 24)%Z -> fmt_d h = hours_digits h.
Proof.
  intros Hh.
  pose proof (forall_below
                (fun k => bool_decide (fmt_d k = hours_digits k)) 24) as H.
  specialize (H ltac:(vm_compute; reflexivity) h Hh).
  apply bool_decide_eq_true_1 in H. exact H.
Qed.

Lemma timedelta_str_below_a_day n :
  (0 <= n < 86400)%Z ->
  timedelta_of_seconds n
  = Ok {| days := 0; seconds := n; microseconds := 0 |}
  /\ timedelta_str {| days := 0; seconds := n; microseconds := 0 |} = hmmss n.
Proof.
  intros Hn. split.
  - unfold timedelta_of_seconds.
    rewrite (Z.div_small n 86400), (Z.mod_small n 86400) by lia. reflexivity.
  - unfold timedelta_str, hmmss. cbn [days seconds microseconds].
    change (0 =? 0)%Z with true. cbv beta iota.
    assert (0 <= n / 60 < 1440)%Z as Hmm.
    { split; [apply Z.div_pos; lia|apply Z.div_lt_upper_bound; lia]. }
    rewrite fmt_02d_two_digits by (apply Z.mod_pos_bound; lia).
    rewrite fmt_02d_two_digits by (apply Z.mod_pos_bound; lia).
    rewrite Z.div_div by lia. change (60 * 60)%Z with 3600%Z.
    rewrite fmt_d_hours_digits; [reflexivity|].
    split; [apply Z.div_pos; lia|apply Z.div_lt_upper_bound; lia].
Qed.

Lemma format_timestamp_below_a_day x n :
  int_of_float x = Ok n -> (0 <= n < 86400)%Z ->
  format_timestamp x = Ok (hmmss n).
Proof.
  intros Hx Hn. unfold format_timestamp. rewrite Hx. cbn [res_bind].
  destruct (timedelta_str_below_a_day n Hn) as [-> Hs].
  cbn [res_bind]. rewrite Hs. reflexivity.
Qed.

Lemma is_digit_digit d : (0 <= d <= 9)%Z -> is_digit (digit d) = true.
Proof.
  intros Hd. unfold is_digit, digit.
  apply andb_true_iff. rewrite !N.leb_le. lia.
Qed.

Lemma is_hmmss_hmmss n : (0 <= n < 86400)%Z -> is_hmmss (hmmss n) = true.
Proof.
  intros Hn.
  assert (0 <= n / 3600 < 24)%Z as Hh.
  { split; [apply Z.div_pos; lia|apply Z.div_lt_upper_bound; lia]. }
  pose proof (Z.mod_pos_bound (n / 60) 60 ltac:(lia)) as Hm.
  pose proof (Z.mod_pos_bound n 60 ltac:(lia)) as Hs.
  assert (forall k, (0 <= k < 60)%Z ->
                    is_digit (digit (k / 10)) = true
                    /\ is_digit (digit (k mod 10)) = true) as Hk.
  { intros k Hk. split; apply is_digit_digit.
    - split; [apply Z.div_pos; lia|].
      apply Z.lt_succ_r, Z.div_lt_upper_bound; lia.
    - pose proof (Z.mod_pos_bound k 10 ltac:(lia)). lia. }
  destruct (Hk _ Hm) as [Hm1 Hm2]. destruct (Hk _ Hs) as [Hs1 Hs2].
  unfold is_hmmss, hmmss, hours_digits, two_digits.
  change (lit ":") with [58%N].
  destruct (Z.ltb_spec (n / 3600) 10) as [Hlt|Hge];
    cbn [app rev forallb]; rewrite ?Hm1, ?Hm2, ?Hs1, ?Hs2; cbn [andb eqb_char].
  - change (58 =? 58)%N with true. cbn [andb].
    rewrite is_digit_digit by lia. reflexivity.
  - change (58 =? 58)%N with true. cbn [andb].
    destruct (Hk (n / 3600)%Z ltac:(lia)) as [-> ->]. reflexivity.
Qed.

Lemma format_line_hmmss (e : entry) (n : Z) :
  int_of_float (start e) = Ok n ->
  (0 <= n < 86400)%Z ->
  format_timestamp (start e) = Ok (hmmss n)
  /\ is_hmmss (hmmss n) = true
  /\ format_line e = Ok (lit "[" ++ hmmss n ++ lit "] " ++ text e).
Proof.
  intros Hx Hn. pose proof (format_timestamp_below_a_day _ _ Hx Hn) as Hts.
  split; [exact Hts|]. split; [apply is_hmmss_hmmss, Hn|].
  unfold format_line. rewrite Hts. reflexivity.
Qed.

(** C3 as stated fails from one day on: the timestamp of an entry that
    starts at 86400 seconds is [1 day, 0:00:00]. *)
Lemma format_line_second_day :
  let e := {| start := float_86400; text := lit "Hello" |} in
  int_of_float (start e) = Ok 86400%Z
  /\ format_line e = Ok (lit "[1 day, 0:00:00] Hello")
  /\ ~ exists ts, is_hmmss ts = true
                  /\ format_line e = Ok (lit "[" ++ ts ++ lit "] " ++ text e).
Proof.
  cbv zeta. split; [reflexivity|]. split; [vm_compute; reflexivity|].
  intros (ts & Hts & Hline).
  assert (format_line {| start := float_86400; text := lit "Hello" |}
          = Ok (lit "[" ++ lit "1 day, 0:00:00" ++ lit "] " ++ lit "Hello"))
    as Heq by (vm_compute; reflexivity).
  rewrite Heq in Hline. cbn [text] in Hline.
  assert (lit "[" ++ lit "1 day, 0:00:00" ++ lit "] " ++ lit "Hello"
          = lit "[" ++ ts ++ lit "] " ++ lit "Hello") as Happ by congruence.
  apply app_inv_head in Happ. apply app_inv_tail in Happ.
  subst ts. vm_compute in Hts. discriminate Hts.
Qed.

(** ** Truncation *)

Lemma shiftl_truncates (m : positive) (e : Z) :
  let a := Z.shiftl (Z.pos m) e in
  (0 <= a
   /\ a * 2 ^ Z.max 0 (- e) <= Z.pos m * 2 ^ Z.max 0 e
      < (a + 1) * 2 ^ Z.max 0 (- e))%Z.
Proof.
  cbv zeta. destruct (Z.le_gt_cases 0 e) as [He|He].
  - rewrite Z.shiftl_mul_pow2 by lia.
    rewrite (Z.max_l 0 (- e)), (Z.max_r 0 e) by lia.
    change (2 ^ 0)%Z with 1%Z.
    assert (0 < 2 ^ e)%Z by (apply Z.pow_pos_nonneg; lia). nia.
  - rewrite Z.shiftl_div_pow2 by lia.
    rewrite (Z.max_r 0 (- e)), (Z.max_l 0 e) by lia.
    change (2 ^ 0)%Z with 1%Z.
    assert (0 < 2 ^ (- e))%Z as Hp by (apply Z.pow_pos_nonneg; lia).
    pose proof (Z.mul_div_le (Z.pos m) _ Hp).
    pose proof (Z.mul_succ_div_gt (Z.pos m) _ Hp).
    split; [apply Z.div_pos; lia|]. lia.
Qed.

(** C4.  [format_timestamp] cuts the fraction off before it renders: for a
    finite number of magnitude [m * 2^e] the integer rendered is the [a] with
    [a <= m * 2^e < a + 1], with the sign put back; 65.9 gives [0:01:05] and
    not [0:01:06]. *)
Theorem format_timestamp_truncates :
  (forall (sign : bool) (m : positive) (e : Z),
      exists a : Z,
        (0 <= a
         /\ a * 2 ^ Z.max 0 (- e) <= Z.pos m * 2 ^ Z.max 0 e
            < (a + 1) * 2 ^ Z.max 0 (- e))%Z
        /\ int_of_float (S754_finite sign m e)
           = Ok (if sign then (- a)%Z else a)
        /\ format_timestamp (S754_finite sign m e)
           = res_bind (timedelta_of_seconds (if sign then (- a)%Z else a))
                      (fun td => Ok (timedelta_str td)))
  /\ (Z.abs (10 * 4637300241308058 - 659 * 2 ^ 46) <= 5)%Z
  /\ int_of_float float_65_9 = Ok 65%Z
  /\ format_timestamp float_65_9 = Ok (lit "0:01:05")
  /\ format_timestamp float_65_9 <> Ok (lit "0:01:06").
Proof.
  split.
  - intros sign m e. exists (Z.shiftl (Z.pos m) e).
    split; [apply shiftl_truncates|]. split; reflexivity.
  - split; [vm_compute; discriminate|]. split; [reflexivity|].
    split; [vm_compute; reflexivity|]. vm_compute. discriminate.
Qed.

(** ** [sanitize_filename] *)

Lemma in_remove_char c d s : In c (remove_char d s) <-> In c s /\ c <> d.
Proof.
  unfold remove_char. rewrite filter_In, negb_true_iff.
  unfold eqb_char. rewrite N.eqb_neq. intuition congruence.
Qed.

Lemma in_remove_chars c chars : forall s,
  In c (fold_left (fun name char => remove_char char name) chars s)
  <-> In c s /\ ~ In c chars.
Proof.
  induction chars as [|d chars IH]; intros s; cbn [fold_left In].
  - tauto.
  - rewrite IH, in_remove_char. intuition congruence.
Qed.

Lemma in_lstrip c s : In c (lstrip s) -> In c s.
Proof.
  induction s as [|x t IH]; cbn [lstrip]; [tauto|].
  destruct (isspace x); [right; apply IH; assumption | tauto].
Qed.

Lemma in_rstrip c s : In c (rstrip s) -> In c s.
Proof.
  unfold rstrip. rewrite <- in_rev. intros H. apply in_lstrip in H.
  rewrite <- in_rev in H. exact H.
Qed.

Lemma in_strip c s : In c (strip s) -> In c s.
Proof. unfold strip. intros H. apply in_lstrip, in_rstrip, H. Qed.

Lemma in_firstn c n (s : list N) : In c (firstn n s) -> In c s.
Proof.
  intros H. rewrite <- (firstn_skipn n s). apply in_or_app. left. exact H.
Qed.

Lemma lstrip_fixed s : leading_space s = false -> lstrip s = s.
Proof. destruct s as [|c t]; cbn; [reflexivity|]. intros ->. reflexivity. Qed.

Lemma leading_space_lstrip s : leading_space (lstrip s) = false.
Proof.
  induction s as [|c t IH]; cbn [lstrip]; [reflexivity|].
  destruct (isspace c) eqn:Hc; [exact IH|]. cbn. exact Hc.
Qed.

Lemma lstrip_snoc l c :
  isspace c = false -> lstrip (l ++ [c]) = lstrip l ++ [c].
Proof.
  intros Hc. induction l as [|x t IH]; cbn [app lstrip].
  - rewrite Hc. reflexivity.
  - destruct (isspace x); [exact IH | reflexivity].
Qed.

Lemma rstrip_cons c t :
  isspace c = false -> rstrip (c :: t) = c :: rstrip t.
Proof.
  intros Hc. unfold rstrip. cbn [rev].
  rewrite lstrip_snoc by exact Hc. rewrite rev_app_distr. reflexivity.
Qed.

Lemma leading_space_rstrip s :
  leading_space s = false -> leading_space (rstrip s) = false.
Proof.
  destruct s as [|c t]; [reflexivity|]. cbn [leading_space]. intros Hc.
  rewrite rstrip_cons by exact Hc. exact Hc.
Qed.

Lemma leading_space_strip s : leading_space (strip s) = false.
Proof. apply leading_space_rstrip, leading_space_lstrip. Qed.

Lemma leading_space_firstn n s :
  leading_space s = false -> leading_space (firstn n s) = false.
Proof. destruct n, s; cbn; auto. Qed.

Lemma rstrip_rstrip s : rstrip (rstrip s) = rstrip s.
Proof.
  unfold rstrip. rewrite rev_involutive.
  rewrite (lstrip_fixed (lstrip (rev s))) by apply leading_space_lstrip.
  reflexivity.
Qed.

Lemma rstrip_strip s : rstrip (strip s) = strip s.
Proof. apply rstrip_rstrip. Qed.

(** C5, as the code has it.  The result of [sanitize_filename] contains no
    character of the disallowed set, never starts with whitespace, has at
    most 200 characters, and has no trailing whitespace unless it was cut to
    exactly 200 characters (the cut comes after the trimming); 250 times [a]
    gives 200 times [a]. *)
Theorem sanitize_filename_safe (filename : list N) :
  Forall (fun c => ~ In c invalid_chars) (sanitize_filename filename)
  /\ lstrip (sanitize_filename filename) = sanitize_filename filename
  /\ (rstrip (sanitize_filename filename) = sanitize_filename filename
      \/ length (sanitize_filename filename) = 200%nat)
  /\ (length (sanitize_filename filename) <= 200)%nat
  /\ sanitize_filename (repeat 97%N 250) = repeat 97%N 200.
Proof.
  unfold sanitize_filename.
  set (cleaned := fold_left _ invalid_chars filename).
  split; [|split; [|split; [|split]]].
  - apply List.Forall_forall. intros c Hin Hbad.
    apply in_firstn, in_strip in Hin.
    apply in_remove_chars in Hin. tauto.
  - apply lstrip_fixed, leading_space_firstn, leading_space_strip.
  - destruct (Nat.le_gt_cases (length (strip cleaned)) 200) as [Hle|Hgt].
    + left. rewrite firstn_all2 by exact Hle. apply rstrip_strip.
    + right. rewrite length_firstn. lia.
  - rewrite length_firstn. lia.
  - vm_compute. reflexivity.
Qed.

(** C5 as stated fails for trailing whitespace: the cut to 200 characters
    can end on a space. *)
Lemma sanitize_filename_trailing_space :
  sanitize_filename (repeat 97%N 199 ++ lit " b") = repeat 97%N 199 ++ lit " "
  /\ strip (sanitize_filename (repeat 97%N 199 ++ lit " b"))
     <> sanitize_filename (repeat 97%N 199 ++ lit " b").
Proof.
  split; [vm_compute; reflexivity|]. vm_compute. intros H.
  apply (f_equal (@length N)) in H. vm_compute in H. discriminate H.
Qed.

(** ** Runs of the script *)

Local Arguments lit : simpl never.

(** Bring nested appends to one right-nested form. *)
Ltac norm_app := repeat first [rewrite <- app_assoc | progress cbn [app]].

Lemma Ok_inj {A} (a b : A) : Ok a = Ok b -> a = b.
Proof. intros H. injection H as H. exact H. Qed.

Section Runs.

Variable E : env.

Lemma add_events_app w evs1 evs2 :
  add_events (add_events w evs1) evs2 = add_events w (evs1 ++ evs2).
Proof. unfold add_events. cbn. rewrite app_assoc. reflexivity. Qed.

Lemma run_bind {A B} (m : io A) (k : A -> io B) w :
  (m ≫= k) w =
  match m w with
  | (Ok a, w') => k a w'
  | (Raise e, w') => (Raise e, w')
  end.
Proof. reflexivity. Qed.

Lemma run_emit ev w : emit ev w = (Ok tt, add_events w [ev]).
Proof. reflexivity. Qed.

Lemma run_print line w : print line w = (Ok tt, add_events w [EvPrint line]).
Proof. reflexivity. Qed.

Lemma run_input prompt w :
  input E prompt w = (Ok (stdin_line E), add_events w [EvInput prompt]).
Proof. reflexivity. Qed.

Lemma run_get_video_title video_id w :
  get_video_title E video_id w
  = (Ok (looked_up_title E video_id),
     add_events w (title_events E video_id)).
Proof.
  unfold get_video_title, try_except, looked_up_title, title_events.
  rewrite run_bind, run_emit, run_bind. unfold lift at 1.
  destruct (requests_get E (oembed_url video_id)) as [r|e].
  - destruct (status_code r =? 200)%Z.
    + rewrite run_bind. unfold lift.
      destruct (json_title r) as [t|e]; [reflexivity|].
      rewrite run_bind, run_print, add_events_app. reflexivity.
    + reflexivity.
  - rewrite run_bind, run_print, add_events_app. reflexivity.
Qed.

Lemma run_get_transcript video_id w :
  get_transcript E video_id w
  = (Ok (fetched_transcript E video_id),
     add_events w (transcript_events E video_id)).
Proof.
  unfold get_transcript, try_except, fetched_transcript, transcript_events.
  rewrite run_bind, run_emit, run_bind. unfold lift.
  destruct (api_get_transcript E video_id) as [t|e]; [reflexivity|].
  rewrite run_bind, run_print, add_events_app. reflexivity.
Qed.

Lemma run_clean_transcript_with_gemini text w :
  clean_transcript_with_gemini E text w
  = (Ok (cleaned_text E text), add_events w (cleaning_events E text)).
Proof.
  unfold clean_transcript_with_gemini, try_except, cleaned_text,
    cleaning_events.
  rewrite run_bind.
  destruct (genai_client E) as [e|].
  - unfold raise at 1. rewrite run_bind, run_print. reflexivity.
  - change ((mret tt : io unit) w) with (Ok tt, w). cbv beta iota.
    rewrite run_bind, run_emit. unfold lift.
    destruct (generate_content E gemini_model (gemini_prompt text)) as [t|e];
      [reflexivity|].
    rewrite run_bind, run_print, add_events_app. reflexivity.
Qed.

(** *** Writing files *)

Lemma confined_ret p {A} (a : A) : confined p (mret a).
Proof.
  intros w. exists (Ok a), w, []. split; [reflexivity|].
  split; [auto|]. split; [symmetry; apply app_nil_r|constructor].
Qed.

Lemma confined_lift p {A} (r : res A) : confined p (lift r).
Proof.
  intros w. exists r, w, []. split; [reflexivity|].
  split; [auto|]. split; [symmetry; apply app_nil_r|constructor].
Qed.

Lemma confined_raise p {A} (e : exn) : confined p (@raise A e).
Proof.
  intros w. exists (Raise e), w, []. split; [reflexivity|].
  split; [auto|]. split; [symmetry; apply app_nil_r|constructor].
Qed.

Lemma confined_bind p {A B} (m : io A) (k : A -> io B) :
  confined p m -> (forall a, confined p (k a)) -> confined p (m ≫= k).
Proof.
  intros Hm Hk w. destruct (Hm w) as (r & w1 & evs1 & Hrun & Hf1 & Ht1 & He1).
  rewrite run_bind, Hrun. destruct r as [a|e].
  - destruct (Hk a w1) as (r2 & w2 & evs2 & -> & Hf2 & Ht2 & He2).
    exists r2, w2, (evs1 ++ evs2). split; [reflexivity|]. split.
    + intros q Hq. rewrite Hf2, Hf1 by exact Hq. reflexivity.
    + split; [rewrite Ht2, Ht1; symmetry; apply app_assoc|].
      apply Forall_app; split; assumption.
  - exists (Raise e), w1, evs1. auto.
Qed.

Lemma confined_try_except p {A} (body : io A) (handler : exn -> io A) :
  confined p body -> (forall e, confined p (handler e)) ->
  confined p (try_except body handler).
Proof.
  intros Hm Hk w. destruct (Hm w) as (r & w1 & evs1 & Hrun & Hf1 & Ht1 & He1).
  unfold try_except. rewrite Hrun. destruct r as [a|e].
  - exists (Ok a), w1, evs1. auto.
  - destruct (Hk e w1) as (r2 & w2 & evs2 & -> & Hf2 & Ht2 & He2).
    exists r2, w2, (evs1 ++ evs2). split; [reflexivity|]. split.
    + intros q Hq. rewrite Hf2, Hf1 by exact Hq. reflexivity.
    + split; [rewrite Ht2, Ht1; symmetry; apply app_assoc|].
      apply Forall_app; split; assumption.
Qed.

Lemma confined_emit p ev : save_event p ev -> confined p (emit ev).
Proof.
  intros Hev w. exists (Ok tt), (add_events w [ev]), [ev].
  split; [reflexivity|]. split; [auto|]. split; [reflexivity|].
  constructor; [exact Hev|constructor].
Qed.

Lemma confined_print p line : confined p (print line).
Proof. apply confined_emit. exact I. Qed.

Lemma confined_write p chunk : confined p (write E p chunk).
Proof.
  unfold write. destruct (write_error E p chunk) as [e|].
  - apply confined_raise.
  - intros w. eexists (Ok tt), _, []. split; [reflexivity|]. cbn.
    split; [|split; [symmetry; apply app_nil_r|constructor]].
    intros q Hq. apply lookup_alter_ne. congruence.
Qed.

Lemma confined_open_w p : confined p (open_w E p).
Proof.
  unfold open_w. apply confined_bind; [apply confined_emit; reflexivity|].
  intros _. destruct (open_error E p) as [e|].
  - apply confined_raise.
  - intros w. eexists (Ok tt), _, []. split; [reflexivity|]. cbn.
    split; [|split; [symmetry; apply app_nil_r|constructor]].
    intros q Hq. apply lookup_insert_ne. congruence.
Qed.

Lemma confined_for_each p {A} (l : list A) (body : A -> io unit) :
  (forall x, confined p (body x)) -> confined p (for_each l body).
Proof.
  intros Hb. induction l as [|x t IH]; cbn [for_each].
  - apply confined_ret.
  - apply confined_bind; [apply Hb|intros _; exact IH].
Qed.

Lemma confined_ensure_transcripts_dir p : confined p (ensure_transcripts_dir E).
Proof.
  unfold ensure_transcripts_dir. apply confined_bind.
  - intros w. eexists _, w, []. split; [reflexivity|].
    split; [auto|]. split; [symmetry; apply app_nil_r|constructor].
  - intros present. destruct (negb present); [|apply confined_ret].
    unfold os_makedirs. apply confined_bind;
      [apply confined_emit; reflexivity|].
    intros _. destruct (makedirs_error E transcripts) as [e|].
    + apply confined_raise.
    + intros w. eexists (Ok tt), _, []. split; [reflexivity|]. cbn.
      split; [auto|]. split; [symmetry; apply app_nil_r|constructor].
Qed.

Create HintDb confined discriminated.

#[local] Hint Resolve confined_ret confined_lift confined_raise
  confined_bind confined_try_except confined_print confined_write
  confined_open_w confined_for_each confined_ensure_transcripts_dir
  : confined.

(** Each save function works on its own file only. *)
Lemma confined_save_raw_transcript video_id video_title transcript :
  confined (raw_filepath video_id video_title)
           (save_raw_transcript E video_id video_title transcript).
Proof. unfold save_raw_transcript. auto 12 with confined. Qed.

Lemma confined_save_cleaned_transcript video_id video_title cleaned :
  confined (cleaned_filepath video_id video_title)
           (save_cleaned_transcript E video_id video_title cleaned).
Proof. unfold save_cleaned_transcript. auto 12 with confined. Qed.

(** With no write refused, the loop appends the formatted lines. *)
Lemma write_entries_accepted p (t : list entry) :
  (forall chunk, write_error E p chunk = None) ->
  forall lines content files dirs tr,
  res_map format_line t = Ok lines ->
  for_each t (fun entry =>
    timestamp ← lift (format_timestamp (start entry));
    write E p (lit "[" ++ timestamp ++ lit "] " ++ text entry ++ [nl]))
    (World (<[p := content]> files) dirs tr)
  = (Ok tt, World (<[p := content ++ raw_body lines]> files) dirs tr).
Proof.
  intros Hw. induction t as [|e t IH]; intros lines content files dirs tr Hl.
  - apply Ok_inj in Hl. subst lines. unfold raw_body. cbn.
    rewrite app_nil_r. reflexivity.
  - cbn [res_map] in Hl. unfold format_line at 1 in Hl.
    cbn [for_each]. rewrite run_bind, run_bind. unfold lift at 1.
    destruct (format_timestamp (start e)) as [ts|ex]; [|discriminate Hl].
    cbn [res_bind] in Hl.
    destruct (res_map format_line t) as [ls|ex] eqn:Hls; [|discriminate Hl].
    cbn [res_bind] in Hl. apply Ok_inj in Hl. subst lines.
    unfold write at 1. rewrite Hw. cbn [fs_files fs_dirs trace].
    rewrite alter_insert_eq. rewrite (IH ls _ files dirs tr eq_refl).
    unfold raw_body. cbn [List.map concat].
    rewrite <- !app_assoc. reflexivity.
Qed.

(** *** The save functions *)

Lemma run_os_path_exists w :
  os_path_exists transcripts w = (Ok (dir_present w), w).
Proof. reflexivity. Qed.

Lemma run_ensure_transcripts_dir w :
  dir_present w = true \/ makedirs_error E transcripts = None ->
  ensure_transcripts_dir E w
  = (Ok tt,
     if dir_present w then w
     else World (fs_files w) ({[transcripts]} ∪ fs_dirs w)
                (trace w ++ [EvMakedirs transcripts])).
Proof.
  intros H. unfold ensure_transcripts_dir.
  rewrite run_bind, run_os_path_exists.
  destruct (dir_present w) eqn:Hp; [reflexivity|].
  destruct H as [H|H]; [discriminate H|].
  cbn [negb]. unfold os_makedirs. rewrite run_bind, run_emit, H. reflexivity.
Qed.

(** A save function returns normally once the directory is there. *)
Lemma save_raw_transcript_returns video_id video_title transcript w :
  dir_present w = true \/ makedirs_error E transcripts = None ->
  exists r w',
    save_raw_transcript E video_id video_title transcript w = (Ok r, w').
Proof.
  intros H. unfold save_raw_transcript.
  rewrite run_bind, (run_ensure_transcripts_dir w H). unfold try_except.
  match goal with |- context [match ?b ?w0 with _ => _ end] =>
    destruct (b w0) as [[r|e] w1] end.
  - eauto.
  - rewrite run_bind, run_print. eexists _, _. reflexivity.
Qed.

Lemma save_cleaned_transcript_returns video_id video_title cleaned w :
  dir_present w = true \/ makedirs_error E transcripts = None ->
  exists r w',
    save_cleaned_transcript E video_id video_title cleaned w = (Ok r, w').
Proof.
  intros H. unfold save_cleaned_transcript.
  rewrite run_bind, (run_ensure_transcripts_dir w H). unfold try_except.
  match goal with |- context [match ?b ?w0 with _ => _ end] =>
    destruct (b w0) as [[r|e] w1] end.
  - eauto.
  - rewrite run_bind, run_print. eexists _, _. reflexivity.
Qed.

(** The raw file when the file system accepts it. *)
Lemma run_save_raw_transcript_accepted video_id video_title transcript lines w :
  fs_accepts E (raw_filepath video_id video_title) w ->
  res_map format_line transcript = Ok lines ->
  let path := raw_filepath video_id video_title in
  save_raw_transcript E video_id video_title transcript w
  = (Ok (Some path),
     World (<[path := raw_header video_title ++ raw_body lines]> (fs_files w))
           (if dir_present w then fs_dirs w else {[transcripts]} ∪ fs_dirs w)
           (trace w
            ++ (if dir_present w then [] else [EvMakedirs transcripts])
            ++ [EvOpen path; EvPrint (lit "Raw transcript saved to " ++ path)])).
Proof.
  intros (Hd & Hopen & Hwrite) Hlines path.
  unfold save_raw_transcript. fold path. fold path in Hopen, Hwrite.
  rewrite run_bind, (run_ensure_transcripts_dir w Hd). unfold try_except.
  set (w0 := if dir_present w then w else _).
  rewrite run_bind. unfold open_w at 1. rewrite run_bind, run_emit, Hopen.
  cbn [add_events fs_files fs_dirs trace].
  rewrite run_bind. unfold write at 1. rewrite Hwrite.
  cbn [fs_files fs_dirs trace]. rewrite alter_insert_eq.
  rewrite run_bind. unfold write at 1. rewrite Hwrite.
  cbn [fs_files fs_dirs trace]. rewrite alter_insert_eq.
  rewrite run_bind.
  rewrite (write_entries_accepted path transcript Hwrite lines _ _ _ _ Hlines).
  rewrite run_bind, run_print. cbn [add_events fs_files fs_dirs trace].
  f_equal. unfold raw_header, w0, add_events.
  destruct (dir_present w);
    repeat first [rewrite <- app_assoc
                 | progress cbn [fs_files fs_dirs trace app]];
    reflexivity.
Qed.

Lemma run_save_cleaned_transcript_accepted video_id video_title text w :
  fs_accepts E (cleaned_filepath video_id video_title) w ->
  save_cleaned_transcript E video_id video_title text w
  = (Ok (Some (cleaned_filepath video_id video_title)),
     World (<[cleaned_filepath video_id video_title
              := cleaned_header video_title ++ text]> (fs_files w))
           (if dir_present w then fs_dirs w else {[transcripts]} ∪ fs_dirs w)
           (trace w
            ++ (if dir_present w then [] else [EvMakedirs transcripts])
            ++ [EvOpen (cleaned_filepath video_id video_title);
                EvPrint (lit "Cleaned transcript saved to "
                         ++ cleaned_filepath video_id video_title)])).
Proof.
  intros (Hd & Hopen & Hwrite).
  set (path := cleaned_filepath video_id video_title) in *.
  unfold save_cleaned_transcript. fold path.
  rewrite run_bind, (run_ensure_transcripts_dir w Hd). unfold try_except.
  set (w0 := if dir_present w then w else _).
  rewrite run_bind. unfold open_w at 1. rewrite run_bind, run_emit, Hopen.
  cbn [add_events fs_files fs_dirs trace].
  do 3 (rewrite run_bind; unfold write at 1; rewrite Hwrite;
        cbn [fs_files fs_dirs trace]; rewrite alter_insert_eq).
  rewrite run_bind, run_print. cbn [add_events fs_files fs_dirs trace].
  f_equal. unfold cleaned_header, w0, add_events.
  destruct (dir_present w);
    repeat first [rewrite <- app_assoc
                 | progress cbn [fs_files fs_dirs trace app]];
    reflexivity.
Qed.

(** *** [main] *)

Lemma video_id_cons url x :
  extract_video_id url = Some x -> exists c rest, x = c :: rest.
Proof.
  intros H. apply extract_video_id_is_video_id, is_video_id_spec in H.
  destruct H as [Hl _]. destruct x as [|c rest]; [discriminate Hl|eauto].
Qed.

(** A run whose transcript lookup gives nothing to work on. *)
Lemma run_main_absent video_id w :
  extract_video_id (stdin_line E) = Some video_id ->
  transcript_absent (fetched_transcript E video_id) = true ->
  main E w
  = (Ok tt,
     add_events w
       ([EvInput (lit "Please enter the YouTube video URL: ");
         EvPrint (lit "Video ID: " ++ video_id)]
        ++ title_events E video_id ++ transcript_events E video_id
        ++ [EvPrint (lit "Transcript not available.")])).
Proof.
  intros Hid Habs. destruct (video_id_cons _ _ Hid) as (c & rest & ->).
  unfold main. rewrite run_bind, run_input. cbv zeta. rewrite Hid.
  rewrite run_bind, run_print, run_bind, run_get_video_title.
  rewrite run_bind, run_get_transcript.
  destruct (fetched_transcript E (c :: rest)) as [[|e t]|];
    try discriminate Habs; cbv beta iota;
    rewrite run_print, !add_events_app; reflexivity.
Qed.

(** A run that has a transcript: up to the raw file, then [after_raw]. *)
Lemma run_main_available video_id e t lines w :
  extract_video_id (stdin_line E) = Some video_id ->
  fetched_transcript E video_id = Some (e :: t) ->
  res_map format_line (e :: t) = Ok lines ->
  main E w
  = match save_raw_transcript E video_id (looked_up_title E video_id)
            (e :: t) (add_events w (announce_events E video_id lines)) with
    | (Ok _, w1) => after_raw E video_id lines w1
    | (Raise ex, w1) => (Raise ex, w1)
    end.
Proof.
  intros Hid Ht Hl. destruct (video_id_cons _ _ Hid) as (c & rest & ->).
  unfold main. rewrite run_bind, run_input. cbv zeta. rewrite Hid.
  rewrite run_bind, run_print, run_bind, run_get_video_title.
  rewrite run_bind, run_get_transcript, Ht.
  rewrite run_bind. unfold lift at 1. rewrite Hl.
  do 5 rewrite run_bind, run_print. rewrite run_bind.
  rewrite !add_events_app. unfold announce_events.
  norm_app.
  match goal with |- context [save_raw_transcript ?a ?b ?c ?d ?w0] =>
    destruct (save_raw_transcript a b c d w0) as [[r|ex] w1] end;
    [|reflexivity].
  rewrite run_bind, run_print, run_bind, run_clean_transcript_with_gemini.
  unfold after_raw, request_events. rewrite !add_events_app.
  destruct (cleaned_text E (join [nl] lines)) as [[|c0 cleaned]|].
  - rewrite run_print, add_events_app.
    norm_app. reflexivity.
  - do 3 rewrite run_bind, run_print. rewrite run_bind.
    rewrite !add_events_app.
    norm_app.
    match goal with |- context [save_cleaned_transcript ?a ?b ?c ?d ?w0] =>
      destruct (save_cleaned_transcript a b c d w0) as [[r2|ex] w2] end;
      reflexivity.
  - rewrite run_print, add_events_app.
    norm_app. reflexivity.
Qed.

End Runs.

(** *** Paths *)

Lemma path_join_transcripts b :
  path_join transcripts b
  = if startswith [slash] b then b else lit "transcripts/" ++ b.
Proof.
  unfold path_join.
  change (negb (truthy transcripts) || endswith [slash] transcripts)
    with false.
  destruct (startswith [slash] b); reflexivity.
Qed.

Lemma startswith_slash_app base suffix c rest :
  suffix = c :: rest -> eqb_char slash c = false ->
  startswith [slash] (base ++ suffix) = startswith [slash] base.
Proof.
  intros -> Hc. destruct base as [|x t]; cbn [app startswith].
  - rewrite Hc. reflexivity.
  - reflexivity.
Qed.

(** Both files of a run sit in the same directory under the same base. *)
Lemma filepaths_shape video_id video_title :
  exists dir,
    (dir = lit "transcripts/" \/ dir = [])
    /\ raw_filepath video_id video_title
       = dir ++ base_filename video_id video_title ++ lit "_raw.md"
    /\ cleaned_filepath video_id video_title
       = dir ++ base_filename video_id video_title ++ lit ".md".
Proof.
  unfold raw_filepath, cleaned_filepath. rewrite !path_join_transcripts.
  rewrite (startswith_slash_app _ (lit "_raw.md") 95%N (lit "raw.md"))
    by reflexivity.
  rewrite (startswith_slash_app _ (lit ".md") 46%N (lit "md"))
    by reflexivity.
  destruct (startswith [slash] (base_filename video_id video_title)).
  - exists []. auto.
  - exists (lit "transcripts/"). auto.
Qed.

Lemma filepaths_differ video_id video_title :
  raw_filepath video_id video_title <> cleaned_filepath video_id video_title.
Proof.
  destruct (filepaths_shape video_id video_title) as (dir & _ & -> & ->).
  intros H. apply app_inv_head, app_inv_head in H. discriminate H.
Qed.

Lemma id_char_not_invalid c : id_char c -> ~ In c invalid_chars.
Proof.
  unfold id_char.
  change invalid_chars with [60; 62; 58; 34; 47; 92; 124; 63; 42]%N.
  cbn [In]. lia.
Qed.

Lemma sanitize_filename_no_invalid filename :
  Forall (fun c => ~ In c invalid_chars) (sanitize_filename filename).
Proof.
  apply List.Forall_forall. intros c Hin. unfold sanitize_filename in Hin.
  apply in_firstn, in_strip, in_remove_chars in Hin. tauto.
Qed.

Lemma startswith_slash_safe name :
  Forall (fun c => ~ In c invalid_chars) name ->
  startswith [slash] name = false.
Proof.
  intros H. destruct name as [|c rest]; [reflexivity|].
  apply Forall_inv in H. cbn [startswith].
  assert (eqb_char slash c = false) as ->; [|reflexivity].
  apply N.eqb_neq. intros <-. apply H.
  change invalid_chars with [60; 62; 58; 34; 47; 92; 124; 63; 42]%N.
  cbn [In]. unfold slash. tauto.
Qed.

(** With an identifier that [extract_video_id] returned, the base name holds
    no separator, so both files lie directly in [transcripts/]. *)
Lemma run_filepaths url video_id video_title :
  extract_video_id url = Some video_id ->
  Forall (fun c => ~ In c invalid_chars) (base_filename video_id video_title)
  /\ raw_filepath video_id video_title
     = lit "transcripts/" ++ base_filename video_id video_title
       ++ lit "_raw.md"
  /\ cleaned_filepath video_id video_title
     = lit "transcripts/" ++ base_filename video_id video_title ++ lit ".md".
Proof.
  intros Hid. apply extract_video_id_is_video_id, is_video_id_spec in Hid.
  destruct Hid as [_ Hc].
  assert (Forall (fun c => ~ In c invalid_chars)
                 (base_filename video_id video_title)) as Hsafe.
  { unfold base_filename.
    destruct video_title as [title|];
      [destruct (truthy title); [apply sanitize_filename_no_invalid|]|];
      (eapply Forall_impl; [exact Hc|apply id_char_not_invalid]). }
  split; [exact Hsafe|].
  unfold raw_filepath, cleaned_filepath. rewrite !path_join_transcripts.
  rewrite (startswith_slash_app _ (lit "_raw.md") 95%N (lit "raw.md"))
    by reflexivity.
  rewrite (startswith_slash_app _ (lit ".md") 46%N (lit "md"))
    by reflexivity.
  rewrite (startswith_slash_safe _ Hsafe). split; reflexivity.
Qed.

(** C10.  In a run, that is for an identifier that [extract_video_id]
    returned and whatever the title, [save_raw_transcript] targets
    [transcripts/BASE_raw.md] and [save_cleaned_transcript] targets
    [transcripts/BASE.md] with the same base name: where the file system
    accepts the file, each returns that path and changes the file system by
    exactly that one file; each leaves every file but the one at its own
    path as it was; and the two paths differ (as they do for every
    identifier and title), so neither write replaces the other's file. *)
Theorem raw_and_cleaned_paths_distinct (url video_id : list N)
  (video_title : option (list N)) :
  extract_video_id url = Some video_id ->
  raw_filepath video_id video_title
  = lit "transcripts/" ++ base_filename video_id video_title ++ lit "_raw.md"
  /\ cleaned_filepath video_id video_title
     = lit "transcripts/" ++ base_filename video_id video_title ++ lit ".md"
  /\ (forall (E : env) (transcript : list entry) (lines : list (list N))
             (w : world),
         fs_accepts E (lit "transcripts/"
                       ++ base_filename video_id video_title
                       ++ lit "_raw.md") w ->
         res_map format_line transcript = Ok lines ->
         exists w',
           save_raw_transcript E video_id video_title transcript w
           = (Ok (Some (lit "transcripts/"
                        ++ base_filename video_id video_title
                        ++ lit "_raw.md")), w')
           /\ fs_files w'
              = <[lit "transcripts/" ++ base_filename video_id video_title
                  ++ lit "_raw.md"
                  := raw_header video_title ++ raw_body lines]> (fs_files w))
  /\ (forall (E : env) (cleaned : list N) (w : world),
         fs_accepts E (lit "transcripts/"
                       ++ base_filename video_id video_title
                       ++ lit ".md") w ->
         exists w',
           save_cleaned_transcript E video_id video_title cleaned w
           = (Ok (Some (lit "transcripts/"
                        ++ base_filename video_id video_title
                        ++ lit ".md")), w')
           /\ fs_files w'
              = <[lit "transcripts/" ++ base_filename video_id video_title
                  ++ lit ".md"
                  := cleaned_header video_title ++ cleaned]> (fs_files w))
  /\ (forall (E : env) (transcript : list entry),
         confined (lit "transcripts/" ++ base_filename video_id video_title
                   ++ lit "_raw.md")
                  (save_raw_transcript E video_id video_title transcript))
  /\ (forall (E : env) (cleaned : list N),
         confined (lit "transcripts/" ++ base_filename video_id video_title
                   ++ lit ".md")
                  (save_cleaned_transcript E video_id video_title cleaned))
  /\ (forall (id : list N) (title : option (list N)),
         raw_filepath id title <> cleaned_filepath id title).
Proof.
  intros Hid.
  destruct (run_filepaths url video_id video_title Hid) as (_ & Hraw & Hcl).
  split; [exact Hraw|]. split; [exact Hcl|].
  rewrite <- Hraw, <- Hcl.
  split; [|split; [|split; [|split]]].
  - intros E transcript lines w Hfs Hl. eexists. split.
    + apply (run_save_raw_transcript_accepted E video_id video_title
               transcript lines w Hfs Hl).
    + reflexivity.
  - intros E cleaned w Hfs. eexists. split.
    + apply (run_save_cleaned_transcript_accepted E video_id video_title
               cleaned w Hfs).
    + reflexivity.
  - intros E x. apply confined_save_raw_transcript.
  - intros E x. apply confined_save_cleaned_transcript.
  - intros id title. apply filepaths_differ.
Qed.

Lemma raw_and_cleaned_paths_distinct_witness :
  raw_filepath scenario_id (Some (lit "Example Title"))
  = lit "transcripts/" ++ base_filename scenario_id (Some (lit "Example Title")) ++ lit "_raw.md"
  /\ cleaned_filepath scenario_id (Some (lit "Example Title"))
     = lit "transcripts/" ++ base_filename scenario_id (Some (lit "Example Title")) ++ lit ".md"
  /\ (forall (E : env) (transcript : list entry) (lines : list (list N))
             (w : world),
         fs_accepts E (lit "transcripts/"
                       ++ base_filename scenario_id (Some (lit "Example Title"))
                       ++ lit "_raw.md") w ->
         res_map format_line transcript = Ok lines ->
         exists w',
           save_raw_transcript E scenario_id (Some (lit "Example Title")) transcript w
           = (Ok (Some (lit "transcripts/"
                        ++ base_filename scenario_id (Some (lit "Example Title"))
                        ++ lit "_raw.md")), w')
           /\ fs_files w'
              = <[lit "transcripts/" ++ base_filename scenario_id (Some (lit "Example Title"))
                  ++ lit "_raw.md"
                  := raw_header (Some (lit "Example Title")) ++ raw_body lines]> (fs_files w))
  /\ (forall (E : env) (cleaned : list N) (w : world),
         fs_accepts E (lit "transcripts/"
                       ++ base_filename scenario_id (Some (lit "Example Title"))
                       ++ lit ".md") w ->
         exists w',
           save_cleaned_transcript E scenario_id (Some (lit "Example Title")) cleaned w
           = (Ok (Some (lit "transcripts/"
                        ++ base_filename scenario_id (Some (lit "Example Title"))
                        ++ lit ".md")), w')
           /\ fs_files w'
              = <[lit "transcripts/" ++ base_filename scenario_id (Some (lit "Example Title"))
                  ++ lit ".md"
                  := cleaned_header (Some (lit "Example Title")) ++ cleaned]> (fs_files w))
  /\ (forall (E : env) (transcript : list entry),
         confined (lit "transcripts/" ++ base_filename scenario_id (Some (lit "Example Title"))
                   ++ lit "_raw.md")
                  (save_raw_transcript E scenario_id (Some (lit "Example Title")) transcript))
  /\ (forall (E : env) (cleaned : list N),
         confined (lit "transcripts/" ++ base_filename scenario_id (Some (lit "Example Title"))
                   ++ lit ".md")
                  (save_cleaned_transcript E scenario_id (Some (lit "Example Title")) cleaned))
  /\ (forall (id : list N) (title : option (list N)),
         raw_filepath id title <> cleaned_filepath id title).
Proof.
  apply (raw_and_cleaned_paths_distinct
           (lit "https://www.youtube.com/watch?v=dQw4w9WgXcQ") scenario_id
           (Some (lit "Example Title"))).
  reflexivity.
Defined.

(** The raw file of a run without a title is named after the identifier. *)
Lemma raw_filepath_no_title url video_id :
  extract_video_id url = Some video_id ->
  raw_filepath video_id None = lit "transcripts/" ++ video_id ++ lit "_raw.md".
Proof.
  intros H. apply extract_video_id_is_video_id, is_video_id_spec in H.
  destruct H as [Hl Hc]. destruct video_id as [|c rest]; [discriminate Hl|].
  unfold raw_filepath. rewrite path_join_transcripts. cbn [base_filename].
  cbn [app startswith].
  assert (eqb_char slash c = false) as ->; [|reflexivity].
  apply Forall_inv in Hc. unfold id_char in Hc.
  apply N.eqb_neq. unfold slash. lia.
Qed.

(** *** Events of a run *)

Section RunTheorems.

Variable E : env.

Lemma quiet_title_events video_id : Forall quiet (title_events E video_id).
Proof.
  unfold title_events. constructor; [exact I|].
  destruct (requests_get E (oembed_url video_id)) as [r|e].
  - destruct (status_code r =? 200)%Z; [|constructor].
    destruct (json_title r); repeat constructor.
  - repeat constructor.
Qed.

Lemma quiet_transcript_events video_id :
  Forall quiet (transcript_events E video_id).
Proof.
  unfold transcript_events. constructor; [exact I|].
  destruct (api_get_transcript E video_id); repeat constructor.
Qed.

Lemma quiet_announce_events video_id lines :
  Forall quiet (announce_events E video_id lines).
Proof.
  unfold announce_events. rewrite !Forall_app; repeat split.
  - repeat constructor.
  - apply quiet_title_events.
  - apply quiet_transcript_events.
  - repeat constructor.
Qed.

Lemma quiet_run_event p ev : quiet ev -> run_event p ev.
Proof. destruct ev; cbn; tauto. Qed.

Lemma save_event_run_event p ev : save_event p ev -> run_event p ev.
Proof. destruct ev; cbn; tauto. Qed.

Lemma quiet_no_output ev :
  quiet ev -> is_file_event ev = false /\ is_generate ev = false.
Proof. destruct ev; cbn; tauto. Qed.

Lemma save_event_no_generate p ev : save_event p ev -> is_generate ev = false.
Proof. destruct ev; cbn; tauto. Qed.

(** C6.  When the transcript lookup yields nothing (it raised, or the
    transcript is empty) the run ends normally with the file system as it
    was, and nothing it emitted is a directory creation, a file opening or a
    cleaning request: neither save function ran and the cleaning call was
    never made. *)
Theorem no_transcript_no_output (w : world) (video_id : list N) :
  extract_video_id (stdin_line E) = Some video_id ->
  transcript_absent (fetched_transcript E video_id) = true ->
  exists evs,
    main E w = (Ok tt, World (fs_files w) (fs_dirs w) (trace w ++ evs))
    /\ Forall (fun ev => is_file_event ev = false /\ is_generate ev = false)
              evs.
Proof.
  intros Hid Habs. eexists. split.
  - rewrite (run_main_absent E video_id w Hid Habs). reflexivity.
  - eapply Forall_impl; [|intros ev; apply quiet_no_output].
    rewrite !Forall_app; repeat split.
    + repeat constructor.
    + apply quiet_title_events.
    + apply quiet_transcript_events.
    + repeat constructor.
Qed.

(** *** After the raw file *)

Lemma dir_present_after_save p content w tr :
  dir_present w = true \/ makedirs_error E transcripts = None ->
  dir_present
    (World (<[p := content]> (fs_files w))
           (if dir_present w then fs_dirs w else {[transcripts]} ∪ fs_dirs w)
           tr) = true.
Proof.
  intros _. unfold dir_present at 1. cbn [fs_files fs_dirs].
  destruct (dir_present w) eqn:Hp.
  - unfold dir_present in Hp. apply orb_true_iff in Hp.
    apply orb_true_iff. destruct Hp as [Hp|Hp]; [left; exact Hp|right].
    apply bool_decide_eq_true_1 in Hp. apply bool_decide_eq_true_2.
    destruct (decide (p = transcripts)) as [->|Hne].
    + rewrite lookup_insert_eq. eauto.
    + rewrite lookup_insert_ne by exact Hne. exact Hp.
  - apply orb_true_iff. left. apply bool_decide_eq_true_2. set_solver.
Qed.

Lemma after_raw_failed video_id lines w :
  cleaning_failed (cleaned_text E (join [nl] lines)) = true ->
  after_raw E video_id lines w
  = (Ok tt,
     add_events w (request_events E lines
                   ++ [EvPrint (lit "Failed to clean transcript.")])).
Proof.
  intros Hf. unfold after_raw. cbv zeta.
  destruct (cleaned_text E (join [nl] lines)) as [[|c0 cleaned]|];
    try discriminate Hf; rewrite add_events_app; reflexivity.
Qed.

(** Whatever the cleaning call gives, the rest of the run ends normally,
    makes no further request and leaves every file but the cleaned one. *)
Lemma after_raw_frame video_id lines w :
  dir_present w = true ->
  exists w' evs,
    after_raw E video_id lines w = (Ok tt, w')
    /\ (forall q, q <> cleaned_filepath video_id (looked_up_title E video_id)
                  -> fs_files w' !! q = fs_files w !! q)
    /\ trace w' = trace w ++ request_events E lines ++ evs
    /\ Forall (fun ev => is_generate ev = false) evs.
Proof.
  intros Hdir. unfold after_raw. cbv zeta.
  destruct (cleaned_text E (join [nl] lines)) as [[|c0 cleaned]|].
  1, 3: eexists _, [EvPrint (lit "Failed to clean transcript.")];
        (split; [reflexivity|]); (split; [reflexivity|]);
        (split; [cbn [add_events trace]; rewrite <- ?app_assoc; reflexivity
               |repeat constructor]).
  set (w1 := add_events (add_events w (request_events E lines)) _).
  destruct (save_cleaned_transcript_returns E video_id
              (looked_up_title E video_id) (c0 :: cleaned) w1 (or_introl Hdir))
    as (r & w2 & Hrun).
  destruct (confined_save_cleaned_transcript E video_id
              (looked_up_title E video_id) (c0 :: cleaned) w1)
    as (r' & w2' & evs & Hrun' & Hfiles & Htrace & Hevs).
  rewrite Hrun in Hrun'. injection Hrun' as <- <-. rewrite Hrun.
  exists w2, ([EvPrint ([nl] ++ lit "Cleaned Transcript:"); EvPrint bar;
               EvPrint (c0 :: cleaned)] ++ evs).
  split; [reflexivity|]. split; [exact Hfiles|].
  split.
  - rewrite Htrace. unfold w1. cbn [add_events trace].
    rewrite <- !app_assoc. reflexivity.
  - apply Forall_app_2; [repeat constructor|].
    eapply Forall_impl; [exact Hevs|].
    intros ev. apply save_event_no_generate.
Qed.

(** What the cleaning call emits: one request when the client could be
    made and none otherwise, then at most a message. *)
Lemma cleaning_events_shape text :
  exists tl,
    Forall is_print tl
    /\ (genai_client E = None ->
        cleaning_events E text
        = EvGenerate gemini_model (gemini_prompt text) :: tl)
    /\ (genai_client E <> None -> cleaning_events E text = tl).
Proof.
  unfold cleaning_events.
  destruct (genai_client E) as [ex|].
  - eexists. split; [|split; [intros H; discriminate H|reflexivity]].
    repeat constructor.
  - destruct (generate_content E gemini_model (gemini_prompt text));
      eexists; (split; [|split; [reflexivity|intros H; contradiction]]);
      repeat constructor.
Qed.

Lemma is_print_quiet ev : is_print ev -> quiet ev.
Proof. destruct ev; cbn; tauto. Qed.

Lemma cleaning_events_no_file text :
  Forall (fun ev => is_file_event ev = false) (cleaning_events E text).
Proof.
  unfold cleaning_events.
  destruct (genai_client E) as [ex|];
    [|destruct (generate_content E gemini_model (gemini_prompt text))];
    repeat constructor.
Qed.


Lemma cleaning_events_sent text :
  genai_client E = None ->
  In (EvGenerate gemini_model (gemini_prompt text)) (cleaning_events E text).
Proof.
  intros H. destruct (cleaning_events_shape text) as (tl & _ & Hs & _).
  rewrite (Hs H). left. reflexivity.
Qed.

Lemma quiet_no_generate ev : quiet ev -> is_generate ev = false.
Proof. intros H. apply quiet_no_output, H. Qed.

(** A run whose raw file the file system accepts: the file is there at the
    end with all its lines, and no request went to the cleaning service but
    the one of the cleaning call. *)
Lemma main_saves_raw video_id e t lines w :
  extract_video_id (stdin_line E) = Some video_id ->
  fetched_transcript E video_id = Some (e :: t) ->
  res_map format_line (e :: t) = Ok lines ->
  fs_accepts E (raw_filepath video_id (looked_up_title E video_id)) w ->
  exists w' evs1 evs2,
    main E w = (Ok tt, w')
    /\ fs_files w' !! raw_filepath video_id (looked_up_title E video_id)
       = Some (raw_header (looked_up_title E video_id) ++ raw_body lines)
    /\ trace w'
       = trace w ++ evs1 ++ cleaning_events E (join [nl] lines) ++ evs2
    /\ Forall (fun ev => is_generate ev = false) evs1
    /\ Forall (fun ev => is_generate ev = false) evs2.
Proof.
  intros Hid Ht Hl Hfs.
  rewrite (run_main_available E video_id e t lines w Hid Ht Hl).
  set (title := looked_up_title E video_id) in *.
  set (wa := add_events w (announce_events E video_id lines)).
  assert (fs_accepts E (raw_filepath video_id title) wa) as Hfa by exact Hfs.
  rewrite (run_save_raw_transcript_accepted E video_id title (e :: t) lines
             wa Hfa Hl).
  cbv zeta.
  match goal with |- context [after_raw E video_id lines ?w1] =>
    set (ws := w1) end.
  assert (dir_present ws = true) as Hdir
      by (apply dir_present_after_save; apply Hfa).
  destruct (after_raw_frame video_id lines ws Hdir)
    as (w' & evs & -> & Hfiles & Htrace & Hevs).
  exists w'.
  exists (announce_events E video_id lines
          ++ (if dir_present wa then [] else [EvMakedirs transcripts])
          ++ [EvOpen (raw_filepath video_id title);
              EvPrint (lit "Raw transcript saved to "
                       ++ raw_filepath video_id title)]
          ++ [EvPrint ([nl] ++ lit "Cleaning transcript with Gemini (this may take a moment)...")]).
  exists evs.
  split; [reflexivity|]. split; [|split; [|split]].
  - rewrite Hfiles by apply filepaths_differ.
    unfold ws. cbn [fs_files]. apply lookup_insert_eq.
  - rewrite Htrace. unfold request_events.
    unfold ws, wa. cbn [trace add_events].
    norm_app. reflexivity.
  - rewrite !Forall_app; repeat split.
    + eapply Forall_impl; [apply quiet_announce_events|].
      intros ev. apply quiet_no_generate.
    + destruct (dir_present wa); repeat constructor.
    + repeat constructor.
    + repeat constructor.
  - exact Hevs.
Qed.

(** C7.  When the cleaning call fails (the client could not be made, the
    request raised, or its text is [None] or empty) the run is not aborted.
    The raw file is dealt with first: [save_raw_transcript] runs in the world
    reached after the transcript was printed, emits its events there, and
    where the file system accepted the file it reports it saved and the file
    holds all its lines.  Only then is the cleaning requested, at most once
    and with nothing emitted after the request but messages; the run ends
    normally with the file system exactly as the save left it, so the raw
    file is still there, no other file was opened, and every other file, the
    cleaned one among them, is as it was before the run. *)
Theorem cleaning_failure_keeps_raw_file (w : world) (video_id : list N)
  (e : entry) (t : list entry) (lines : list (list N)) :
  extract_video_id (stdin_line E) = Some video_id ->
  fetched_transcript E video_id = Some (e :: t) ->
  res_map format_line (e :: t) = Ok lines ->
  dir_present w = true \/ makedirs_error E transcripts = None ->
  cleaning_failed (cleaned_text E (join [nl] lines)) = true ->
  exists r w1 save_evs tl,
    save_raw_transcript E video_id (looked_up_title E video_id) (e :: t)
      (add_events w (announce_events E video_id lines))
    = (Ok r, w1)
    /\ trace w1 = trace w ++ announce_events E video_id lines ++ save_evs
    /\ Forall quiet (announce_events E video_id lines)
    /\ Forall (save_event (raw_filepath video_id (looked_up_title E video_id)))
              save_evs
    /\ main E w
       = (Ok tt,
          World (fs_files w1) (fs_dirs w1)
                (trace w1
                 ++ EvPrint ([nl] ++ lit "Cleaning transcript with Gemini (this may take a moment)...")
                    :: cleaning_events E (join [nl] lines)
                 ++ [EvPrint (lit "Failed to clean transcript.")]))
    /\ Forall is_print tl
    /\ (genai_client E = None ->
        cleaning_events E (join [nl] lines)
        = EvGenerate gemini_model (gemini_prompt (join [nl] lines)) :: tl)
    /\ (genai_client E <> None -> cleaning_events E (join [nl] lines) = tl)
    /\ (forall q, q <> raw_filepath video_id (looked_up_title E video_id) ->
                  fs_files w1 !! q = fs_files w !! q)
    /\ fs_files w1 !! cleaned_filepath video_id (looked_up_title E video_id)
       = fs_files w !! cleaned_filepath video_id (looked_up_title E video_id)
    /\ (open_error E (raw_filepath video_id (looked_up_title E video_id))
        = None ->
        (forall chunk,
            write_error E (raw_filepath video_id (looked_up_title E video_id))
                        chunk = None) ->
        r = Some (raw_filepath video_id (looked_up_title E video_id))
        /\ save_evs
           = (if dir_present w then [] else [EvMakedirs transcripts])
             ++ [EvOpen (raw_filepath video_id (looked_up_title E video_id));
                 EvPrint (lit "Raw transcript saved to "
                          ++ raw_filepath video_id
                               (looked_up_title E video_id))]
        /\ fs_files w1 !! raw_filepath video_id (looked_up_title E video_id)
           = Some (raw_header (looked_up_title E video_id)
                   ++ raw_body lines)).
Proof.
  intros Hid Ht Hl Hdir Hfail.
  rewrite (run_main_available E video_id e t lines w Hid Ht Hl).
  set (title := looked_up_title E video_id) in *.
  set (raw := raw_filepath video_id title).
  set (wa := add_events w (announce_events E video_id lines)).
  assert (dir_present wa = true \/ makedirs_error E transcripts = None)
    as Hdira by exact Hdir.
  destruct (save_raw_transcript_returns E video_id title (e :: t) wa Hdira)
    as (r & w1 & Hrun).
  destruct (confined_save_raw_transcript E video_id title (e :: t) wa)
    as (r' & w1' & evs & Hrun' & Hfiles & Htrace & Hevs).
  rewrite Hrun in Hrun'. injection Hrun' as <- <-. rewrite Hrun.
  rewrite (after_raw_failed video_id lines w1 Hfail).
  destruct (cleaning_events_shape (join [nl] lines)) as (tl & Htl & Hs & Hn).
  assert (forall q, q <> raw -> fs_files w1 !! q = fs_files w !! q) as Hframe.
  { intros q Hq. rewrite (Hfiles q Hq). reflexivity. }
  exists r, w1, evs, tl.
  split; [reflexivity|].
  split; [rewrite Htrace; unfold wa; cbn [add_events trace];
          rewrite <- app_assoc; reflexivity|].
  split; [apply quiet_announce_events|].
  split; [exact Hevs|].
  split; [unfold add_events, request_events; reflexivity|].
  split; [exact Htl|]. split; [exact Hs|]. split; [exact Hn|].
  split; [exact Hframe|].
  split.
  { apply Hframe. intros Heq. symmetry in Heq.
    exact (filepaths_differ video_id title Heq). }
  intros Hopen Hwrite.
  assert (fs_accepts E raw wa) as Hfa
      by (split; [exact Hdira|split; assumption]).
  pose proof (run_save_raw_transcript_accepted E video_id title (e :: t)
                lines wa Hfa Hl) as Hacc.
  cbv zeta in Hacc. rewrite Hrun in Hacc.
  injection Hacc as Hr Hw1.
  split; [exact Hr|].
  assert (dir_present wa = dir_present w) as Hdw by reflexivity.
  rewrite Hw1 in Htrace. cbn [trace] in Htrace. rewrite Hdw in Htrace.
  apply app_inv_head in Htrace.
  split; [symmetry; exact Htrace|].
  rewrite Hw1. cbn [fs_files]. apply lookup_insert_eq.
Qed.

(** C8.  When the title lookup gives nothing while the transcript is there
    (and the file system accepts the file), the run ends with the raw file
    written under the name of the identifier, [transcripts/ID_raw.md], and
    its heading reads [Unknown Title]. *)
Theorem missing_title_uses_identifier (w : world) (video_id : list N)
  (e : entry) (t : list entry) (lines : list (list N)) :
  extract_video_id (stdin_line E) = Some video_id ->
  looked_up_title E video_id = None ->
  fetched_transcript E video_id = Some (e :: t) ->
  res_map format_line (e :: t) = Ok lines ->
  fs_accepts E (lit "transcripts/" ++ video_id ++ lit "_raw.md") w ->
  exists w',
    main E w = (Ok tt, w')
    /\ fs_files w' !! (lit "transcripts/" ++ video_id ++ lit "_raw.md")
       = Some (lit "# Unknown Title (Raw Transcript)" ++ [nl; nl]
               ++ lit "---" ++ [nl; nl] ++ raw_body lines).
Proof.
  intros Hid Htitle Ht Hl Hfs.
  rewrite <- (raw_filepath_no_title _ _ Hid) in *.
  rewrite <- Htitle in Hfs.
  destruct (main_saves_raw video_id e t lines w Hid Ht Hl Hfs)
    as (w' & evs1 & evs2 & Hrun & Hfile & _).
  exists w'. split; [exact Hrun|].
  rewrite Htitle in Hfile. exact Hfile.
Qed.




Lemma format_line_first_day_entry (e0 : entry) :
  first_day e0 = true ->
  format_timestamp (start e0) = Ok (hmmss (whole_seconds e0))
  /\ is_hmmss (hmmss (whole_seconds e0)) = true
  /\ format_line e0 = Ok (hmmss_line e0).
Proof.
  unfold first_day, hmmss_line, whole_seconds.
  destruct (int_of_float (start e0)) as [n|ex] eqn:Hn; [|discriminate].
  intros H. apply andb_true_iff in H. destruct H as [H0 H1].
  apply Z.leb_le in H0. apply Z.ltb_lt in H1.
  apply (format_line_hmmss e0 n Hn). lia.
Qed.

Lemma res_map_first_day (t : list entry) :
  Forall (fun e0 => first_day e0 = true) t ->
  res_map format_line t = Ok (List.map hmmss_line t).
Proof.
  induction 1 as [|e0 t He _ IH]; [reflexivity|].
  cbn [res_map List.map].
  destruct (format_line_first_day_entry e0 He) as (_ & _ & ->).
  cbn [res_bind]. rewrite IH. reflexivity.
Qed.

End RunTheorems.

Lemma no_transcript_no_output_witness :
  exists evs,
    main captions_down empty_world
    = (Ok tt, World (fs_files empty_world) (fs_dirs empty_world)
                    (trace empty_world ++ evs))
    /\ Forall (fun ev => is_file_event ev = false /\ is_generate ev = false)
              evs.
Proof.
  apply (no_transcript_no_output captions_down empty_world scenario_id);
    reflexivity.
Defined.

Lemma scenario_accepts (E : env) (p : list N) (w : world) :
  makedirs_error E = (fun _ => None) ->
  open_error E = (fun _ => None) ->
  write_error E = (fun _ _ => None) ->
  fs_accepts E p w.
Proof.
  intros Hm Ho Hw. unfold fs_accepts. rewrite Hm, Ho, Hw. auto.
Defined.

Lemma cleaning_failure_keeps_raw_file_witness :
  exists r w1 save_evs tl,
    save_raw_transcript cleaning_down scenario_id
      (looked_up_title cleaning_down scenario_id) scenario_transcript
      (add_events empty_world
         (announce_events cleaning_down scenario_id scenario_lines))
    = (Ok r, w1)
    /\ trace w1
       = trace empty_world
         ++ announce_events cleaning_down scenario_id scenario_lines
         ++ save_evs
    /\ Forall quiet (announce_events cleaning_down scenario_id scenario_lines)
    /\ Forall (save_event (raw_filepath scenario_id
                             (looked_up_title cleaning_down scenario_id)))
              save_evs
    /\ main cleaning_down empty_world
       = (Ok tt,
          World (fs_files w1) (fs_dirs w1)
                (trace w1
                 ++ EvPrint ([nl] ++ lit "Cleaning transcript with Gemini (this may take a moment)...")
                    :: cleaning_events cleaning_down
                         (join [nl] scenario_lines)
                 ++ [EvPrint (lit "Failed to clean transcript.")]))
    /\ Forall is_print tl
    /\ (genai_client cleaning_down = None ->
        cleaning_events cleaning_down (join [nl] scenario_lines)
        = EvGenerate gemini_model (gemini_prompt (join [nl] scenario_lines))
          :: tl)
    /\ (genai_client cleaning_down <> None ->
        cleaning_events cleaning_down (join [nl] scenario_lines) = tl)
    /\ (forall q,
           q <> raw_filepath scenario_id
                             (looked_up_title cleaning_down scenario_id) ->
           fs_files w1 !! q = fs_files empty_world !! q)
    /\ fs_files w1 !! cleaned_filepath scenario_id
                        (looked_up_title cleaning_down scenario_id)
       = fs_files empty_world
           !! cleaned_filepath scenario_id
                (looked_up_title cleaning_down scenario_id)
    /\ (open_error cleaning_down
          (raw_filepath scenario_id
             (looked_up_title cleaning_down scenario_id)) = None ->
        (forall chunk,
            write_error cleaning_down
              (raw_filepath scenario_id
                 (looked_up_title cleaning_down scenario_id)) chunk = None) ->
        r = Some (raw_filepath scenario_id
                    (looked_up_title cleaning_down scenario_id))
        /\ save_evs
           = (if dir_present empty_world then []
              else [EvMakedirs transcripts])
             ++ [EvOpen (raw_filepath scenario_id
                           (looked_up_title cleaning_down scenario_id));
                 EvPrint (lit "Raw transcript saved to "
                          ++ raw_filepath scenario_id
                               (looked_up_title cleaning_down scenario_id))]
        /\ fs_files w1 !! raw_filepath scenario_id
                          (looked_up_title cleaning_down scenario_id)
           = Some (raw_header (looked_up_title cleaning_down scenario_id)
                   ++ raw_body scenario_lines)).
Proof.
  apply (cleaning_failure_keeps_raw_file cleaning_down empty_world scenario_id
           {| start := S754_zero false; text := lit "Hello" |}
           [{| start := S754_finite false 8584986789675008 (-47);
               text := lit "world" |}]
           scenario_lines);
    [reflexivity | reflexivity | reflexivity | right; reflexivity
    | reflexivity].
Defined.

Lemma missing_title_uses_identifier_witness :
  exists w',
    main title_and_cleaning_down empty_world = (Ok tt, w')
    /\ fs_files w' !! (lit "transcripts/" ++ scenario_id ++ lit "_raw.md")
       = Some (lit "# Unknown Title (Raw Transcript)" ++ [nl; nl]
               ++ lit "---" ++ [nl; nl] ++ raw_body scenario_lines).
Proof.
  apply (missing_title_uses_identifier title_and_cleaning_down empty_world
           scenario_id
           {| start := S754_zero false; text := lit "Hello" |}
           [{| start := S754_finite false 8584986789675008 (-47);
               text := lit "world" |}]
           scenario_lines);
    [reflexivity | reflexivity | reflexivity | reflexivity
    | apply scenario_accepts; reflexivity].
Defined.


(** C3, as the code has it.  For every caption entry whose start offset,
    cut to whole seconds, lies in the first day ([0 <= n < 86400]), the
    timestamp is [H:MM:SS] (hours without leading zero, minutes and seconds
    on two digits) and the formatted line is [[H:MM:SS] text]; and the body
    of the raw file of a transcript made of such entries, where the file
    system accepts the file, is one such line per entry, each followed by a
    newline. *)
Theorem raw_lines_are_hmmss :
  (forall e : entry,
      first_day e = true ->
      format_timestamp (start e) = Ok (hmmss (whole_seconds e))
      /\ is_hmmss (hmmss (whole_seconds e)) = true
      /\ format_line e
         = Ok (lit "[" ++ hmmss (whole_seconds e) ++ lit "] " ++ text e))
  /\ (forall (E : env) (w : world) (video_id : list N)
             (video_title : option (list N)) (transcript : list entry),
         Forall (fun e => first_day e = true) transcript ->
         fs_accepts E (raw_filepath video_id video_title) w ->
         exists w',
           save_raw_transcript E video_id video_title transcript w
           = (Ok (Some (raw_filepath video_id video_title)), w')
           /\ fs_files w' !! raw_filepath video_id video_title
              = Some (raw_header video_title
                      ++ concat (List.map (fun e => hmmss_line e ++ [nl])
                                          transcript))).
Proof.
  split; [exact format_line_first_day_entry|].
  intros E w video_id video_title transcript Hday Hfs.
  pose proof (run_save_raw_transcript_accepted E video_id video_title
                transcript _ w Hfs (res_map_first_day transcript Hday))
    as Hrun.
  cbv zeta in Hrun. eexists. split; [exact Hrun|].
  cbn [fs_files]. rewrite lookup_insert_eq. unfold raw_body.
  rewrite List.map_map. reflexivity.
Qed.

Lemma raw_lines_are_hmmss_witness :
  format_line {| start := float_65_9; text := lit "Hello" |}
  = Ok (lit "[0:01:05] Hello")
  /\ exists w',
       save_raw_transcript cleaning_down scenario_id (Some (lit "Example Title"))
                           scenario_transcript empty_world
       = (Ok (Some (raw_filepath scenario_id (Some (lit "Example Title")))),
          w')
       /\ fs_files w' !! raw_filepath scenario_id (Some (lit "Example Title"))
          = Some (raw_header (Some (lit "Example Title"))
                  ++ concat (List.map (fun e => hmmss_line e ++ [nl])
                                      scenario_transcript)).
Proof.
  split.
  - destruct (proj1 raw_lines_are_hmmss
                {| start := float_65_9; text := lit "Hello" |} eq_refl)
      as (_ & _ & Hline).
    exact Hline.
  - apply (proj2 raw_lines_are_hmmss cleaning_down empty_world scenario_id
             (Some (lit "Example Title")) scenario_transcript).
    + repeat constructor.
    + apply scenario_accepts; reflexivity.
Defined.

(** * Further properties of the script *)

(** ** [extract_video_id] *)

(** X1.  [extract_video_id] returns the eleven characters that follow the
    leftmost [v=] or [/] directly followed by eleven characters of
    [[0-9A-Za-z_-]], and [None] when the string has no such place: the two
    regular expressions and the loop over them amount to this one scan. *)
Theorem extract_video_id_scans_for_marker (url : list N) :
  extract_video_id url = leftmost_id url.
Proof. apply extract_video_id_leftmost. Qed.

(** X2.  The second pattern never decides: wherever [youtu.be/ID] matches,
    the first pattern matches as well, so the result is always the capture of
    the first pattern alone. *)
Theorem second_pattern_never_decides (url : list N) :
  extract_video_id url = first_match [pattern1] url
  /\ (search pattern2 url = None \/ exists m, search pattern1 url = Some m).
Proof.
  assert (search pattern2 url = None \/ exists m, search pattern1 url = Some m)
    as H.
  { destruct (search pattern2 url) eqn:H2; [right|left; reflexivity].
    rewrite search_pattern1.
    destruct (leftmost_id url) eqn:Hl; [eexists; reflexivity|].
    exfalso. apply (search_pattern2_marker url); congruence. }
  split; [|exact H].
  unfold extract_video_id, patterns. cbn [first_match].
  destruct (search pattern1 url) eqn:H1; [reflexivity|].
  destruct H as [-> | [m Hm]]; [reflexivity|discriminate Hm].
Qed.

Lemma startswith_app p s :
  startswith p s = true -> s = p ++ skipn (length p) s.
Proof.
  revert s. induction p as [|a p IH]; intros s H; [reflexivity|].
  destruct s as [|b s]; [discriminate H|].
  cbn [startswith] in H. apply andb_true_iff in H. destruct H as [Hab Hp].
  apply N.eqb_eq in Hab. subst b. cbn [length skipn app].
  f_equal. apply IH, Hp.
Qed.

Lemma id_at_shape s x :
  id_at s = Some x ->
  exists post, s = lit "v=" ++ x ++ post \/ s = lit "/" ++ x ++ post.
Proof.
  unfold id_at, after_marker.
  destruct (startswith (lit "v=") s) eqn:Hv.
  - destruct (is_video_id (firstn 11 (skipn 2 s))); [|discriminate].
    intros H. apply Some_inj in H. subst x.
    exists (skipn 11 (skipn 2 s)). left.
    rewrite firstn_skipn. apply (startswith_app _ _ Hv).
  - destruct (startswith (lit "/") s) eqn:Hs; [|discriminate].
    destruct (is_video_id (firstn 11 (skipn 1 s))); [|discriminate].
    intros H. apply Some_inj in H. subst x.
    exists (skipn 11 (skipn 1 s)). right.
    rewrite firstn_skipn. apply (startswith_app _ _ Hs).
Qed.

Lemma leftmost_id_shape s x :
  leftmost_id s = Some x ->
  exists pre post,
    s = pre ++ lit "v=" ++ x ++ post \/ s = pre ++ lit "/" ++ x ++ post.
Proof.
  induction s as [|a t IH]; cbn [leftmost_id].
  - destruct (id_at []) eqn:H; [|discriminate].
    intros Hx. apply Some_inj in Hx. subst.
    destruct (id_at_shape _ _ H) as (post & Hs). exists [], post. exact Hs.
  - destruct (id_at (a :: t)) eqn:H.
    + intros Hx. apply Some_inj in Hx. subst.
      destruct (id_at_shape _ _ H) as (post & Hs). exists [], post. exact Hs.
    + intros Hx. destruct (IH Hx) as (pre & post & [-> | ->]);
        exists (a :: pre), post; [left|right]; reflexivity.
Qed.

(** X3.  An identifier that [extract_video_id] returns is a piece of the
    input: it stands in the URL directly after a [v=] or a [/]. *)
Theorem extract_video_id_is_in_url (url x : list N) :
  extract_video_id url = Some x ->
  exists pre post,
    url = pre ++ lit "v=" ++ x ++ post \/ url = pre ++ lit "/" ++ x ++ post.
Proof.
  rewrite extract_video_id_leftmost. apply leftmost_id_shape.
Qed.

Lemma extract_video_id_is_in_url_witness :
  exists pre post,
    lit "https://youtu.be/dQw4w9WgXcQ?t=42"
    = pre ++ lit "v=" ++ lit "dQw4w9WgXcQ" ++ post
    \/ lit "https://youtu.be/dQw4w9WgXcQ?t=42"
       = pre ++ lit "/" ++ lit "dQw4w9WgXcQ" ++ post.
Proof.
  apply (extract_video_id_is_in_url
           (lit "https://youtu.be/dQw4w9WgXcQ?t=42") (lit "dQw4w9WgXcQ")).
  reflexivity.
Defined.

Lemma id_at_length s x : id_at s = Some x -> (12 <= length s)%nat.
Proof.
  intros H. pose proof (id_at_is_video_id _ _ H) as Hx.
  apply is_video_id_spec in Hx. destruct Hx as [Hl _].
  destruct (id_at_shape _ _ H) as (post & [-> | ->]);
    rewrite !length_app, Hl;
    [change (length (lit "v=")) with 2%nat
    |change (length (lit "/")) with 1%nat]; lia.
Qed.

Lemma id_at_marker s x :
  id_at s = Some x -> exists c, In c s /\ (c = slash \/ c = 61%N).
Proof.
  intros H. destruct (id_at_shape _ _ H) as (post & [-> | ->]).
  - exists 61%N. split; [right; left; reflexivity|right; reflexivity].
  - exists slash. split; [left; reflexivity|left; reflexivity].
Qed.

(** X4.  A string shorter than twelve characters, or one with neither a [/]
    nor an [=] in it, has no identifier: [extract_video_id] returns [None]. *)
Theorem extract_video_id_none (url : list N) :
  (length url < 12)%nat \/ Forall (fun c => c <> slash /\ c <> 61%N) url ->
  extract_video_id url = None.
Proof.
  rewrite extract_video_id_leftmost.
  induction url as [|a t IH]; intros H; cbn [leftmost_id].
  - destruct (id_at []) eqn:Hid; [|reflexivity].
    apply id_at_length in Hid. cbn [length] in Hid. lia.
  - destruct (id_at (a :: t)) eqn:Hid.
    + exfalso. destruct H as [H|H].
      * apply id_at_length in Hid. cbn [length] in *. lia.
      * destruct (id_at_marker _ _ Hid) as (c & Hin & Hc).
        rewrite List.Forall_forall in H. specialize (H c Hin).
        destruct Hc; tauto.
    + apply IH. destruct H as [H|H]; [left; cbn [length] in H; lia|right].
      apply Forall_inv_tail in H. exact H.
Qed.

Lemma extract_video_id_none_witness :
  extract_video_id (lit "not a url") = None.
Proof.
  apply (extract_video_id_none (lit "not a url")). left.
  vm_compute. lia.
Defined.

(** X5.  Whatever the path, an identifier that follows a [/] is found: for a
    URL [p/X...] whose prefix [p] has no [v=] and no [/] directly followed by
    eleven identifier characters, [extract_video_id] returns [X].  This is
    how [/embed/X], [/shorts/X] and [/live/X] links are read. *)
Theorem extract_video_id_after_slash (p x rest : list N) :
  is_video_id x = true ->
  no_id_in p = true ->
  extract_video_id (p ++ lit "/" ++ x ++ rest) = Some x.
Proof.
  intros Hx Hp. rewrite extract_video_id_leftmost.
  change (lit "/" ++ x ++ rest) with (slash :: x ++ rest).
  rewrite leftmost_id_clean_prefix by exact Hp.
  apply (leftmost_id_here x rest Hx).
Qed.

Lemma extract_video_id_after_slash_witness :
  extract_video_id (lit "https://www.youtube.com/shorts" ++ lit "/"
                    ++ lit "dQw4w9WgXcQ" ++ lit "?feature=share")
  = Some (lit "dQw4w9WgXcQ").
Proof.
  apply (extract_video_id_after_slash (lit "https://www.youtube.com/shorts")
           (lit "dQw4w9WgXcQ") (lit "?feature=share")); reflexivity.
Defined.

(** ** [format_timestamp] *)

Lemma digit_value_digit d : (0 <= d <= 9)%Z -> digit_value (digit d) = d.
Proof. intros Hd. unfold digit_value, digit. lia. Qed.

Lemma tens_and_units k :
  (0 <= k < 100)%Z -> (0 <= k / 10 <= 9)%Z /\ (0 <= k mod 10 <= 9)%Z.
Proof.
  intros Hk. split.
  - split; [apply Z.div_pos; lia|].
    apply Z.lt_succ_r, Z.div_lt_upper_bound; lia.
  - pose proof (Z.mod_pos_bound k 10 ltac:(lia)). lia.
Qed.

Lemma seconds_of_hmmss_hmmss n :
  (0 <= n < 86400)%Z -> seconds_of_hmmss (hmmss n) = n.
Proof.
  intros Hn.
  assert (0 <= n / 3600 < 24)%Z as Hh.
  { split; [apply Z.div_pos; lia|apply Z.div_lt_upper_bound; lia]. }
  pose proof (Z.mod_pos_bound (n / 60) 60 ltac:(lia)) as Hm.
  pose proof (Z.mod_pos_bound n 60 ltac:(lia)) as Hs.
  assert (forall k, (0 <= k < 100)%Z ->
                    digit_value (digit (k / 10)) = (k / 10)%Z
                    /\ digit_value (digit (k mod 10)) = (k mod 10)%Z) as Hk.
  { intros k Hk. destruct (tens_and_units k Hk).
    split; apply digit_value_digit; assumption. }
  assert (n = n / 3600 * 3600 + (n / 60 mod 60) * 60 + n mod 60)%Z as Hsplit.
  { replace (n / 3600)%Z with (n / 60 / 60)%Z
      by (rewrite Z.div_div by lia; reflexivity).
    pose proof (Z.div_mod n 60 ltac:(lia)).
    pose proof (Z.div_mod (n / 60) 60 ltac:(lia)). lia. }
  assert (forall k, k = (k / 10 * 10 + k mod 10)%Z) as Hten.
  { intros k. pose proof (Z.div_mod k 10 ltac:(lia)). lia. }
  unfold seconds_of_hmmss, hmmss, hours_digits, two_digits.
  change (lit ":") with [58%N].
  destruct (Hk (n / 60 mod 60)%Z ltac:(lia)) as [Hm1 Hm2].
  destruct (Hk (n mod 60)%Z ltac:(lia)) as [Hs1 Hs2].
  destruct (Z.ltb_spec (n / 3600) 10) as [Hlt|Hge];
    cbn [app rev fold_right]; rewrite Hm1, Hm2, Hs1, Hs2.
  - rewrite digit_value_digit by lia.
    pose proof (Hten (n / 60 mod 60)%Z). pose proof (Hten (n mod 60)%Z).
    lia.
  - destruct (Hk (n / 3600)%Z ltac:(lia)) as [-> ->].
    pose proof (Hten (n / 60 mod 60)%Z). pose proof (Hten (n mod 60)%Z).
    pose proof (Hten (n / 3600)%Z). lia.
Qed.

(** X6.  Within the first day the timestamp tells the second: two start
    offsets whose whole seconds differ get different timestamps. *)
Theorem format_timestamp_tells_seconds (x y : spec_float) (n m : Z) :
  int_of_float x = Ok n -> (0 <= n < 86400)%Z ->
  int_of_float y = Ok m -> (0 <= m < 86400)%Z ->
  n <> m ->
  format_timestamp x <> format_timestamp y.
Proof.
  intros Hx Hn Hy Hm Hne Heq. apply Hne.
  rewrite (format_timestamp_below_a_day x n Hx Hn) in Heq.
  rewrite (format_timestamp_below_a_day y m Hy Hm) in Heq.
  apply Ok_inj in Heq.
  rewrite <- (seconds_of_hmmss_hmmss n Hn), <- (seconds_of_hmmss_hmmss m Hm).
  rewrite Heq. reflexivity.
Qed.

Lemma format_timestamp_tells_seconds_witness :
  format_timestamp float_65_9 <> format_timestamp (S754_zero false).
Proof.
  apply (format_timestamp_tells_seconds float_65_9 (S754_zero false) 65 0);
    [reflexivity | lia | reflexivity | lia | lia].
Defined.

Lemma timedelta_str_days d s :
  (0 <= s < 86400)%Z ->
  timedelta_str {| days := d; seconds := s; microseconds := 0 |}
  = (if (d =? 0)%Z then [] else days_prefix d) ++ hmmss s.
Proof.
  intros Hs. unfold timedelta_str, hmmss, days_prefix.
  cbn [days seconds microseconds].
  change (0 =? 0)%Z with true. cbv beta iota.
  rewrite fmt_02d_two_digits by (apply Z.mod_pos_bound; lia).
  rewrite fmt_02d_two_digits by (apply Z.mod_pos_bound; lia).
  rewrite Z.div_div by lia. change (60 * 60)%Z with 3600%Z.
  rewrite fmt_d_hours_digits
    by (split; [apply Z.div_pos; lia|apply Z.div_lt_upper_bound; lia]).
  destruct (d =? 0)%Z; [reflexivity|].
  rewrite <- !app_assoc. reflexivity.
Qed.

(** X7.  Outside the first day the timestamp carries a day count: for whole
    seconds [n] with [D = floor (n / 86400)] other than zero (and within
    the range of [timedelta]) it is [D day, H:MM:SS] or [D days, H:MM:SS],
    where [H:MM:SS] renders [n mod 86400]; a negative offset counts back
    from a negative day. *)
Theorem format_timestamp_with_days (x : spec_float) (n : Z) :
  int_of_float x = Ok n ->
  (n / 86400 <> 0)%Z ->
  (- 999999999 <= n / 86400 <= 999999999)%Z ->
  format_timestamp x
  = Ok (fmt_d (n / 86400) ++ lit " day"
        ++ (if (Z.abs (n / 86400) =? 1)%Z then [] else lit "s")
        ++ lit ", " ++ hmmss (n mod 86400)).
Proof.
  intros Hx Hd Hr. unfold format_timestamp. rewrite Hx. cbn [res_bind].
  unfold timedelta_of_seconds, max_days.
  replace ((n / 86400 <? - 2 ^ 31)%Z) with false by (symmetry; lia).
  replace ((2 ^ 31 <=? n / 86400)%Z) with false by (symmetry; lia).
  replace ((Z.abs (n / 86400) >? 999999999)%Z) with false
    by (symmetry; lia).
  cbn [orb res_bind].
  rewrite timedelta_str_days by (apply Z.mod_pos_bound; lia).
  replace ((n / 86400 =? 0)%Z) with false by (symmetry; lia).
  unfold days_prefix. rewrite <- !app_assoc. reflexivity.
Qed.

Lemma format_timestamp_with_days_witness :
  format_timestamp (S754_finite true 4503599627370496 (-52))
  = Ok (fmt_d (-1 / 86400) ++ lit " day"
        ++ (if (Z.abs (-1 / 86400) =? 1)%Z then [] else lit "s")
        ++ lit ", " ++ hmmss (-1 mod 86400)).
Proof.
  apply (format_timestamp_with_days
           (S754_finite true 4503599627370496 (-52)) (-1));
    [reflexivity | vm_compute; discriminate | vm_compute; split; discriminate].
Defined.

(** X8.  [format_timestamp] raises exactly when the start offset is NaN or
    infinite, or when its whole seconds leave the range of [timedelta]
    (999999999 days either way); for every other number it returns a
    timestamp. *)
Theorem format_timestamp_raises_iff (x : spec_float) :
  (exists ts, format_timestamp x = Ok ts)
  <-> (exists n, int_of_float x = Ok n
                 /\ (- 86399999913600 <= n < 86400000000000)%Z).
Proof.
  assert (forall n, n = 86400 * (n / 86400) + n mod 86400
                    /\ 0 <= n mod 86400 < 86400)%Z as Hdiv.
  { intros n. split; [apply Z.div_mod; lia|apply Z.mod_pos_bound; lia]. }
  unfold format_timestamp. split.
  - intros [ts H]. destruct (int_of_float x) as [n|ex]; [|discriminate H].
    exists n. split; [reflexivity|]. cbn [res_bind] in H.
    unfold timedelta_of_seconds, max_days in H.
    destruct (Z.abs (n / 86400) >? 999999999)%Z eqn:Hd.
    + destruct ((n / 86400 <? - 2 ^ 31)%Z || (2 ^ 31 <=? n / 86400)%Z);
        discriminate H.
    + destruct (Hdiv n). lia.
  - intros (n & -> & Hn). cbn [res_bind]. destruct (Hdiv n).
    unfold timedelta_of_seconds, max_days.
    replace ((n / 86400 <? - 2 ^ 31)%Z) with false by (symmetry; lia).
    replace ((2 ^ 31 <=? n / 86400)%Z) with false by (symmetry; lia).
    replace ((Z.abs (n / 86400) >? 999999999)%Z) with false
      by (symmetry; lia).
    cbn [orb res_bind]. eexists. reflexivity.
Qed.

(** ** [sanitize_filename] *)

Lemma remove_char_absent c s : ~ In c s -> remove_char c s = s.
Proof.
  intros Hc. unfold remove_char. induction s as [|x t IH]; [reflexivity|].
  cbn [List.filter]. destruct (eqb_char c x) eqn:Hx.
  - exfalso. apply Hc. left. symmetry. apply N.eqb_eq, Hx.
  - cbn [negb]. f_equal. apply IH. intros Hin. apply Hc. right. exact Hin.
Qed.

Lemma remove_chars_absent chars : forall s,
  Forall (fun c => ~ In c chars) s ->
  fold_left (fun name char => remove_char char name) chars s = s.
Proof.
  induction chars as [|d chars IH]; intros s Hs; [reflexivity|].
  cbn [fold_left]. rewrite remove_char_absent.
  - apply IH. eapply Forall_impl; [exact Hs|].
    intros c Hc Hin. apply Hc. right. exact Hin.
  - intros Hin. rewrite List.Forall_forall in Hs.
    apply (Hs d Hin). left. reflexivity.
Qed.

(** X9.  A name that is safe already comes back unchanged: a string with no
    disallowed character, no leading or trailing whitespace and at most 200
    characters is a fixed point of [sanitize_filename]. *)
Theorem sanitize_filename_keeps_safe_names (filename : list N) :
  Forall (fun c => ~ In c invalid_chars) filename ->
  strip filename = filename ->
  (length filename <= 200)%nat ->
  sanitize_filename filename = filename.
Proof.
  intros Hc Hs Hl. unfold sanitize_filename.
  rewrite (remove_chars_absent invalid_chars filename Hc), Hs.
  apply firstn_all2, Hl.
Qed.

Lemma sanitize_filename_keeps_safe_names_witness :
  sanitize_filename (lit "Example Title") = lit "Example Title".
Proof.
  apply (sanitize_filename_keeps_safe_names (lit "Example Title")).
  - vm_compute. repeat constructor; intros H; repeat (destruct H as [H|H];
      [discriminate H|]); exact H.
  - reflexivity.
  - vm_compute. lia.
Defined.

Lemma lstrip_is_drop s : exists k, lstrip s = skipn k s.
Proof.
  induction s as [|c t [k IH]]; [exists 0%nat; reflexivity|].
  cbn [lstrip]. destruct (isspace c).
  - exists (S k). exact IH.
  - exists 0%nat. reflexivity.
Qed.

Lemma rstrip_is_take s : exists k, rstrip s = firstn k s.
Proof.
  unfold rstrip. destruct (lstrip_is_drop (rev s)) as [k ->].
  rewrite skipn_rev, rev_involutive. eauto.
Qed.

Lemma sublist_remove_char c s : sublist (remove_char c s) s.
Proof.
  unfold remove_char. induction s as [|x t IH]; [constructor|].
  cbn [List.filter]. destruct (negb (eqb_char c x)); constructor; exact IH.
Qed.

Lemma sublist_remove_chars chars : forall s,
  sublist (fold_left (fun name char => remove_char char name) chars s) s.
Proof.
  induction chars as [|d chars IH]; intros s; [reflexivity|].
  cbn [fold_left]. etransitivity; [apply IH|apply sublist_remove_char].
Qed.

Lemma sublist_strip s : sublist (strip s) s.
Proof.
  unfold strip. destruct (rstrip_is_take (lstrip s)) as [k ->].
  destruct (lstrip_is_drop s) as [j ->].
  etransitivity; [apply sublist_take|apply sublist_drop].
Qed.

(** X10.  [sanitize_filename] only deletes: its result is the input with
    some characters left out, the others in their order; nothing is added,
    replaced or moved. *)
Theorem sanitize_filename_only_deletes (filename : list N) :
  sublist (sanitize_filename filename) filename.
Proof.
  unfold sanitize_filename.
  etransitivity; [apply sublist_take|].
  etransitivity; [apply sublist_strip|apply sublist_remove_chars].
Qed.

Lemma lstrip_nil_iff s :
  lstrip s = [] <-> Forall (fun c => isspace c = true) s.
Proof.
  induction s as [|c t IH]; cbn [lstrip].
  - split; [constructor|reflexivity].
  - destruct (isspace c) eqn:Hc.
    + rewrite IH. split; [intros H; constructor; assumption|].
      intros H. apply Forall_inv_tail in H. exact H.
    + split; [discriminate|]. intros H. apply Forall_inv in H.
      cbv beta in H. congruence.
Qed.

Lemma strip_nil_iff s :
  strip s = [] <-> Forall (fun c => isspace c = true) s.
Proof.
  rewrite <- lstrip_nil_iff. unfold strip, rstrip. split.
  - intros H. apply (f_equal (@rev N)) in H.
    rewrite rev_involutive in H. cbn [rev] in H.
    apply lstrip_nil_iff in H. rewrite List.Forall_forall in H.
    destruct (lstrip s) as [|c t] eqn:Hl; [reflexivity|].
    pose proof (leading_space_lstrip s) as Hlead. rewrite Hl in Hlead.
    cbn [leading_space] in Hlead.
    rewrite (H c) in Hlead; [discriminate Hlead|].
    apply in_rev. rewrite rev_involutive. left. reflexivity.
  - intros ->. reflexivity.
Qed.

Lemma firstn_200_nil (l : list N) : firstn 200 l = [] <-> l = [].
Proof.
  split; [|intros ->; reflexivity].
  destruct l as [|c t]; [reflexivity|]. cbn [firstn]. discriminate.
Qed.

(** X11.  The sanitized name is empty exactly when the input consists of
    disallowed characters and whitespace only (the empty string among
    them). *)
Theorem sanitize_filename_empty_iff (filename : list N) :
  sanitize_filename filename = []
  <-> Forall (fun c => In c invalid_chars \/ isspace c = true) filename.
Proof.
  unfold sanitize_filename. rewrite firstn_200_nil, strip_nil_iff.
  rewrite !List.Forall_forall. split.
  - intros H c Hin.
    destruct (in_dec N.eq_dec c invalid_chars) as [Hbad|Hok];
      [left; exact Hbad|right].
    apply H, in_remove_chars. split; assumption.
  - intros H c Hin. apply in_remove_chars in Hin. destruct Hin as [Hin Hok].
    destruct (H c Hin) as [Hbad|Hsp]; [contradiction|exact Hsp].
Qed.

Lemma sanitize_filename_empty (filename : list N) :
  Forall (fun c => In c invalid_chars \/ isspace c = true) filename ->
  sanitize_filename filename = [].
Proof.
  intros H. unfold sanitize_filename.
  apply firstn_200_nil, strip_nil_iff, List.Forall_forall.
  intros c Hin. apply in_remove_chars in Hin. destruct Hin as [Hin Hok].
  rewrite List.Forall_forall in H.
  destruct (H c Hin) as [Hbad|Hsp]; [contradiction|exact Hsp].
Qed.

(** X12.  Titles made of disallowed characters and whitespace only all
    share one pair of files: whatever the identifier, the raw file is
    [transcripts/_raw.md] and the cleaned file is [transcripts/.md], so a
    later run with another such title replaces them. *)
Theorem unusable_titles_share_files (video_id title : list N) :
  title <> [] ->
  Forall (fun c => In c invalid_chars \/ isspace c = true) title ->
  raw_filepath video_id (Some title) = lit "transcripts/_raw.md"
  /\ cleaned_filepath video_id (Some title) = lit "transcripts/.md".
Proof.
  intros Hne Hall. unfold raw_filepath, cleaned_filepath, base_filename.
  destruct title as [|c t]; [contradiction|]. cbn [truthy].
  rewrite (sanitize_filename_empty (c :: t) Hall).
  split; reflexivity.
Qed.

Lemma unusable_titles_share_files_witness :
  raw_filepath (lit "dQw4w9WgXcQ") (Some (lit "???")) = lit "transcripts/_raw.md"
  /\ cleaned_filepath (lit "dQw4w9WgXcQ") (Some (lit "???"))
     = lit "transcripts/.md".
Proof.
  apply (unusable_titles_share_files (lit "dQw4w9WgXcQ") (lit "???")).
  - discriminate.
  - repeat constructor; left; vm_compute; tauto.
Defined.

Lemma sanitize_filename_clean (filename : list N) :
  Forall (fun c => ~ In c invalid_chars) (sanitize_filename filename).
Proof.
  apply List.Forall_forall. intros c Hin Hbad. unfold sanitize_filename in Hin.
  apply in_firstn, in_strip, in_remove_chars in Hin. tauto.
Qed.

Lemma strip_strip s : strip (strip s) = strip s.
Proof.
  unfold strip at 1.
  rewrite (lstrip_fixed (strip s)) by apply leading_space_strip.
  apply rstrip_strip.
Qed.

(** X13.  Sanitizing twice changes nothing as long as the first result is
    shorter than 200 characters.  (A result of exactly 200 characters may
    end in whitespace, which a second pass would trim.) *)
Theorem sanitize_filename_idempotent_below_200 (filename : list N) :
  (length (sanitize_filename filename) < 200)%nat ->
  sanitize_filename (sanitize_filename filename) = sanitize_filename filename.
Proof.
  intros Hl.
  pose proof (sanitize_filename_clean filename) as Hc.
  unfold sanitize_filename at 1.
  rewrite (remove_chars_absent invalid_chars _ Hc).
  assert (sanitize_filename filename
          = strip (fold_left (fun name char => remove_char char name)
                             invalid_chars filename)) as Heq.
  { unfold sanitize_filename in *. rewrite length_firstn in Hl.
    apply firstn_all2. lia. }
  rewrite Heq at 1. rewrite strip_strip, <- Heq.
  apply firstn_all2. lia.
Qed.

Lemma sanitize_filename_idempotent_below_200_witness :
  sanitize_filename (sanitize_filename (lit " a<b>:c/d\|?*e  "))
  = sanitize_filename (lit " a<b>:c/d\|?*e  ").
Proof.
  apply (sanitize_filename_idempotent_below_200 (lit " a<b>:c/d\|?*e  ")).
  vm_compute. lia.
Defined.

(** ** The three lookups *)

Section Lookups.

Variable E : env.

(** X14.  [get_video_title] never raises and never touches the file
    system.  It sends one request, to the oEmbed address of the identifier;
    it returns the title exactly when the answer has status 200 and a title
    in its body; and for any other status it returns [None] without a
    message. *)
Theorem get_video_title_contract (video_id : list N) (w : world) :
  exists o evs,
    get_video_title E video_id w
    = (Ok o, World (fs_files w) (fs_dirs w)
                   (trace w ++ EvHttpGet (oembed_url video_id) :: evs))
    /\ Forall is_print evs
    /\ (forall t, o = Some t
                  <-> exists r, requests_get E (oembed_url video_id) = Ok r
                                /\ status_code r = 200%Z
                                /\ json_title r = Ok t)
    /\ (forall r, requests_get E (oembed_url video_id) = Ok r ->
                  status_code r <> 200%Z -> o = None /\ evs = []).
Proof.
  rewrite run_get_video_title. unfold looked_up_title, title_events.
  destruct (requests_get E (oembed_url video_id)) as [r|ex] eqn:Hreq.
  - destruct (Z.eqb_spec (status_code r) 200) as [Hs|Hs].
    + destruct (json_title r) as [t|ex] eqn:Ht.
      * exists (Some t), []. split; [reflexivity|]. split; [constructor|].
        split.
        -- intros t'. split.
           ++ intros H. apply Some_inj in H. subst. eauto.
           ++ intros (r' & Hr & _ & Ht'). apply Ok_inj in Hr. subst r'.
              congruence.
        -- intros r' Hr Hne. apply Ok_inj in Hr. subst r'. contradiction.
      * eexists None, [_]. split; [reflexivity|].
        split; [repeat constructor|]. split.
        -- intros t'. split; [discriminate|].
           intros (r' & Hr & _ & Ht'). apply Ok_inj in Hr. subst r'.
           congruence.
        -- intros r' Hr Hne. apply Ok_inj in Hr. subst r'. contradiction.
    + exists None, []. split; [reflexivity|]. split; [constructor|]. split.
      * intros t'. split; [discriminate|].
        intros (r' & Hr & Hs' & _). apply Ok_inj in Hr. subst r'.
        contradiction.
      * intros r' _ _. split; reflexivity.
  - eexists None, [_]. split; [reflexivity|].
    split; [repeat constructor|]. split.
    + intros t'. split; [discriminate|]. intros (r' & Hr & _). discriminate Hr.
    + intros r' Hr. discriminate Hr.
Qed.

(** X15.  [get_transcript] never raises and never touches the file system.
    It asks the transcript service once; what the service returns comes
    back as it is (same entries, same order), and when the service raises
    the result is [None] and one message is printed. *)
Theorem get_transcript_contract (video_id : list N) (w : world) :
  exists o evs,
    get_transcript E video_id w
    = (Ok o, World (fs_files w) (fs_dirs w)
                   (trace w ++ EvGetTranscript video_id :: evs))
    /\ (forall t, api_get_transcript E video_id = Ok t ->
                  o = Some t /\ evs = [])
    /\ (forall ex, api_get_transcript E video_id = Raise ex ->
                   o = None
                   /\ evs = [EvPrint (lit "Error fetching transcript: "
                                      ++ exn_msg ex)]).
Proof.
  rewrite run_get_transcript. unfold fetched_transcript, transcript_events.
  destruct (api_get_transcript E video_id) as [t|ex].
  - exists (Some t), []. split; [reflexivity|]. split.
    + intros t' H. apply Ok_inj in H. subst. split; reflexivity.
    + intros ex H. discriminate H.
  - eexists None, [_]. split; [reflexivity|]. split.
    + intros t' H. discriminate H.
    + intros ex' H. injection H as <-. split; reflexivity.
Qed.

(** X16.  [clean_transcript_with_gemini] never raises and never touches the
    file system.  When the client cannot be made (the import or
    [genai.Client] raises) no request is sent: the result is [None] and one
    message is printed.  Otherwise it sends exactly one request, to the
    model [gemini-2.0-flash-exp], whose prompt is the fixed instructions
    followed by the text it was given; the text of the answer comes back as
    it is, and when the request raises the result is [None] and one message
    is printed after it. *)
Theorem clean_transcript_with_gemini_contract (text : list N) (w : world) :
  exists o evs,
    clean_transcript_with_gemini E text w
    = (Ok o, World (fs_files w) (fs_dirs w) (trace w ++ evs))
    /\ (forall ex, genai_client E = Some ex ->
                   o = None
                   /\ evs = [EvPrint
                               (lit "Error cleaning transcript with Gemini: "
                                ++ exn_msg ex)])
    /\ (forall r, genai_client E = None ->
                  generate_content E (lit "gemini-2.0-flash-exp")
                                   (gemini_instructions ++ text) = Ok r ->
                  o = r
                  /\ evs = [EvGenerate (lit "gemini-2.0-flash-exp")
                                       (gemini_instructions ++ text)])
    /\ (forall ex, genai_client E = None ->
                   generate_content E (lit "gemini-2.0-flash-exp")
                                    (gemini_instructions ++ text) = Raise ex ->
                   o = None
                   /\ evs = [EvGenerate (lit "gemini-2.0-flash-exp")
                                        (gemini_instructions ++ text);
                             EvPrint
                               (lit "Error cleaning transcript with Gemini: "
                                ++ exn_msg ex)]).
Proof.
  assert (gemini_prompt text = gemini_instructions ++ text) as Hp.
  { unfold gemini_instructions, gemini_prompt.
    rewrite app_nil_r, <- !app_assoc. reflexivity. }
  rewrite run_clean_transcript_with_gemini.
  unfold cleaned_text, cleaning_events. rewrite Hp.
  change gemini_model with (lit "gemini-2.0-flash-exp").
  destruct (genai_client E) as [ex0|].
  { eexists None, [_]. split; [reflexivity|]. split; [|split].
    - intros ex H. injection H as <-. split; reflexivity.
    - intros r H. discriminate H.
    - intros ex H. discriminate H. }
  destruct (generate_content E (lit "gemini-2.0-flash-exp")
              (gemini_instructions ++ text)) as [r|ex].
  - exists r, [EvGenerate (lit "gemini-2.0-flash-exp")
                          (gemini_instructions ++ text)].
    split; [reflexivity|]. split; [|split].
    + intros ex H. discriminate H.
    + intros r' _ H. apply Ok_inj in H. subst. split; reflexivity.
    + intros ex _ H. discriminate H.
  - eexists None, [_; _]. split; [reflexivity|]. split; [|split].
    + intros ex' H. discriminate H.
    + intros r' _ H. discriminate H.
    + intros ex' _ H. injection H as <-. split; reflexivity.
Qed.

End Lookups.

Lemma clean_transcript_with_gemini_contract_witness :
  clean_transcript_with_gemini no_client (lit "[0:00:00] Hello") empty_world
  = (Ok None,
     World (fs_files empty_world) (fs_dirs empty_world)
           (trace empty_world
            ++ [EvPrint (lit "Error cleaning transcript with Gemini: "
                         ++ lit "cannot import name 'genai' from 'google'")])).
Proof.
  destruct (clean_transcript_with_gemini_contract no_client
              (lit "[0:00:00] Hello") empty_world)
    as (o & evs & Hrun & Hclient & _).
  destruct (Hclient _ eq_refl) as [Ho Hevs].
  rewrite Ho, Hevs in Hrun. exact Hrun.
Defined.

(** ** The save functions *)

Section Saves.

Variable E : env.

(** X17.  Where the file system accepts it, [save_cleaned_transcript]
    returns the path of the cleaned file, and the file then holds the
    heading, the separator and the cleaned text exactly as it was given;
    whatever the file held before is gone, and every other file is as it
    was.  The directory is created only when it is not there. *)
Theorem save_cleaned_transcript_writes_verbatim (video_id : list N)
  (video_title : option (list N)) (text : list N) (w : world) :
  fs_accepts E (cleaned_filepath video_id video_title) w ->
  exists w',
    save_cleaned_transcript E video_id video_title text w
    = (Ok (Some (cleaned_filepath video_id video_title)), w')
    /\ fs_files w'
       = <[cleaned_filepath video_id video_title
           := lit "# " ++ title_or_unknown video_title
              ++ lit " (Cleaned Transcript)" ++ [nl; nl]
              ++ lit "---" ++ [nl; nl] ++ text]> (fs_files w)
    /\ (dir_present w = true -> fs_dirs w' = fs_dirs w)
    /\ (dir_present w = false -> fs_dirs w' = {[transcripts]} ∪ fs_dirs w).
Proof.
  intros Hfs. eexists. split.
  - apply (run_save_cleaned_transcript_accepted E _ _ _ _ Hfs).
  - cbn [fs_files fs_dirs]. split.
    + unfold cleaned_header. rewrite <- !app_assoc. reflexivity.
    + split; intros ->; reflexivity.
Qed.

End Saves.

Lemma save_cleaned_transcript_writes_verbatim_witness :
  exists w',
    save_cleaned_transcript cleaning_down scenario_id
                            (Some (lit "Example Title")) (lit "Hello world.")
                            empty_world
    = (Ok (Some (cleaned_filepath scenario_id (Some (lit "Example Title")))),
       w')
    /\ fs_files w'
       = <[cleaned_filepath scenario_id (Some (lit "Example Title"))
           := lit "# " ++ title_or_unknown (Some (lit "Example Title"))
              ++ lit " (Cleaned Transcript)" ++ [nl; nl]
              ++ lit "---" ++ [nl; nl] ++ lit "Hello world."]>
            (fs_files empty_world)
    /\ (dir_present empty_world = true ->
        fs_dirs w' = fs_dirs empty_world)
    /\ (dir_present empty_world = false ->
        fs_dirs w' = {[transcripts]} ∪ fs_dirs empty_world).
Proof.
  apply (save_cleaned_transcript_writes_verbatim cleaning_down scenario_id
           (Some (lit "Example Title")) (lit "Hello world.") empty_world).
  apply scenario_accepts; reflexivity.
Defined.

Section SaveFailures.

Variable E : env.

Lemma run_ensure_transcripts_dir_refused w ex :
  dir_present w = false ->
  makedirs_error E transcripts = Some ex ->
  ensure_transcripts_dir E w
  = (Raise ex, add_events w [EvMakedirs transcripts]).
Proof.
  intros Hp Hm. unfold ensure_transcripts_dir.
  rewrite run_bind, run_os_path_exists, Hp. cbn [negb].
  unfold os_makedirs. rewrite run_bind, run_emit, Hm. reflexivity.
Qed.

Lemma save_raw_transcript_makedirs_refused video_id video_title transcript
  w ex :
  dir_present w = false ->
  makedirs_error E transcripts = Some ex ->
  save_raw_transcript E video_id video_title transcript w
  = (Raise ex, World (fs_files w) (fs_dirs w)
                     (trace w ++ [EvMakedirs transcripts])).
Proof.
  intros Hp Hm. unfold save_raw_transcript.
  rewrite !run_bind, (run_ensure_transcripts_dir_refused w ex Hp Hm).
  reflexivity.
Qed.

(** X18.  Creating the directory is not guarded: when [transcripts] is
    missing and cannot be created, either save function ends with that
    exception instead of returning [None], having opened and written
    nothing. *)
Theorem save_functions_let_makedirs_raise (video_id : list N)
  (video_title : option (list N)) (transcript : list entry) (text : list N)
  (w : world) (ex : exn) :
  dir_present w = false ->
  makedirs_error E transcripts = Some ex ->
  save_raw_transcript E video_id video_title transcript w
  = (Raise ex, World (fs_files w) (fs_dirs w)
                     (trace w ++ [EvMakedirs transcripts]))
  /\ save_cleaned_transcript E video_id video_title text w
     = (Raise ex, World (fs_files w) (fs_dirs w)
                        (trace w ++ [EvMakedirs transcripts])).
Proof.
  intros Hp Hm. unfold save_raw_transcript, save_cleaned_transcript.
  rewrite !run_bind, (run_ensure_transcripts_dir_refused w ex Hp Hm).
  split; reflexivity.
Qed.

(** X19.  When the file cannot be opened, a save function reports it and
    returns [None]: no exception leaves the function and no file changes. *)
Theorem save_functions_report_open_failure (video_id : list N)
  (video_title : option (list N)) (transcript : list entry) (text : list N)
  (w : world) (ex : exn) :
  dir_present w = true ->
  (open_error E (raw_filepath video_id video_title) = Some ex ->
   save_raw_transcript E video_id video_title transcript w
   = (Ok None,
      World (fs_files w) (fs_dirs w)
            (trace w
             ++ [EvOpen (raw_filepath video_id video_title);
                 EvPrint (lit "Error saving raw transcript: "
                          ++ exn_msg ex)])))
  /\ (open_error E (cleaned_filepath video_id video_title) = Some ex ->
      save_cleaned_transcript E video_id video_title text w
      = (Ok None,
         World (fs_files w) (fs_dirs w)
               (trace w
                ++ [EvOpen (cleaned_filepath video_id video_title);
                    EvPrint (lit "Error saving cleaned transcript: "
                             ++ exn_msg ex)]))).
Proof.
  intros Hp. split; intros Ho.
  - unfold save_raw_transcript.
    rewrite run_bind, (run_ensure_transcripts_dir E w (or_introl Hp)), Hp.
    unfold try_except. rewrite run_bind. unfold open_w at 1.
    rewrite run_bind, run_emit, Ho. unfold raise at 1.
    rewrite run_bind, run_print. unfold add_events.
    cbn [fs_files fs_dirs trace]. rewrite <- app_assoc. reflexivity.
  - unfold save_cleaned_transcript.
    rewrite run_bind, (run_ensure_transcripts_dir E w (or_introl Hp)), Hp.
    unfold try_except. rewrite run_bind. unfold open_w at 1.
    rewrite run_bind, run_emit, Ho. unfold raise at 1.
    rewrite run_bind, run_print. unfold add_events.
    cbn [fs_files fs_dirs trace]. rewrite <- app_assoc. reflexivity.
Qed.

(** The loop over the entries stops at the first entry whose timestamp
    cannot be formatted, with the lines before it written. *)
Lemma write_entries_stop p (good : list entry) bad rest ex :
  (forall chunk, write_error E p chunk = None) ->
  format_timestamp (start bad) = Raise ex ->
  forall lines content files dirs tr,
  res_map format_line good = Ok lines ->
  for_each (good ++ bad :: rest) (fun entry =>
    timestamp ← lift (format_timestamp (start entry));
    write E p (lit "[" ++ timestamp ++ lit "] " ++ text entry ++ [nl]))
    (World (<[p := content]> files) dirs tr)
  = (Raise ex, World (<[p := content ++ raw_body lines]> files) dirs tr).
Proof.
  intros Hw Hbad. induction good as [|e t IH];
    intros lines content files dirs tr Hl.
  - apply Ok_inj in Hl. subst lines. cbn [app for_each].
    rewrite run_bind, run_bind. unfold lift at 1. rewrite Hbad.
    unfold raw_body. cbn [List.map concat]. rewrite app_nil_r. reflexivity.
  - cbn [res_map] in Hl. unfold format_line at 1 in Hl.
    cbn [app for_each]. rewrite run_bind, run_bind. unfold lift at 1.
    destruct (format_timestamp (start e)) as [ts|ex']; [|discriminate Hl].
    cbn [res_bind] in Hl.
    destruct (res_map format_line t) as [ls|ex'] eqn:Hls; [|discriminate Hl].
    cbn [res_bind] in Hl. apply Ok_inj in Hl. subst lines.
    unfold write at 1. rewrite Hw. cbn [fs_files fs_dirs trace].
    rewrite alter_insert_eq. rewrite (IH ls _ files dirs tr eq_refl).
    unfold raw_body. cbn [List.map concat].
    rewrite <- !app_assoc. reflexivity.
Qed.

(** X20.  Called on a transcript with an entry whose start offset cannot be
    formatted (NaN, infinite, out of range), [save_raw_transcript] keeps the
    exception inside: it returns [None], reports the error, and leaves a
    shortened file with the heading and the lines before that entry. *)
Theorem save_raw_transcript_stops_at_bad_entry (video_id : list N)
  (video_title : option (list N)) (good : list entry) (bad : entry)
  (rest : list entry) (lines : list (list N)) (ex : exn) (w : world) :
  fs_accepts E (raw_filepath video_id video_title) w ->
  res_map format_line good = Ok lines ->
  format_timestamp (start bad) = Raise ex ->
  exists w',
    save_raw_transcript E video_id video_title (good ++ bad :: rest) w
    = (Ok None, w')
    /\ fs_files w'
       = <[raw_filepath video_id video_title
           := raw_header video_title ++ raw_body lines]> (fs_files w)
    /\ exists evs,
         trace w'
         = trace w ++ evs
           ++ [EvPrint (lit "Error saving raw transcript: " ++ exn_msg ex)].
Proof.
  intros (Hd & Hopen & Hwrite) Hl Hbad.
  set (path := raw_filepath video_id video_title) in *.
  unfold save_raw_transcript. fold path.
  rewrite run_bind, (run_ensure_transcripts_dir E w Hd). unfold try_except.
  set (w0 := if dir_present w then w else _).
  rewrite run_bind. unfold open_w at 1. rewrite run_bind, run_emit, Hopen.
  cbn [add_events fs_files fs_dirs trace].
  do 2 (rewrite run_bind; unfold write at 1; rewrite Hwrite;
        cbn [fs_files fs_dirs trace]; rewrite alter_insert_eq).
  rewrite run_bind.
  rewrite (write_entries_stop path good bad rest ex Hwrite Hbad lines
             _ _ _ _ Hl).
  rewrite run_bind, run_print. eexists. split; [reflexivity|].
  cbn [add_events fs_files fs_dirs trace]. split.
  - unfold raw_header, w0. destruct (dir_present w); cbn [fs_files];
      repeat first [rewrite <- app_assoc | progress cbn [app]]; reflexivity.
  - exists ((if dir_present w then [] else [EvMakedirs transcripts])
            ++ [EvOpen path]).
    unfold w0. destruct (dir_present w); cbn [trace app];
      repeat first [rewrite <- app_assoc | progress cbn [app]]; reflexivity.
Qed.

End SaveFailures.

Lemma save_functions_let_makedirs_raise_witness :
  save_raw_transcript no_makedirs scenario_id (Some (lit "Example Title"))
                      scenario_transcript empty_world
  = (Raise permission_denied,
     World (fs_files empty_world) (fs_dirs empty_world)
           (trace empty_world ++ [EvMakedirs transcripts]))
  /\ save_cleaned_transcript no_makedirs scenario_id
                             (Some (lit "Example Title"))
                             (lit "Hello world.") empty_world
     = (Raise permission_denied,
        World (fs_files empty_world) (fs_dirs empty_world)
              (trace empty_world ++ [EvMakedirs transcripts])).
Proof.
  apply (save_functions_let_makedirs_raise no_makedirs scenario_id
           (Some (lit "Example Title")) scenario_transcript
           (lit "Hello world.") empty_world permission_denied);
    reflexivity.
Defined.

Lemma save_functions_report_open_failure_witness :
  save_raw_transcript no_open scenario_id (Some (lit "Example Title"))
                      scenario_transcript world_with_dir
  = (Ok None,
     World (fs_files world_with_dir) (fs_dirs world_with_dir)
           (trace world_with_dir
            ++ [EvOpen (raw_filepath scenario_id (Some (lit "Example Title")));
                EvPrint (lit "Error saving raw transcript: "
                         ++ exn_msg permission_denied)]))
  /\ save_cleaned_transcript no_open scenario_id (Some (lit "Example Title"))
                             (lit "Hello world.") world_with_dir
     = (Ok None,
        World (fs_files world_with_dir) (fs_dirs world_with_dir)
              (trace world_with_dir
               ++ [EvOpen (cleaned_filepath scenario_id
                             (Some (lit "Example Title")));
                   EvPrint (lit "Error saving cleaned transcript: "
                            ++ exn_msg permission_denied)])).
Proof.
  destruct (save_functions_report_open_failure no_open scenario_id
              (Some (lit "Example Title")) scenario_transcript
              (lit "Hello world.") world_with_dir permission_denied eq_refl)
    as [Hraw Hcleaned].
  split; [apply Hraw | apply Hcleaned]; reflexivity.
Defined.

Lemma save_raw_transcript_stops_at_bad_entry_witness :
  exists w',
    save_raw_transcript cleaning_down scenario_id (Some (lit "Example Title"))
                        (scenario_transcript ++ nan_entry :: []) empty_world
    = (Ok None, w')
    /\ fs_files w'
       = <[raw_filepath scenario_id (Some (lit "Example Title"))
           := raw_header (Some (lit "Example Title"))
              ++ raw_body scenario_lines]> (fs_files empty_world)
    /\ exists evs,
         trace w'
         = trace empty_world ++ evs
           ++ [EvPrint (lit "Error saving raw transcript: "
                        ++ exn_msg (Exn "ValueError"
                                        (lit "cannot convert float NaN to integer")))].
Proof.
  apply (save_raw_transcript_stops_at_bad_entry cleaning_down scenario_id
           (Some (lit "Example Title")) scenario_transcript nan_entry []
           scenario_lines
           (Exn "ValueError" (lit "cannot convert float NaN to integer"))
           empty_world);
    [apply scenario_accepts; reflexivity | reflexivity | reflexivity].
Defined.

(** ** [main] *)

Section MainRuns.

Variable E : env.

Lemma run_main_unparsed w :
  extract_video_id (stdin_line E) = None ->
  main E w
  = (Ok tt,
     add_events w [EvInput (lit "Please enter the YouTube video URL: ");
                   EvPrint (lit "Invalid YouTube URL.")]).
Proof.
  intros H. unfold main. rewrite run_bind, run_input. cbv zeta. rewrite H.
  rewrite run_print, add_events_app. reflexivity.
Qed.

(** X21.  A line in which no identifier is found ends the run at once:
    [main] prints [Invalid YouTube URL.] and returns, with no request sent
    and the file system as it was. *)
Theorem main_rejects_unparsed_url (w : world) :
  extract_video_id (stdin_line E) = None ->
  main E w
  = (Ok tt,
     World (fs_files w) (fs_dirs w)
           (trace w ++ [EvInput (lit "Please enter the YouTube video URL: ");
                        EvPrint (lit "Invalid YouTube URL.")])).
Proof. intros H. rewrite (run_main_unparsed w H). reflexivity. Qed.

Lemma run_main_unformattable video_id e t ex w :
  extract_video_id (stdin_line E) = Some video_id ->
  fetched_transcript E video_id = Some (e :: t) ->
  res_map format_line (e :: t) = Raise ex ->
  main E w
  = (Raise ex,
     add_events w
       ([EvInput (lit "Please enter the YouTube video URL: ");
         EvPrint (lit "Video ID: " ++ video_id)]
        ++ title_events E video_id ++ transcript_events E video_id)).
Proof.
  intros Hid Ht Hl. destruct (video_id_cons _ _ Hid) as (c & rest & ->).
  unfold main. rewrite run_bind, run_input. cbv zeta. rewrite Hid.
  rewrite run_bind, run_print, run_bind, run_get_video_title.
  rewrite run_bind, run_get_transcript, Ht.
  rewrite run_bind. unfold lift at 1. rewrite Hl.
  rewrite !add_events_app. reflexivity.
Qed.

(** X22.  Formatting the lines is not guarded: when the timestamp of any
    caption cannot be formatted, [main] ends with that exception right after
    the two lookups, before anything is printed of the transcript, with no
    file touched and no request sent to the cleaning service. *)
Theorem main_raises_on_bad_timestamp (w : world) (video_id : list N)
  (e : entry) (t : list entry) (ex : exn) :
  extract_video_id (stdin_line E) = Some video_id ->
  fetched_transcript E video_id = Some (e :: t) ->
  res_map format_line (e :: t) = Raise ex ->
  exists evs,
    main E w = (Raise ex, World (fs_files w) (fs_dirs w) (trace w ++ evs))
    /\ Forall (fun ev => is_file_event ev = false /\ is_generate ev = false)
              evs.
Proof.
  intros Hid Ht Hl. eexists. split.
  - rewrite (run_main_unformattable video_id e t ex w Hid Ht Hl).
    reflexivity.
  - eapply Forall_impl; [|intros ev; apply quiet_no_output].
    rewrite !Forall_app; repeat split.
    + repeat constructor.
    + apply quiet_title_events.
    + apply quiet_transcript_events.
Qed.

(** X23.  When the output directory is missing and cannot be created,
    [main] ends with that exception: the transcript was fetched and printed,
    but no file is opened and the cleaning service is never asked. *)
Theorem main_raises_when_directory_refused (w : world) (video_id : list N)
  (e : entry) (t : list entry) (lines : list (list N)) (ex : exn) :
  extract_video_id (stdin_line E) = Some video_id ->
  fetched_transcript E video_id = Some (e :: t) ->
  res_map format_line (e :: t) = Ok lines ->
  dir_present w = false ->
  makedirs_error E transcripts = Some ex ->
  exists evs,
    main E w
    = (Raise ex,
       World (fs_files w) (fs_dirs w)
             (trace w ++ evs ++ [EvMakedirs transcripts]))
    /\ Forall quiet evs.
Proof.
  intros Hid Ht Hl Hp Hm.
  rewrite (run_main_available E video_id e t lines w Hid Ht Hl).
  assert (dir_present (add_events w (announce_events E video_id lines))
          = false) as Hpa by exact Hp.
  rewrite (save_raw_transcript_makedirs_refused E video_id
             (looked_up_title E video_id) (e :: t)
             (add_events w (announce_events E video_id lines)) ex Hpa Hm).
  exists (announce_events E video_id lines).
  split; [|apply quiet_announce_events].
  unfold add_events. cbn [fs_files fs_dirs trace].
  rewrite <- app_assoc. reflexivity.
Qed.

Lemma fs_accepts_later p w w' :
  fs_accepts E p w -> dir_present w' = true -> fs_accepts E p w'.
Proof. intros (_ & Ho & Hw) Hd. split; [left; exact Hd|]. split; assumption. Qed.

(** X24.  When every service answers and the file system accepts both
    files, the run ends normally with exactly two files changed: the raw
    file holds its heading and every line, the cleaned file holds its
    heading and the text of the cleaning service, unchanged. *)
Theorem main_saves_both_files (w : world) (video_id : list N) (e : entry)
  (t : list entry) (lines : list (list N)) (c : N) (cs : list N) :
  extract_video_id (stdin_line E) = Some video_id ->
  fetched_transcript E video_id = Some (e :: t) ->
  res_map format_line (e :: t) = Ok lines ->
  cleaned_text E (join [nl] lines) = Some (c :: cs) ->
  fs_accepts E (raw_filepath video_id (looked_up_title E video_id)) w ->
  fs_accepts E (cleaned_filepath video_id (looked_up_title E video_id)) w ->
  exists w',
    main E w = (Ok tt, w')
    /\ fs_files w'
       = <[cleaned_filepath video_id (looked_up_title E video_id)
           := cleaned_header (looked_up_title E video_id) ++ c :: cs]>
           (<[raw_filepath video_id (looked_up_title E video_id)
              := raw_header (looked_up_title E video_id) ++ raw_body lines]>
              (fs_files w))
    /\ dir_present w' = true.
Proof.
  intros Hid Ht Hl Hc Hraw Hcl.
  rewrite (run_main_available E video_id e t lines w Hid Ht Hl).
  set (title := looked_up_title E video_id) in *.
  set (wa := add_events w (announce_events E video_id lines)).
  assert (fs_accepts E (raw_filepath video_id title) wa) as Hfa by exact Hraw.
  rewrite (run_save_raw_transcript_accepted E video_id title (e :: t) lines
             wa Hfa Hl).
  cbv zeta.
  match goal with |- context [after_raw E video_id lines ?w1] =>
    set (ws := w1) end.
  assert (dir_present ws = true) as Hdir
      by (apply (dir_present_after_save E); apply Hfa).
  unfold after_raw. cbv zeta. rewrite Hc. fold title.
  match goal with |- context [save_cleaned_transcript _ _ _ _ ?w1] =>
    set (wc := w1) end.
  assert (dir_present wc = true) as Hdc by exact Hdir.
  rewrite (run_save_cleaned_transcript_accepted E video_id title (c :: cs) wc
             (fs_accepts_later _ w wc Hcl Hdc)).
  eexists. split; [reflexivity|]. cbn [fs_files]. split; [reflexivity|].
  apply (dir_present_after_save E). left. exact Hdc.
Qed.

Lemma run_save_raw_transcript_open_refused video_id video_title transcript
  w ex :
  dir_present w = true ->
  open_error E (raw_filepath video_id video_title) = Some ex ->
  save_raw_transcript E video_id video_title transcript w
  = (Ok None,
     add_events w [EvOpen (raw_filepath video_id video_title);
                   EvPrint (lit "Error saving raw transcript: "
                            ++ exn_msg ex)]).
Proof.
  intros Hp Ho. unfold save_raw_transcript.
  rewrite run_bind, (run_ensure_transcripts_dir E w (or_introl Hp)), Hp.
  unfold try_except. rewrite run_bind. unfold open_w at 1.
  rewrite run_bind, run_emit, Ho. unfold raise at 1.
  rewrite run_bind, run_print, add_events_app. reflexivity.
Qed.

(** X25.  A raw file that cannot be opened does not stop the run: the
    failure is printed, the cleaning service is still asked, and the cleaned
    file is written; it is then the only file that changed. *)
Theorem main_cleans_after_raw_failure (w : world) (video_id : list N)
  (e : entry) (t : list entry) (lines : list (list N)) (c : N) (cs : list N)
  (ex : exn) :
  extract_video_id (stdin_line E) = Some video_id ->
  fetched_transcript E video_id = Some (e :: t) ->
  res_map format_line (e :: t) = Ok lines ->
  cleaned_text E (join [nl] lines) = Some (c :: cs) ->
  dir_present w = true ->
  open_error E (raw_filepath video_id (looked_up_title E video_id))
  = Some ex ->
  fs_accepts E (cleaned_filepath video_id (looked_up_title E video_id)) w ->
  exists w',
    main E w = (Ok tt, w')
    /\ fs_files w'
       = <[cleaned_filepath video_id (looked_up_title E video_id)
           := cleaned_header (looked_up_title E video_id) ++ c :: cs]>
           (fs_files w)
    /\ In (EvPrint (lit "Error saving raw transcript: " ++ exn_msg ex))
          (trace w')
    /\ In (EvGenerate gemini_model (gemini_prompt (join [nl] lines)))
          (trace w').
Proof.
  intros Hid Ht Hl Hc Hp Ho Hcl.
  rewrite (run_main_available E video_id e t lines w Hid Ht Hl).
  set (title := looked_up_title E video_id) in *.
  set (wa := add_events w (announce_events E video_id lines)).
  assert (dir_present wa = true) as Hpa by exact Hp.
  rewrite (run_save_raw_transcript_open_refused video_id title (e :: t) wa ex
             Hpa Ho).
  unfold after_raw. cbv zeta. rewrite Hc. fold title.
  match goal with |- context [save_cleaned_transcript _ _ _ _ ?w1] =>
    set (wc := w1) end.
  assert (dir_present wc = true) as Hdc by exact Hp.
  rewrite (run_save_cleaned_transcript_accepted E video_id title (c :: cs) wc
             (fs_accepts_later _ w wc Hcl Hdc)).
  eexists. split; [reflexivity|]. cbn [fs_files]. split; [reflexivity|].
  cbn [trace]. rewrite Hdc. unfold wc, wa, add_events, request_events.
  cbn [trace fs_files fs_dirs].
  assert (genai_client E = None) as Hclient.
  { unfold cleaned_text in Hc. destruct (genai_client E); [discriminate Hc|].
    reflexivity. }
  pose proof (cleaning_events_sent E (join [nl] lines) Hclient) as Hsent.
  split; rewrite !in_app_iff; cbn [In]; tauto.
Qed.

(** *** Counting the requests of a run *)

Lemma count_events_app kind evs1 evs2 :
  count_events kind (evs1 ++ evs2)
  = (count_events kind evs1 + count_events kind evs2)%nat.
Proof.
  unfold count_events. rewrite List.filter_app, length_app. reflexivity.
Qed.

Lemma count_events_none kind evs :
  Forall (fun ev => kind ev = false) evs -> count_events kind evs = 0%nat.
Proof.
  unfold count_events. induction 1 as [|ev evs Hev _ IH]; cbn [List.filter].
  - reflexivity.
  - rewrite Hev. exact IH.
Qed.

Lemma count_save_events p kind evs :
  (forall ev, save_event p ev -> kind ev = false) ->
  Forall (save_event p) evs -> count_events kind evs = 0%nat.
Proof.
  intros Hk H. apply count_events_none. eapply Forall_impl; [|exact Hk].
  exact H.
Qed.

Lemma save_event_no_request p ev :
  save_event p ev ->
  is_http_get ev = false /\ is_get_transcript ev = false
  /\ is_generate ev = false.
Proof. destruct ev; cbn; tauto. Qed.

Lemma count_title_events video_id :
  count_events is_http_get (title_events E video_id) = 1%nat
  /\ count_events is_get_transcript (title_events E video_id) = 0%nat
  /\ count_events is_generate (title_events E video_id) = 0%nat.
Proof.
  unfold title_events.
  destruct (requests_get E (oembed_url video_id)) as [r|ex];
    [destruct (status_code r =? 200)%Z; [destruct (json_title r)|]|];
    repeat split; reflexivity.
Qed.

Lemma count_transcript_events video_id :
  count_events is_http_get (transcript_events E video_id) = 0%nat
  /\ count_events is_get_transcript (transcript_events E video_id) = 1%nat
  /\ count_events is_generate (transcript_events E video_id) = 0%nat.
Proof.
  unfold transcript_events.
  destruct (api_get_transcript E video_id); repeat split; reflexivity.
Qed.

Lemma count_cleaning_events text :
  count_events is_http_get (cleaning_events E text) = 0%nat
  /\ count_events is_get_transcript (cleaning_events E text) = 0%nat
  /\ (count_events is_generate (cleaning_events E text) <= 1)%nat.
Proof.
  unfold cleaning_events.
  destruct (genai_client E);
    [|destruct (generate_content E gemini_model (gemini_prompt text))];
    repeat split; cbv; lia.
Qed.

Lemma count_events_cons kind ev evs :
  count_events kind (ev :: evs)
  = ((if kind ev then 1 else 0) + count_events kind evs)%nat.
Proof. unfold count_events. cbn [List.filter]. destruct (kind ev); reflexivity. Qed.

Lemma count_events_nil kind : count_events kind [] = 0%nat.
Proof. reflexivity. Qed.

Lemma count_request_events lines :
  count_events is_http_get (request_events E lines) = 0%nat
  /\ count_events is_get_transcript (request_events E lines) = 0%nat
  /\ (count_events is_generate (request_events E lines) <= 1)%nat.
Proof.
  unfold request_events. rewrite !count_events_cons.
  destruct (count_cleaning_events (join [nl] lines)) as (-> & -> & H).
  repeat split; try reflexivity. exact H.
Qed.

(** X26.  In every environment and from every world, a run sends each kind
    of request at most once (nothing is retried), and the only files it can
    change are the raw and the cleaned file of the identifier it found; with
    no identifier found it changes none. *)
Theorem main_asks_once_and_touches_two_files (w : world) :
  exists r w' evs,
    main E w = (r, w')
    /\ trace w' = trace w ++ evs
    /\ (count_events is_http_get evs <= 1)%nat
    /\ (count_events is_get_transcript evs <= 1)%nat
    /\ (count_events is_generate evs <= 1)%nat
    /\ forall q,
         (forall video_id,
             extract_video_id (stdin_line E) = Some video_id ->
             q <> raw_filepath video_id (looked_up_title E video_id)
             /\ q <> cleaned_filepath video_id (looked_up_title E video_id)) ->
         fs_files w' !! q = fs_files w !! q.
Proof.
  destruct (extract_video_id (stdin_line E)) as [video_id|] eqn:Hid.
  2: { rewrite (run_main_unparsed w Hid). eexists _, _, _.
       split; [reflexivity|]. split; [reflexivity|].
       repeat split; try (cbv; lia). }
  pose proof (count_title_events video_id) as (Ht1 & Ht2 & Ht3).
  pose proof (count_transcript_events video_id) as (Hc1 & Hc2 & Hc3).
  destruct (fetched_transcript E video_id) as [[|e t]|] eqn:Ht.
  1, 3: rewrite (run_main_absent E video_id w Hid)
          by (rewrite Ht; reflexivity);
        eexists _, _, _; (split; [reflexivity|]); (split; [reflexivity|]);
        rewrite !count_events_app, !count_events_cons, !count_events_nil,
          Ht1, Ht2, Ht3, Hc1, Hc2, Hc3; cbn;
        repeat split; lia.
  destruct (res_map format_line (e :: t)) as [lines|ex] eqn:Hl.
  2: { rewrite (run_main_unformattable video_id e t ex w Hid Ht Hl).
       eexists _, _, _. split; [reflexivity|]. split; [reflexivity|].
       rewrite !count_events_app, !count_events_cons, !count_events_nil,
         Ht1, Ht2, Ht3, Hc1, Hc2, Hc3. cbn. repeat split; lia. }
  rewrite (run_main_available E video_id e t lines w Hid Ht Hl).
  set (title := looked_up_title E video_id) in *.
  assert (count_events is_http_get (announce_events E video_id lines) = 1
          /\ count_events is_get_transcript (announce_events E video_id lines)
             = 1
          /\ count_events is_generate (announce_events E video_id lines) = 0)%nat
    as (Ha1 & Ha2 & Ha3).
  { unfold announce_events.
    rewrite !count_events_app, !count_events_cons, !count_events_nil,
      Ht1, Ht2, Ht3, Hc1, Hc2, Hc3. cbn. repeat split; lia. }
  destruct (confined_save_raw_transcript E video_id title (e :: t)
              (add_events w (announce_events E video_id lines)))
    as (r1 & w1 & evs1 & Hrun1 & Hfiles1 & Htrace1 & Hevs1).
  cbn [add_events fs_files trace] in Hfiles1, Htrace1.
  assert (count_events is_http_get evs1 = 0
          /\ count_events is_get_transcript evs1 = 0
          /\ count_events is_generate evs1 = 0)%nat as (Hs1 & Hs2 & Hs3).
  { repeat split;
      (eapply count_save_events; [|exact Hevs1]);
      intros ev Hev; apply save_event_no_request in Hev; tauto. }
  rewrite Hrun1. destruct r1 as [r1|ex].
  2: { exists (Raise ex), w1, (announce_events E video_id lines ++ evs1).
       split; [reflexivity|].
       split; [rewrite Htrace1, <- app_assoc; reflexivity|].
       rewrite !count_events_app, Ha1, Ha2, Ha3, Hs1, Hs2, Hs3.
       repeat split; try lia.
       intros q Hq. destruct (Hq video_id eq_refl) as [Hq1 _].
       apply Hfiles1, Hq1. }
  pose proof (count_request_events lines) as (Hg1 & Hg2 & Hg3).
  unfold after_raw. cbv zeta. fold title.
  destruct (cleaned_text E (join [nl] lines)) as [[|c cs]|].
  1, 3: exists (Ok tt), (add_events
                  (add_events w1 (request_events E lines))
                  [EvPrint (lit "Failed to clean transcript.")]),
          (announce_events E video_id lines ++ evs1
           ++ request_events E lines
           ++ [EvPrint (lit "Failed to clean transcript.")]);
        (split; [reflexivity|]);
        (split; [cbn [add_events trace]; rewrite Htrace1;
                 repeat rewrite <- app_assoc; reflexivity|]);
        rewrite !count_events_app, Ha1, Ha2, Ha3, Hs1, Hs2, Hs3,
          Hg1, Hg2;
        revert Hg3; generalize (count_events is_generate (request_events E lines)); intros g Hg3; cbn;
        repeat split; try lia;
        intros q Hq; destruct (Hq video_id eq_refl) as [Hq1 _];
        cbn [add_events fs_files]; apply Hfiles1, Hq1.
  match goal with |- context [save_cleaned_transcript _ _ _ _ ?w0] =>
    set (wc := w0) end.
  destruct (confined_save_cleaned_transcript E video_id title (c :: cs) wc)
    as (r2 & w2 & evs2 & Hrun2 & Hfiles2 & Htrace2 & Hevs2).
  assert (count_events is_http_get evs2 = 0
          /\ count_events is_get_transcript evs2 = 0
          /\ count_events is_generate evs2 = 0)%nat as (Hz1 & Hz2 & Hz3).
  { repeat split;
      (eapply count_save_events; [|exact Hevs2]);
      intros ev Hev; apply save_event_no_request in Hev; tauto. }
  rewrite Hrun2.
  exists (match r2 with Ok _ => Ok tt | Raise ex => Raise ex end), w2,
    (announce_events E video_id lines ++ evs1 ++ request_events E lines
     ++ [EvPrint ([nl] ++ lit "Cleaned Transcript:"); EvPrint bar;
         EvPrint (c :: cs)] ++ evs2).
  split; [destruct r2; reflexivity|].
  split.
  { rewrite Htrace2. unfold wc. cbn [add_events trace]. rewrite Htrace1.
    repeat rewrite <- app_assoc. reflexivity. }
  rewrite !count_events_app, Ha1, Ha2, Ha3, Hs1, Hs2, Hs3,
    Hg1, Hg2, Hz1, Hz2, Hz3.
  revert Hg3; generalize (count_events is_generate (request_events E lines)); intros g Hg3. cbn.
  repeat split; try lia.
  intros q Hq. destruct (Hq video_id eq_refl) as [Hq1 Hq2].
  rewrite (Hfiles2 q Hq2). unfold wc. cbn [add_events fs_files].
  apply Hfiles1, Hq1.
Qed.

(** X27.  An empty title is treated like a missing one: the raw file is
    named after the identifier and its heading reads [Unknown Title]. *)
Theorem empty_title_uses_identifier (w : world) (video_id : list N)
  (e : entry) (t : list entry) (lines : list (list N)) :
  extract_video_id (stdin_line E) = Some video_id ->
  looked_up_title E video_id = Some [] ->
  fetched_transcript E video_id = Some (e :: t) ->
  res_map format_line (e :: t) = Ok lines ->
  fs_accepts E (lit "transcripts/" ++ video_id ++ lit "_raw.md") w ->
  exists w',
    main E w = (Ok tt, w')
    /\ fs_files w' !! (lit "transcripts/" ++ video_id ++ lit "_raw.md")
       = Some (lit "# Unknown Title (Raw Transcript)" ++ [nl; nl]
               ++ lit "---" ++ [nl; nl] ++ raw_body lines).
Proof.
  intros Hid Htitle Ht Hl Hfs.
  rewrite <- (raw_filepath_no_title _ _ Hid) in *.
  change (raw_filepath video_id None) with (raw_filepath video_id (Some []))
    in *.
  rewrite <- Htitle in Hfs.
  destruct (main_saves_raw E video_id e t lines w Hid Ht Hl Hfs)
    as (w' & evs1 & evs2 & Hrun & Hfile & _).
  exists w'. split; [exact Hrun|].
  rewrite Htitle in Hfile. exact Hfile.
Qed.

End MainRuns.

(** *** Where the files go *)

(** X28.  With an identifier that [extract_video_id] returned, whatever the
    title, both files lie directly in [transcripts/]: the base name holds
    none of the characters of [invalid_chars], the slash among them, so no
    title can put a file in another directory. *)
Theorem run_files_stay_in_transcripts (url video_id : list N)
  (video_title : option (list N)) :
  extract_video_id url = Some video_id ->
  Forall (fun c => ~ In c invalid_chars) (base_filename video_id video_title)
  /\ raw_filepath video_id video_title
     = lit "transcripts/" ++ base_filename video_id video_title
       ++ lit "_raw.md"
  /\ cleaned_filepath video_id video_title
     = lit "transcripts/" ++ base_filename video_id video_title ++ lit ".md".
Proof. apply run_filepaths. Qed.

(** *** The theorems on [main] at concrete runs *)

Lemma main_rejects_unparsed_url_witness :
  main bad_url empty_world
  = (Ok tt,
     World (fs_files empty_world) (fs_dirs empty_world)
           (trace empty_world
            ++ [EvInput (lit "Please enter the YouTube video URL: ");
                EvPrint (lit "Invalid YouTube URL.")])).
Proof.
  apply (main_rejects_unparsed_url bad_url empty_world). reflexivity.
Defined.

Lemma main_raises_on_bad_timestamp_witness :
  exists evs,
    main nan_captions empty_world
    = (Raise (Exn "ValueError" (lit "cannot convert float NaN to integer")),
       World (fs_files empty_world) (fs_dirs empty_world)
             (trace empty_world ++ evs))
    /\ Forall (fun ev => is_file_event ev = false /\ is_generate ev = false)
              evs.
Proof.
  apply (main_raises_on_bad_timestamp nan_captions empty_world scenario_id
           {| start := S754_zero false; text := lit "Hello" |}
           [{| start := S754_finite false 8584986789675008 (-47);
               text := lit "world" |}; nan_entry]
           (Exn "ValueError" (lit "cannot convert float NaN to integer")));
    reflexivity.
Defined.

Lemma main_raises_when_directory_refused_witness :
  exists evs,
    main no_makedirs empty_world
    = (Raise permission_denied,
       World (fs_files empty_world) (fs_dirs empty_world)
             (trace empty_world ++ evs ++ [EvMakedirs transcripts]))
    /\ Forall quiet evs.
Proof.
  apply (main_raises_when_directory_refused no_makedirs empty_world
           scenario_id
           {| start := S754_zero false; text := lit "Hello" |}
           [{| start := S754_finite false 8584986789675008 (-47);
               text := lit "world" |}]
           scenario_lines permission_denied);
    reflexivity.
Defined.

Lemma main_saves_both_files_witness :
  exists w',
    main all_up empty_world = (Ok tt, w')
    /\ fs_files w'
       = <[cleaned_filepath scenario_id (looked_up_title all_up scenario_id)
           := cleaned_header (looked_up_title all_up scenario_id)
              ++ 72%N :: lit "ello world."]>
           (<[raw_filepath scenario_id (looked_up_title all_up scenario_id)
              := raw_header (looked_up_title all_up scenario_id)
                 ++ raw_body scenario_lines]>
              (fs_files empty_world))
    /\ dir_present w' = true.
Proof.
  apply (main_saves_both_files all_up empty_world scenario_id
           {| start := S754_zero false; text := lit "Hello" |}
           [{| start := S754_finite false 8584986789675008 (-47);
               text := lit "world" |}]
           scenario_lines 72%N (lit "ello world."));
    [reflexivity | reflexivity | reflexivity | reflexivity
    | apply scenario_accepts; reflexivity
    | apply scenario_accepts; reflexivity].
Defined.

Lemma main_cleans_after_raw_failure_witness :
  exists w',
    main raw_refused world_with_dir = (Ok tt, w')
    /\ fs_files w'
       = <[cleaned_filepath scenario_id
             (looked_up_title raw_refused scenario_id)
           := cleaned_header (looked_up_title raw_refused scenario_id)
              ++ 72%N :: lit "ello world."]>
           (fs_files world_with_dir)
    /\ In (EvPrint (lit "Error saving raw transcript: "
                    ++ exn_msg permission_denied))
          (trace w')
    /\ In (EvGenerate gemini_model
                      (gemini_prompt (join [nl] scenario_lines)))
          (trace w').
Proof.
  apply (main_cleans_after_raw_failure raw_refused world_with_dir scenario_id
           {| start := S754_zero false; text := lit "Hello" |}
           [{| start := S754_finite false 8584986789675008 (-47);
               text := lit "world" |}]
           scenario_lines 72%N (lit "ello world.") permission_denied);
    [reflexivity | reflexivity | reflexivity | reflexivity | reflexivity
    | vm_compute; reflexivity
    | split; [left; reflexivity
             |split; [vm_compute; reflexivity | intros chunk; reflexivity]]].
Defined.

Lemma empty_title_uses_identifier_witness :
  exists w',
    main title_empty empty_world = (Ok tt, w')
    /\ fs_files w' !! (lit "transcripts/" ++ scenario_id ++ lit "_raw.md")
       = Some (lit "# Unknown Title (Raw Transcript)" ++ [nl; nl]
               ++ lit "---" ++ [nl; nl] ++ raw_body scenario_lines).
Proof.
  apply (empty_title_uses_identifier title_empty empty_world scenario_id
           {| start := S754_zero false; text := lit "Hello" |}
           [{| start := S754_finite false 8584986789675008 (-47);
               text := lit "world" |}]
           scenario_lines);
    [reflexivity | reflexivity | reflexivity | reflexivity
    | apply scenario_accepts; reflexivity].
Defined.

Lemma run_files_stay_in_transcripts_witness :
  Forall (fun c => ~ In c invalid_chars)
         (base_filename scenario_id (Some (lit "a/b: c?")))
  /\ raw_filepath scenario_id (Some (lit "a/b: c?"))
     = lit "transcripts/" ++ base_filename scenario_id (Some (lit "a/b: c?"))
       ++ lit "_raw.md"
  /\ cleaned_filepath scenario_id (Some (lit "a/b: c?"))
     = lit "transcripts/" ++ base_filename scenario_id (Some (lit "a/b: c?"))
       ++ lit ".md".
Proof.
  apply (run_files_stay_in_transcripts
           (lit "https://www.youtube.com/watch?v=dQw4w9WgXcQ") scenario_id
           (Some (lit "a/b: c?"))).
  reflexivity.
Defined.
